(** * EPL player dashboard: loader, filter engine and aggregator

    A shallow embedding of [dashboard_epl.py].  The script is a pandas
    pipeline: [load_data] reads a CSV file and turns percentage text
    columns into fractions, the filter section derives [filtered_df] from
    three sidebar selections, and the KPI block and the two chart tabs
    aggregate over [filtered_df].

    Conventions of the model.
    - A pandas data frame is kept row-major: a list of column headers with
      their dtype and a list of rows; each row carries its index label.
    - Python exceptions are values of [exn]; fallible code lives in the
      [result] monad.
    - int64 arithmetic wraps modulo 2^64 ([wrap64]); float64 values are
      idealised as exact rationals ([Q]), with [NaN] kept apart.
    - numpy's default sort (kind = quicksort) gives no promise on the order
      of equal keys: it is a parameter constrained by [sort_contract].
      Python's string-to-float conversion is a parameter as well. *)

From Stdlib Require Import List String Ascii ZArith QArith Bool Lia Lqa.
From Stdlib Require Import Permutation Sorted Arith Qround Qabs.
From Stdlib Require OrderedTypeEx.
Import ListNotations.

(* ================================================================== *)
(** ** Exceptions and the error monad *)

Inductive exn : Type :=
| FileNotFoundError
| PermissionError
| ParserError
| KeyError (column : string)
| TypeError
| ValueError
| NotModelled.   (* behaviour of pandas outside the dtypes covered here *)

Inductive result (A : Type) : Type :=
| Ok (a : A)
| Raise (e : exn).

Arguments Ok {A} a.
Arguments Raise {A} e.

Definition bind {A B : Type} (m : result A) (k : A -> result B) : result B :=
  match m with
  | Ok a => k a
  | Raise e => Raise e
  end.

Notation "x <- m ;; k" := (bind m (fun x => k))
  (at level 61, m at next level, right associativity).

Fixpoint mapM {A B : Type} (f : A -> result B) (l : list A) : result (list B) :=
  match l with
  | [] => Ok []
  | x :: xs => y <- f x ;; ys <- mapM f xs ;; Ok (y :: ys)
  end.

(* ================================================================== *)
(** ** Data model *)

Inductive dtype : Type := object | int64 | float64.

(** One cell of a frame.  An object column holds strings and missing
    values; pandas stores a missing value as the float [nan] whatever the
    column. *)
Inductive cell : Type :=
| Str (s : string)
| Int (z : Z)
| Flt (q : Q)
| NaN.

Record Row : Type := { label : nat; cells : list cell }.

Record DataFrame : Type := {
  columns : list (string * dtype);
  rows : list Row
}.

(** A column taken out of a frame. *)
Record Series : Type := { sdtype : dtype; values : list cell }.

Definition dtype_eqb (a b : dtype) : bool :=
  match a, b with
  | object, object | int64, int64 | float64, float64 => true
  | _, _ => false
  end.

(** [np.number] covers the integer and floating dtypes, not object. *)
Definition is_number (d : dtype) : bool :=
  match d with
  | object => false
  | int64 | float64 => true
  end.

Definition isna (c : cell) : bool :=
  match c with
  | NaN => true
  | _ => false
  end.

Definition two63 : Z := 2 ^ 63.
Definition two64 : Z := 2 ^ 64.

(** Two's complement reduction of an integer to 64 bits. *)
Definition wrap64 (z : Z) : Z := ((z + two63) mod two64 - two63)%Z.

Definition fits_int64 (z : Z) : Prop := (- two63 <= z < two63)%Z.

Definition fits_int64b (z : Z) : bool := ((- two63 <=? z) && (z <? two63))%Z.

(* ------------------------------------------------------------------ *)
(** *** Column access: [df[name]] *)

Fixpoint locate_from (i : nat) (name : string) (cols : list (string * dtype))
  : option (nat * dtype) :=
  match cols with
  | [] => None
  | (c, d) :: rest =>
      if String.eqb c name then Some (i, d) else locate_from (S i) name rest
  end.

Definition locate (name : string) (d : DataFrame) : option (nat * dtype) :=
  locate_from 0 name (columns d).

Definition cell_at (i : nat) (r : Row) : cell := nth i (cells r) NaN.

Definition getitem (d : DataFrame) (name : string) : result Series :=
  match locate name d with
  | Some (i, t) => Ok {| sdtype := t; values := map (cell_at i) (rows d) |}
  | None => Raise (KeyError name)
  end.

(* ------------------------------------------------------------------ *)
(** *** Element-wise predicates on a column *)

(** [s.isin(vals)] for a list of strings. *)
Definition isin (s : Series) (vals : list string) : list bool :=
  map (fun c => match c with
                | Str x => existsb (String.eqb x) vals
                | _ => false
                end) (values s).

(** [s == v] for a string [v]. *)
Definition eq_scalar (s : Series) (v : string) : list bool :=
  map (fun c => match c with
                | Str x => String.eqb x v
                | _ => false
                end) (values s).

(** [s >= z]: a string cell cannot be compared with an integer. *)
Definition ge_scalar (s : Series) (z : Z) : result (list bool) :=
  mapM (fun c => match c with
                 | Int v => Ok (z <=? v)%Z
                 | Flt q => Ok (Qle_bool (inject_Z z) q)
                 | NaN => Ok false
                 | Str _ => Raise TypeError
                 end) (values s).

(** [s <= z]. *)
Definition le_scalar (s : Series) (z : Z) : result (list bool) :=
  mapM (fun c => match c with
                 | Int v => Ok (v <=? z)%Z
                 | Flt q => Ok (Qle_bool q (inject_Z z))
                 | NaN => Ok false
                 | Str _ => Raise TypeError
                 end) (values s).

(** [m1 & m2] on two masks over the same index. *)
Fixpoint mask_and (m1 m2 : list bool) : list bool :=
  match m1, m2 with
  | a :: m1', b :: m2' => (a && b) :: mask_and m1' m2'
  | _, _ => []
  end.

(** Selection of the entries whose mask bit is set, in their order. *)
Fixpoint boolean_mask {A : Type} (m : list bool) (l : list A) : list A :=
  match m, l with
  | b :: m', x :: l' =>
      if b then x :: boolean_mask m' l' else boolean_mask m' l'
  | _, _ => []
  end.

(** [df[mask]]: same columns, the selected rows with their labels. *)
Definition getitem_mask (d : DataFrame) (m : list bool) : DataFrame :=
  {| columns := columns d; rows := boolean_mask m (rows d) |}.

(** [pd.DataFrame(columns=cols)]: no rows; every column has dtype object. *)
Definition empty_frame (cols : list (string * dtype)) : DataFrame :=
  {| columns := map (fun c => (fst c, object)) cols; rows := [] |}.

(** [df.empty]: true when either axis has length zero. *)
Definition empty (d : DataFrame) : bool :=
  match rows d, columns d with
  | [], _ => true
  | _, [] => true
  | _, _ => false
  end.

(* ================================================================== *)
(** ** Filter section (lines 79-97) *)

Record FilterCriteria : Type := {
  selected_clubs : list string;
  selected_position : string;
  selected_minutes_range : Z * Z
}.

(** The two frames the script holds while it filters. *)
Record Session : Type := { df : DataFrame; filtered_df : DataFrame }.

Definition assign_filtered (s : Session) (d : DataFrame) : Session :=
  {| df := df s; filtered_df := d |}.

Definition club_step (c : FilterCriteria) (s : Session) : result Session :=
  match selected_clubs c with
  | _ :: _ =>
      club <- getitem (filtered_df s) "Club" ;;
      Ok (assign_filtered s
            (getitem_mask (filtered_df s) (isin club (selected_clubs c))))
  | [] => Ok (assign_filtered s (empty_frame (columns (df s))))
  end.

Definition position_step (c : FilterCriteria) (s : Session) : result Session :=
  if String.eqb (selected_position c) "All" then Ok s
  else
    pos <- getitem (filtered_df s) "Position" ;;
    Ok (assign_filtered s
          (getitem_mask (filtered_df s) (eq_scalar pos (selected_position c)))).

(** The body of the [if not filtered_df.empty:] block. *)
Definition minutes_mask (c : FilterCriteria) (s : Session) : result Session :=
  m1 <- getitem (filtered_df s) "Minutes" ;;
  lo <- ge_scalar m1 (fst (selected_minutes_range c)) ;;
  m2 <- getitem (filtered_df s) "Minutes" ;;
  hi <- le_scalar m2 (snd (selected_minutes_range c)) ;;
  Ok (assign_filtered s (getitem_mask (filtered_df s) (mask_and lo hi))).

Definition minutes_step (c : FilterCriteria) (s : Session) : result Session :=
  if negb (empty (filtered_df s)) then minutes_mask c s else Ok s.

Definition filter_section (c : FilterCriteria) (d : DataFrame) : result Session :=
  s1 <- club_step c {| df := d; filtered_df := d |} ;;   (* df.copy() *)
  s2 <- position_step c s1 ;;
  minutes_step c s2.

(** The pipeline as the specification words it for comparison: the
    minutes predicate applied unconditionally. *)
Definition filter_section_unguarded (c : FilterCriteria) (d : DataFrame)
  : result Session :=
  s1 <- club_step c {| df := d; filtered_df := d |} ;;
  s2 <- position_step c s1 ;;
  minutes_mask c s2.

(* ================================================================== *)
(** ** Column reductions used by the aggregator *)

Fixpoint Zsum (l : list Z) : Z :=
  match l with
  | [] => 0%Z
  | z :: l' => (z + Zsum l')%Z
  end.

Fixpoint Qsum (l : list Q) : Q :=
  match l with
  | [] => 0%Q
  | q :: l' => (q + Qsum l')%Q
  end.

(** The int64 payload of a cell of an int64 column. *)
Definition as_int (c : cell) : result Z :=
  match c with
  | Int z => Ok z
  | _ => Raise NotModelled
  end.

(** The float64 payload of a cell of a float64 column; [None] is nan. *)
Definition as_float (c : cell) : result (option Q) :=
  match c with
  | Flt q => Ok (Some q)
  | NaN => Ok None
  | _ => Raise NotModelled
  end.

Fixpoint skipna (l : list (option Q)) : list Q :=
  match l with
  | [] => []
  | Some q :: l' => q :: skipna l'
  | None :: l' => skipna l'
  end.

(** [s.sum()]: int64 columns add up in int64, float columns skip nan. *)
Definition series_sum (s : Series) : result cell :=
  match sdtype s with
  | int64 => zs <- mapM as_int (values s) ;; Ok (Int (wrap64 (Zsum zs)))
  | float64 => qs <- mapM as_float (values s) ;; Ok (Flt (Qsum (skipna qs)))
  | object => Raise NotModelled
  end.

Definition Qmean (l : list Q) : cell :=
  match l with
  | [] => NaN
  | _ :: _ => Flt (Qsum l / inject_Z (Z.of_nat (List.length l)))
  end.

(** [s.mean()]: computed in float64; nan when nothing is left to average. *)
Definition series_mean (s : Series) : result cell :=
  match sdtype s with
  | int64 => zs <- mapM as_int (values s) ;; Ok (Qmean (map inject_Z zs))
  | float64 => qs <- mapM as_float (values s) ;; Ok (Qmean (skipna qs))
  | object => Raise TypeError
  end.

(** [int(x)] on a scalar that a reduction returned. *)
Definition py_int (c : cell) : result Z :=
  match c with
  | Int z => Ok z
  | Flt q => Ok (Z.quot (Qnum q) (Zpos (Qden q)))
  | NaN => Raise ValueError
  | Str _ => Raise NotModelled
  end.

(** Round to the nearest integer, halves to the even neighbour. *)
Definition rint (x : Q) : Z :=
  let f := Qfloor x in
  match Qcompare (x - inject_Z f) (1 # 2) with
  | Lt => f
  | Gt => (f + 1)%Z
  | Eq => if Z.even f then f else (f + 1)%Z
  end.

Definition pow10 (nd : nat) : Q := inject_Z (10 ^ Z.of_nat nd).

Definition round_to (x : Q) (nd : nat) : Q :=
  (inject_Z (rint (x * pow10 nd)) / pow10 nd)%Q.

(** [round(x, nd)] on a numpy scalar. *)
Definition py_round (c : cell) (nd : nat) : result cell :=
  match c with
  | Flt q => Ok (Flt (round_to q nd))
  | NaN => Ok NaN
  | Int z => Ok (Int z)
  | Str _ => Raise TypeError
  end.

(* ================================================================== *)
(** ** KPI block (lines 102-111) *)

(** The two averages are floats on a non-empty frame and the integer 0
    otherwise, as in the script. *)
Record KPI : Type := {
  total_players : Z;
  total_goals : Z;
  avg_assists : cell;
  avg_minutes : cell
}.

Definition kpi_block (fd : DataFrame) : result KPI :=
  if negb (empty fd) then
    goals <- getitem fd "Goals" ;;
    gsum <- series_sum goals ;;
    tg <- py_int gsum ;;
    assists <- getitem fd "Assists" ;;
    amean <- series_mean assists ;;
    aa <- py_round amean 2 ;;
    minutes <- getitem fd "Minutes" ;;
    mmean <- series_mean minutes ;;
    am <- py_round mmean 0 ;;
    Ok {| total_players := Z.of_nat (List.length (rows fd));
          total_goals := tg;
          avg_assists := aa;
          avg_minutes := am |}
  else
    Ok {| total_players := 0; total_goals := 0;
          avg_assists := Int 0; avg_minutes := Int 0 |}.


(* ================================================================== *)
(** ** Sorting *)

(** A sort of a list by a numeric key, ascending. *)
Definition sorter : Type := forall A : Type, (A -> Q) -> list A -> list A.

(** What numpy promises of every kind of sort: the output is the input
    rearranged, in non-decreasing key order. *)
Definition sort_contract (kind : sorter) : Prop :=
  forall (A : Type) (key : A -> Q) (l : list A),
    Permutation (kind A key l) l /\
    StronglySorted (fun a b => key a <= key b)%Q (kind A key l).

Fixpoint insert_by {A : Type} (key : A -> Q) (x : A) (l : list A) : list A :=
  match l with
  | [] => [x]
  | y :: l' =>
      if Qle_bool (key x) (key y) then x :: l else y :: insert_by key x l'
  end.

(** kind = "mergesort": the stable sort.  Equal keys keep their input
    order, so the output is fixed by the keys alone and insertion from
    the right computes it. *)
Fixpoint stable_sort {A : Type} (key : A -> Q) (l : list A) : list A :=
  match l with
  | [] => []
  | x :: l' => insert_by key x (stable_sort key l')
  end.

Definition insertion_kind : sorter := fun A key l => stable_sort key l.

(** The sort key of a numeric cell. *)
Definition cell_key (c : cell) : Q :=
  match c with
  | Int z => inject_Z z
  | Flt q => q
  | _ => 0
  end.

(** [pandas.core.sorting.nargsort] with na_position = "last": missing
    values go to the end in their input order; a descending order is an
    ascending sort of the reversed input, reversed again. *)
Definition nargsort (kind : sorter) (ascending : bool) {A : Type}
    (key : A -> Q) (na : A -> bool) (l : list A) : list A :=
  let non_nans := filter (fun x => negb (na x)) l in
  let nans := filter na l in
  (if ascending then kind A key non_nans
   else rev (kind A key (rev non_nans))) ++ nans.

Definition with_rows (d : DataFrame) (rs : list Row) : DataFrame :=
  {| columns := columns d; rows := rs |}.

(** [df.sort_values(by, ascending=...)] on a numeric column. *)
Definition sort_values (kind : sorter) (d : DataFrame) (by_ : string)
    (ascending : bool) : result DataFrame :=
  match locate by_ d with
  | None => Raise (KeyError by_)
  | Some (i, t) =>
      if is_number t then
        Ok (with_rows d
              (nargsort kind ascending
                 (fun r => cell_key (cell_at i r))
                 (fun r => isna (cell_at i r)) (rows d)))
      else Raise NotModelled
  end.

(* ================================================================== *)
(** ** Ranking (lines 174-176) *)

(** [libalgos.kth_smallest arr k]. *)
Definition kth_smallest (arr : list Q) (k : nat) : Q :=
  nth k (stable_sort (fun q => q) arr) 0%Q.

(** [df.nlargest(n, col)], keep = "first".  With at least as many rows
    requested as there are, pandas sorts the whole column (default kind);
    otherwise it selects around the n-th largest value and orders the
    candidates with a stable sort of the negated values. *)
Definition nlargest (kind : sorter) (n : Z) (col : string) (d : DataFrame)
  : result DataFrame :=
  match locate col d with
  | None => Raise (KeyError col)
  | Some (i, t) =>
      if negb (is_number t) then Raise TypeError
      else if (n <=? 0)%Z then Ok (with_rows d [])
      else
        let key := fun r => cell_key (cell_at i r) in
        let na := fun r => isna (cell_at i r) in
        let dropped := filter (fun r => negb (na r)) (rows d) in
        let nan_index := filter na (rows d) in
        if (Z.of_nat (List.length (rows d)) <=? n)%Z then
          Ok (with_rows d
                (firstn (Z.to_nat n) (nargsort kind false key na (rows d))))
        else
          let arr := fun r => (- key r)%Q in
          let m := Nat.min (Z.to_nat n) (List.length dropped) in
          let kth_val := kth_smallest (map arr dropped) (m - 1) in
          let ns := filter (fun r => Qle_bool (arr r) kth_val) dropped in
          let inds := firstn m (stable_sort arr ns) in
          Ok (with_rows d (firstn (Z.to_nat n) (inds ++ nan_index)))
  end.

(** The frame handed to the bar chart: the two calls of the script,
    [nlargest] and then [sort_values] ascending, with [n] for its 10. *)
Definition topN (kind : sorter) (n : Z) (metric : string) (fd : DataFrame)
  : result DataFrame :=
  top <- nlargest kind n metric fd ;;
  sort_values kind top metric true.

Definition top_10_players (kind : sorter) (metric : string) (fd : DataFrame)
  : result DataFrame :=
  nlargest kind 10 metric fd.

(* ================================================================== *)
(** ** Goals per club (line 135) *)

(** The group key of a row; rows with a missing key are dropped. *)
Definition group_key (c : cell) : result (option string) :=
  match c with
  | Str s => Ok (Some s)
  | NaN => Ok None
  | _ => Raise NotModelled
  end.

Fixpoint somes {A : Type} (l : list (option A)) : list A :=
  match l with
  | [] => []
  | Some a :: l' => a :: somes l'
  | None :: l' => somes l'
  end.

Fixpoint insert_string (x : string) (l : list string) : list string :=
  match l with
  | [] => [x]
  | y :: l' => if String.leb x y then x :: l else y :: insert_string x l'
  end.

Definition sort_strings (l : list string) : list string :=
  fold_right insert_string [] l.

Definition in_group (i : nat) (k : string) (r : Row) : bool :=
  match cell_at i r with
  | Str s => String.eqb s k
  | _ => false
  end.

(** [fd.groupby(by)[val].sum()]: one entry per distinct key, in ascending
    key order (sort = True is the default). *)
Definition groupby_sum (fd : DataFrame) (by_ val : string)
  : result (list (string * cell)) :=
  match locate by_ fd with
  | None => Raise (KeyError by_)
  | Some (i, _) =>
      match locate val fd with
      | None => Raise (KeyError val)
      | Some (j, t) =>
          ks <- mapM (fun r => group_key (cell_at i r)) (rows fd) ;;
          mapM (fun k =>
                  s <- series_sum
                         {| sdtype := t;
                            values := map (cell_at j)
                                        (filter (in_group i k) (rows fd)) |} ;;
                  Ok (k, s))
               (sort_strings (nodup string_dec (somes ks)))
      end
  end.

(** [....sort_values(ascending=False)] on the resulting series. *)
Definition groupSum (kind : sorter) (fd : DataFrame) (by_ val : string)
  : result (list (string * cell)) :=
  g <- groupby_sum fd by_ val ;;
  Ok (nargsort kind false (fun p => cell_key (snd p))
        (fun p => isna (snd p)) g).

Definition goals_by_club (kind : sorter) (fd : DataFrame)
  : result (list (string * cell)) :=
  groupSum kind fd "Club" "Goals".

(* ================================================================== *)
(** ** Rankable metrics (lines 162-165) *)

Definition numeric_cols (d : DataFrame) : list string :=
  map fst (filter (fun c => is_number (snd c)) (columns d)).

Definition metrics_to_exclude : list string :=
  ["Big Chances Missed"; "Hit Woodwork"; "Offsides"; "Goals Conceded";
   "Own Goals"; "Yellow Cards"; "Red Cards"; "Penalties Saved"]%string.

Fixpoint starts_with (p s : string) : bool :=
  match p, s with
  | EmptyString, _ => true
  | String a p', String b s' => Ascii.eqb a b && starts_with p' s'
  | String _ _, EmptyString => false
  end.

(** Python's [needle in hay] on strings. *)
Fixpoint str_in (needle hay : string) : bool :=
  if starts_with needle hay then true
  else match hay with
       | EmptyString => false
       | String _ hay' => str_in needle hay'
       end.

Definition mem_string (x : string) (l : list string) : bool :=
  existsb (String.eqb x) l.

Definition rankable (col : string) : bool :=
  negb (mem_string col metrics_to_exclude)
  && negb (str_in "Ended" col)
  && negb (str_in "xGoT" col).

Definition metrics_to_rank (d : DataFrame) : list string :=
  filter rankable (numeric_cols d).

(* ================================================================== *)
(** ** Loader (lines 20-35) *)

(** What the path given to [pd.read_csv] resolves to.  The CSV grammar
    and the dtype inference of pandas are not modelled: a readable,
    well-formed file stands for the frame [read_csv] makes of it. *)
Inductive file : Type :=
| NoSuchFile
| Unreadable            (* exists, cannot be opened for reading *)
| Malformed             (* opened, rejected by the parser *)
| Csv (d : DataFrame).

Definition FileSystem : Type := string -> file.

Definition read_csv (fs : FileSystem) (path : string) : result DataFrame :=
  match fs path with
  | NoSuchFile => Raise FileNotFoundError
  | Unreadable => Raise PermissionError
  | Malformed => Raise ParserError
  | Csv d => Ok d
  end.

(** [s.str.contains(pat, na=False)]. *)
Definition str_contains (pat : string) (s : Series) : list bool :=
  map (fun c => match c with
                | Str x => str_in pat x
                | _ => false
                end) (values s).

(** [mask.any()]. *)
Definition any (m : list bool) : bool := existsb (fun b => b) m.

Fixpoint remove_char (ch : ascii) (s : string) : string :=
  match s with
  | EmptyString => EmptyString
  | String a s' =>
      if Ascii.eqb a ch then remove_char ch s'
      else String a (remove_char ch s')
  end.

(** [s.str.replace(ch, '', regex=False)] for a one-character pattern. *)
Definition str_remove (ch : ascii) (s : Series) : Series :=
  {| sdtype := object;
     values := map (fun c => match c with
                             | Str x => Str (remove_char ch x)
                             | _ => NaN
                             end) (values s) |}.

(** [s.astype(float)]; [to_float] is Python's conversion of a string. *)
Definition astype_float (to_float : string -> option Q) (s : Series)
  : result Series :=
  vs <- mapM (fun c => match c with
                       | Str x => match to_float x with
                                  | Some q => Ok (Flt q)
                                  | None => Raise ValueError
                                  end
                       | Int z => Ok (Flt (inject_Z z))
                       | Flt q => Ok (Flt q)
                       | NaN => Ok NaN
                       end) (values s) ;;
  Ok {| sdtype := float64; values := vs |}.

(** [s / k] on a float column. *)
Definition div_scalar (s : Series) (k : Q) : Series :=
  {| sdtype := float64;
     values := map (fun c => match c with
                             | Flt q => Flt (q / k)
                             | Int z => Flt (inject_Z z / k)
                             | _ => NaN
                             end) (values s) |}.

Fixpoint set_nth {A : Type} (i : nat) (x : A) (l : list A) : list A :=
  match i, l with
  | _, [] => []
  | O, _ :: l' => x :: l'
  | S i', y :: l' => y :: set_nth i' x l'
  end.

Fixpoint set_column (i : nat) (vs : list cell) (rs : list Row) : list Row :=
  match vs, rs with
  | v :: vs', r :: rs' =>
      {| label := label r; cells := set_nth i v (cells r) |}
        :: set_column i vs' rs'
  | _, _ => []
  end.

Fixpoint add_column (vs : list cell) (rs : list Row) : list Row :=
  match vs, rs with
  | v :: vs', r :: rs' =>
      {| label := label r; cells := cells r ++ [v] |} :: add_column vs' rs'
  | _, _ => []
  end.

(** [df[name] = s]: replaces the column in place, or appends a new one. *)
Definition setitem (d : DataFrame) (name : string) (s : Series) : DataFrame :=
  match locate name d with
  | Some (i, _) =>
      {| columns := set_nth i (name, sdtype s) (columns d);
         rows := set_column i (values s) (rows d) |}
  | None =>
      {| columns := columns d ++ [(name, sdtype s)];
         rows := add_column (values s) (rows d) |}
  end.

Definition percent : ascii := "%"%char.

(** The [for col in df.columns] loop. *)
Fixpoint convert_columns (to_float : string -> option Q) (names : list string)
    (d : DataFrame) : result DataFrame :=
  match names with
  | [] => Ok d
  | col :: rest =>
      s <- getitem d col ;;
      if dtype_eqb (sdtype s) object && any (str_contains "%" s) then
        f <- astype_float to_float (str_remove percent s) ;;
        convert_columns to_float rest (setitem d col (div_scalar f 100))
      else convert_columns to_float rest d
  end.

(** [load_data]: [Ok None] is the [return None] of the handler, reached
    after the message was shown; any other exception leaves the
    function. *)
Definition load_data (to_float : string -> option Q) (fs : FileSystem)
    (path : string) : result (option DataFrame) :=
  match (d <- read_csv fs path ;;
         convert_columns to_float (map fst (columns d)) d) with
  | Ok d => Ok (Some d)
  | Raise FileNotFoundError => Ok None
  | Raise e => Raise e
  end.

(* ================================================================== *)
(** ** The script around the loader and the core

    The sidebar widgets are not modelled: what they return (the filter
    selections and the metric picked for the ranking) is an input. *)

Record Dashboard : Type := {
  shown : DataFrame;
  kpi : KPI;
  chart_goals : option (list (string * cell));
  chart_top : option DataFrame
}.

Definition tab1 (kind : sorter) (fd : DataFrame)
  : result (option (list (string * cell))) :=
  if empty fd then Ok None
  else g <- goals_by_club kind fd ;; Ok (Some g).

(** [metric_selection] is what the select box returns: one of its
    options, or nothing when it has none. *)
Definition tab2 (kind : sorter) (fd : DataFrame)
    (metric_selection : option string) : result (option DataFrame) :=
  if empty fd then Ok None
  else match metric_selection with
       | Some m =>
           if String.eqb m "" then Ok None
           else
             top_10 <- top_10_players kind m fd ;;
             bars <- sort_values kind top_10 m true ;;
             Ok (Some bars)
       | None => Ok None
       end.

(** Lines 79-176: the filter section, the KPI block and the two tabs. *)
Definition render (kind : sorter) (d : DataFrame) (c : FilterCriteria)
    (metric_selection : option string) : result Dashboard :=
  s <- filter_section c d ;;
  k <- kpi_block (filtered_df s) ;;
  g <- tab1 kind (filtered_df s) ;;
  t <- tab2 kind (filtered_df s) metric_selection ;;
  Ok {| shown := filtered_df s; kpi := k; chart_goals := g; chart_top := t |}.

(** Lines 38-41: how the script gets past the loader. *)
Inductive outcome : Type :=
| Stopped                 (* message shown, [st.stop()] *)
| Crashed (e : exn)       (* an exception nobody caught *)
| Loaded (d : DataFrame). (* the script goes on with [df] *)

Definition startup (to_float : string -> option Q) (fs : FileSystem)
    (path : string) : outcome :=
  match load_data to_float fs path with
  | Raise e => Crashed e
  | Ok None => Stopped
  | Ok (Some d) => Loaded d
  end.

(* ================================================================== *)
(** ** Sidebar (lines 46-67) and the metric select box (lines 167-171)

    The widgets are outside the model; what the script computes to set
    them up is not. *)

(** [s.unique()] on strings: the distinct values, first appearance first. *)
Definition unique_strings (l : list string) : list string :=
  rev (nodup string_dec (rev l)).

Definition is_none {A : Type} (o : option A) : bool :=
  match o with
  | None => true
  | Some _ => false
  end.

(** [sorted(s.unique())] on a text column.  Python cannot order a string
    and the float nan: a column that holds both makes [sorted] raise. *)
Definition sorted_unique (s : Series) : result (list string) :=
  ks <- mapM group_key (values s) ;;
  if existsb is_none ks then
    match somes ks with
    | [] => Raise NotModelled       (* the list [nan] *)
    | _ :: _ => Raise TypeError
    end
  else Ok (sort_strings (unique_strings (somes ks))).

(** Line 49. *)
Definition clubs (d : DataFrame) : result (list string) :=
  s <- getitem d "Club" ;; sorted_unique s.

(** Line 57. *)
Definition positions (d : DataFrame) : result (list string) :=
  s <- getitem d "Position" ;;
  p <- sorted_unique s ;;
  Ok ("All"%string :: p).

Definition Qmin_of (a b : Q) : Q := if Qle_bool a b then a else b.
Definition Qmax_of (a b : Q) : Q := if Qle_bool a b then b else a.

(** [s.min()]: nan when there is nothing to compare. *)
Definition series_min (s : Series) : result cell :=
  match sdtype s with
  | int64 =>
      zs <- mapM as_int (values s) ;;
      Ok (match zs with
          | [] => NaN
          | z :: zs' => Int (fold_left Z.min zs' z)
          end)
  | float64 =>
      qs <- mapM as_float (values s) ;;
      Ok (match skipna qs with
          | [] => NaN
          | q :: qs' => Flt (fold_left Qmin_of qs' q)
          end)
  | object =>
      match values s with
      | [] => Ok NaN
      | _ :: _ => Raise NotModelled
      end
  end.

(** [s.max()]. *)
Definition series_max (s : Series) : result cell :=
  match sdtype s with
  | int64 =>
      zs <- mapM as_int (values s) ;;
      Ok (match zs with
          | [] => NaN
          | z :: zs' => Int (fold_left Z.max zs' z)
          end)
  | float64 =>
      qs <- mapM as_float (values s) ;;
      Ok (match skipna qs with
          | [] => NaN
          | q :: qs' => Flt (fold_left Qmax_of qs' q)
          end)
  | object =>
      match values s with
      | [] => Ok NaN
      | _ :: _ => Raise NotModelled
      end
  end.

(** Line 61: the two ends of the slider, which are also its default
    selection (line 66). *)
Definition minutes_bounds (d : DataFrame) : result (Z * Z) :=
  m1 <- getitem d "Minutes" ;;
  lo <- series_min m1 ;;
  min_minutes <- py_int lo ;;
  m2 <- getitem d "Minutes" ;;
  hi <- series_max m2 ;;
  max_minutes <- py_int hi ;;
  Ok (min_minutes, max_minutes).

(** [l.index(x)]. *)
Fixpoint list_index (x : string) (l : list string) : result nat :=
  match l with
  | [] => Raise ValueError
  | y :: l' =>
      if String.eqb y x then Ok 0%nat
      else i <- list_index x l' ;; Ok (S i)
  end.

(** Line 169: the options of the metric select box. *)
Definition metric_options (d : DataFrame) : list string :=
  sort_strings (metrics_to_rank d).

(** Line 170: the position preselected in it. *)
Definition metric_index (d : DataFrame) : result nat :=
  if mem_string "Goals" (metrics_to_rank d)
  then list_index "Goals" (metrics_to_rank d)
  else Ok 0%nat.

(* ================================================================== *)
(** ** Well-formed tables *)

Definition conforms (t : dtype) (c : cell) : bool :=
  match t, c with
  | object, Str _ => true
  | object, NaN => true
  | int64, Int z => fits_int64b z
  | float64, Flt _ => true
  | float64, NaN => true
  | _, _ => false
  end.

Fixpoint row_conforms (ts : list dtype) (cs : list cell) : bool :=
  match ts, cs with
  | [], [] => true
  | t :: ts', c :: cs' => conforms t c && row_conforms ts' cs'
  | _, _ => false
  end.

Definition typed (d : DataFrame) : bool :=
  forallb (fun r => row_conforms (map snd (columns d)) (cells r)) (rows d).

Definition has_column (name : string) (t : dtype) (d : DataFrame) : bool :=
  match locate name d with
  | Some (_, t') => dtype_eqb t t'
  | None => false
  end.

Fixpoint distinct_labels (l : list nat) : bool :=
  match l with
  | [] => true
  | x :: l' => negb (existsb (Nat.eqb x) l') && distinct_labels l'
  end.

Fixpoint distinct_names (l : list string) : bool :=
  match l with
  | [] => true
  | x :: l' => negb (mem_string x l') && distinct_names l'
  end.

(** A frame whose cells agree with the dtypes of its columns, with
    distinct headers and distinct index labels. *)
Definition well_typed (d : DataFrame) : bool :=
  typed d && distinct_names (map fst (columns d))
  && distinct_labels (map label (rows d)).

(** The columns the script reads by name. *)
Definition required_columns (d : DataFrame) : bool :=
  has_column "Club" object d && has_column "Position" object d
  && has_column "Minutes" int64 d && has_column "Goals" int64 d
  && has_column "Assists" int64 d.

Definition well_formed (d : DataFrame) : bool :=
  well_typed d && required_columns d.

(* ================================================================== *)
(** ** Vocabulary of the statements *)

(** [r] comes before [r'] in [l]. *)
Definition before {A : Type} (r r' : A) (l : list A) : Prop :=
  exists l1 l2 l3, l = l1 ++ r :: l2 ++ r' :: l3.

(** [l1] is [l2] with some entries left out, order kept. *)
Inductive subseq {A : Type} : list A -> list A -> Prop :=
| subseq_nil : subseq [] []
| subseq_skip : forall x l1 l2, subseq l1 l2 -> subseq l1 (x :: l2)
| subseq_keep : forall x l1 l2, subseq l1 l2 -> subseq (x :: l1) (x :: l2).

(** [r] is [x] rounded to [nd] decimals: a multiple of 10^-nd at
    distance at most half a unit of that place. *)
Definition rounded_to (nd : nat) (x r : Q) : Prop :=
  (exists k : Z, r == inject_Z k / pow10 nd)%Q /\
  (Qabs (x - r) <= (1 # 2) / pow10 nd)%Q.

(** [v] is derived from [d]: its rows are rows of [d] in their order,
    under the headers of [d]; the dtypes are those of [d] unless [v] was
    rebuilt empty, which makes every column an object column. *)
Definition derived_from (d v : DataFrame) : Prop :=
  subseq (rows v) (rows d) /\
  (columns v = columns d \/
   (columns v = map (fun c => (fst c, object)) (columns d) /\ rows v = [])).

(** [pat] occurs somewhere inside [s]. *)
Definition occurs_in (pat s : string) : Prop :=
  exists a b : string, s = String.append a (String.append pat b).

(** Every row has one cell per column. *)
Definition rectangular (d : DataFrame) : Prop :=
  forall r, In r (rows d) -> List.length (cells r) = List.length (columns d).

(** A text column with a percent sign in at least one of its values. *)
Definition is_percent_column (s : Series) : Prop :=
  sdtype s = object /\
  exists x, In (Str x) (values s) /\ occurs_in "%" x.

Definition has_percent (c : cell) : bool :=
  match c with
  | Str x => str_in "%" x
  | _ => false
  end.

Definition percent_gate (s : Series) : bool :=
  dtype_eqb (sdtype s) object && existsb has_percent (values s).

(** The value a cell of a percent column ends up with: the text without
    its percent signs, read as a float, over 100. *)
Definition fraction (to_float : string -> option Q) (c : cell) : cell :=
  match c with
  | Str x =>
      match to_float (remove_char percent x) with
      | Some q => Flt (q / 100)
      | None => NaN
      end
  | _ => NaN
  end.

Definition parses (to_float : string -> option Q) (c : cell) : bool :=
  match c with
  | Str x =>
      match to_float (remove_char percent x) with
      | Some _ => true
      | None => false
      end
  | _ => true
  end.

(** Every text value of every percent column reads as a float once its
    percent signs are gone. *)
Definition percent_columns_parse (to_float : string -> option Q)
    (d : DataFrame) : bool :=
  forallb (fun name =>
             match getitem d name with
             | Ok s => negb (percent_gate s) || forallb (parses to_float) (values s)
             | Raise _ => true
             end) (map fst (columns d)).

(** The path leads to a file that can be opened and read. *)
Definition readable (f : file) : Prop :=
  match f with
  | Csv _ | Malformed => True
  | NoSuchFile | Unreadable => False
  end.

(** The specification's reading of the loader, for comparison: a text
    column in which some value has no percent sign stays as it is. *)
Definition mixed_columns_stay_text (to_float : string -> option Q)
    (d : DataFrame) : Prop :=
  forall d' name s x,
    load_data to_float (fun _ => Csv d) "epl_player_stats_24_25.csv"
      = Ok (Some d') ->
    getitem d name = Ok s ->
    sdtype s = object ->
    In (Str x) (values s) -> ~ occurs_in "%" x ->
    getitem d' name = Ok s.

(** The specification's reading of the loader's failure, for comparison. *)
Definition not_found_iff_unreadable (to_float : string -> option Q)
    (fs : FileSystem) (path : string) : Prop :=
  load_data to_float fs path = Ok None <-> ~ readable (fs path).

(** The integer cells of a column of a frame. *)
Definition int_column (i : nat) (rs : list Row) : list Z :=
  map (fun r => match cell_at i r with Int z => z | _ => 0%Z end) rs.

Definition metric_of (i : nat) (r : Row) : Q := cell_key (cell_at i r).

(** No value is missing in column [i]. *)
Definition no_missing (i : nat) (v : DataFrame) : bool :=
  forallb (fun r => negb (isna (cell_at i r))) (rows v).

(** The group a row falls in, when its key is not missing. *)
Definition group_of (i : nat) (r : Row) : option string :=
  match cell_at i r with
  | Str s => Some s
  | _ => None
  end.

(** The sum of column [j] over the rows whose key in column [i] is [k]. *)
Definition group_total (i j : nat) (k : string) (rs : list Row) : Z :=
  Zsum (int_column j (filter (in_group i k) rs)).

(** Key [k] is met in [rs] before key [k'] is. *)
Definition encountered_before (i : nat) (k k' : string) (rs : list Row) : Prop :=
  k <> k' /\
  exists l1 r l2,
    rs = l1 ++ r :: l2 /\ cell_at i r = Str k /\
    forall r', In r' l1 -> cell_at i r' <> Str k'.

(** The specification's reading of the order of equal sums, for
    comparison: the group met first in the frame comes first. *)
Definition ties_by_first_encounter (i : nat) (rs : list Row)
    (pairs : list (string * cell)) : Prop :=
  forall k k' s s',
    encountered_before i k k' rs ->
    In (k, s) pairs -> In (k', s') pairs ->
    (cell_key s == cell_key s')%Q ->
    before (k, s) (k', s') pairs.

(** The three predicates of the filter on one row: the club is one of
    the selected ones, the position is the selected one unless that is
    "All", and the minutes lie in the selected range, ends included. *)
Definition keeps (c : FilterCriteria) (ic ip im : nat) (r : Row) : bool :=
  match cell_at ic r with
  | Str x => mem_string x (selected_clubs c)
  | _ => false
  end
  && (String.eqb (selected_position c) "All"
      || match cell_at ip r with
         | Str x => String.eqb x (selected_position c)
         | _ => false
         end)
  && match cell_at im r with
     | Int v => ((fst (selected_minutes_range c) <=? v)
                 && (v <=? snd (selected_minutes_range c)))%Z
     | _ => false
     end.

(** Criteria [c'] let through whatever [c] lets through. *)
Definition wider (c c' : FilterCriteria) : Prop :=
  (forall x, In x (selected_clubs c) -> In x (selected_clubs c')) /\
  (selected_position c' = "All"%string \/
   selected_position c' = selected_position c) /\
  (fst (selected_minutes_range c') <= fst (selected_minutes_range c))%Z /\
  (snd (selected_minutes_range c) <= snd (selected_minutes_range c'))%Z.

(** No row lacks a value in the text column [name]. *)
Definition no_null (name : string) (d : DataFrame) : bool :=
  match locate name d with
  | Some (i, _) =>
      forallb (fun r => match cell_at i r with Str _ => true | _ => false end)
              (rows d)
  | None => false
  end.

(** The integers of a list of sums. *)
Definition sum_cells (l : list (string * cell)) : Z :=
  Zsum (map (fun p => match snd p with Int z => z | _ => 0%Z end) l).

(** The column called [name] exists and none of its values has a percent
    sign. *)
Definition plain_text (name : string) (d : DataFrame) : bool :=
  match getitem d name with
  | Ok s => negb (percent_gate s)
  | Raise _ => false
  end.

(** [l] is in ascending order. *)
Definition ascending_strings (l : list string) : Prop :=
  StronglySorted (fun a b => String.leb a b = true) l.

(** The integers held by the column called [name]. *)
Definition int_values (name : string) (v : DataFrame) : list Z :=
  match locate name v with
  | Some (i, _) => int_column i (rows v)
  | None => []
  end.

(** The arithmetic mean of a list of integers. *)
Definition Zmean (l : list Z) : Q :=
  (inject_Z (Zsum l) / inject_Z (Z.of_nat (List.length l)))%Q.

Definition kpi_zero : KPI :=
  {| total_players := 0; total_goals := 0;
     avg_assists := Int 0; avg_minutes := Int 0 |}.

(* ================================================================== *)
(** ** Concrete instances for examples *)

Definition digit (a : ascii) : option Z :=
  let n := nat_of_ascii a in
  if ((48 <=? n) && (n <=? 57))%nat then Some (Z.of_nat (n - 48)) else None.

Fixpoint decimal_digits (s : string) (num : Z) (scale : option positive)
    (seen : bool) : option Q :=
  match s with
  | EmptyString =>
      if seen then
        Some (match scale with
              | None => inject_Z num
              | Some k => Qmake num k
              end)
      else None
  | String a s' =>
      if Ascii.eqb a "."%char then
        match scale with
        | None => decimal_digits s' num (Some 1%positive) seen
        | Some _ => None
        end
      else
        match digit a with
        | Some v =>
            decimal_digits s' (10 * num + v)%Z
              (option_map (Pos.mul 10) scale) true
        | None => None
        end
  end.

(** Plain decimal literals, a fragment of what [float] accepts. *)
Definition decimal_float (s : string) : option Q :=
  match s with
  | String "-"%char s' => option_map Qopp (decimal_digits s' 0 None false)
  | _ => decimal_digits s 0 None false
  end.

Definition mk_row (l : nat) (cs : list cell) : Row :=
  {| label := l; cells := cs |}.

Definition epl_columns : list (string * dtype) :=
  [("Player Name", object); ("Club", object); ("Position", object);
   ("Minutes", int64); ("Goals", int64); ("Assists", int64);
   ("Own Goals", int64); ("Passes%", float64)]%string.

(** The three-row table of the end-to-end scenario. *)
Definition sample : DataFrame :=
  {| columns := epl_columns;
     rows :=
       [mk_row 0 [Str "P1"; Str "ClubA"; Str "FW"; Int 900; Int 10; Int 4;
                  Int 0; Flt (17 # 20)];
        mk_row 1 [Str "P2"; Str "ClubA"; Str "MF"; Int 100; Int 1; Int 3;
                  Int 1; Flt (3 # 4)];
        mk_row 2 [Str "P3"; Str "ClubB"; Str "FW"; Int 500; Int 5; Int 0;
                  Int 0; NaN]] |}.

(** A text column in which one value has a percent sign and one has not. *)
Definition mixed : DataFrame :=
  {| columns := [("Passes%", object); ("Club", object)]%string;
     rows := [mk_row 0 [Str "42.5%"; Str "ClubA"];
              mk_row 1 [Str "7"; Str "ClubB"]] |}.

(** Two clubs with the same number of goals, the later one in the
    alphabet met first. *)
Definition tied : DataFrame :=
  {| columns := [("Club", object); ("Goals", int64)]%string;
     rows := [mk_row 0 [Str "ClubB"; Int 1];
              mk_row 1 [Str "ClubA"; Int 1]] |}.

(** The same two rows the other way round. *)
Definition tied_mirror : DataFrame :=
  {| columns := [("Club", object); ("Goals", int64)]%string;
     rows := [mk_row 0 [Str "ClubA"; Int 1];
              mk_row 1 [Str "ClubB"; Int 1]] |}.

(** The selections of the end-to-end scenario. *)
Definition scenario_criteria : FilterCriteria :=
  {| selected_clubs := ["ClubA"]%string;
     selected_position := "FW";
     selected_minutes_range := (0, 1000)%Z |}.

(** A disk on which the data file exists and may not be read, and one
    holding the sample table. *)
Definition locked_disk : FileSystem := fun _ => Unreadable.

Definition sample_disk : FileSystem := fun _ => Csv sample.

Definition data_file : string := "epl_player_stats_24_25.csv".

(** A table whose header is all there is. *)
Definition header_only : DataFrame := {| columns := epl_columns; rows := [] |}.

(** A percent column with a value that is no number. *)
Definition not_a_number : DataFrame :=
  {| columns := [("Passes%", object)]%string;
     rows := [mk_row 0 [Str "42.5%"]; mk_row 1 [Str "n/a"]] |}.

(** A table without a Club column. *)
Definition no_club_column : DataFrame :=
  {| columns := [("Position", object); ("Minutes", int64)]%string;
     rows := [mk_row 0 [Str "FW"; Int 90]] |}.

(** A club missing in one row. *)
Definition club_missing : DataFrame :=
  {| columns := [("Club", object)]%string;
     rows := [mk_row 0 [Str "ClubA"]; mk_row 1 [NaN]] |}.

Definition sample_criteria : FilterCriteria :=
  {| selected_clubs := ["ClubA"; "ClubB"]%string;
     selected_position := "All";
     selected_minutes_range := (0, 1000)%Z |}.

(* ================================================================== *)
(** * Proofs *)

Ltac inv H := inversion H; subst; clear H.

(** ** The error monad *)

Lemma bind_ok_inv {A B : Type} (m : result A) (k : A -> result B) (b : B) :
  bind m k = Ok b -> exists a, m = Ok a /\ k a = Ok b.
Proof.
  destruct m as [a | e]; simpl; intros H; [eauto | discriminate].
Qed.

Lemma mapM_total {A B : Type} (f : A -> result B) (l : list A) :
  (forall x, In x l -> exists y, f x = Ok y) ->
  exists ys, mapM f l = Ok ys /\ List.length ys = List.length l.
Proof.
  induction l as [| x l IH]; intros H; simpl.
  - exists []. split; reflexivity.
  - destruct (H x (or_introl eq_refl)) as [y Hy].
    destruct IH as [ys [Hys Hlen]].
    { intros z Hz. apply H. right. exact Hz. }
    exists (y :: ys). rewrite Hy, Hys. simpl. split; congruence.
Qed.

Lemma mapM_map {A B : Type} (f : A -> result B) (g : A -> B) (l : list A) :
  (forall x, In x l -> f x = Ok (g x)) -> mapM f l = Ok (map g l).
Proof.
  induction l as [| x l IH]; intros H; simpl.
  - reflexivity.
  - rewrite (H x (or_introl eq_refl)). simpl.
    rewrite IH; [reflexivity |].
    intros z Hz. apply H. right. exact Hz.
Qed.

(** ** Subsequences and masks *)

Lemma subseq_refl {A : Type} (l : list A) : subseq l l.
Proof. induction l; constructor; assumption. Qed.

Lemma subseq_nil_l {A : Type} (l : list A) : subseq [] l.
Proof. induction l; constructor; assumption. Qed.

Lemma subseq_trans {A : Type} (l1 l2 l3 : list A) :
  subseq l1 l2 -> subseq l2 l3 -> subseq l1 l3.
Proof.
  intros H12 H23. revert l1 H12.
  induction H23 as [| x l2 l3 H IH | x l2 l3 H IH]; intros l1 H12.
  - exact H12.
  - constructor. apply IH. exact H12.
  - inv H12.
    + apply subseq_skip. apply IH. assumption.
    + apply subseq_keep. apply IH. assumption.
Qed.

Lemma subseq_In {A : Type} (l1 l2 : list A) (x : A) :
  subseq l1 l2 -> In x l1 -> In x l2.
Proof.
  induction 1 as [| y l1 l2 H IH | y l1 l2 H IH]; simpl; intros Hx.
  - exact Hx.
  - right. apply IH. exact Hx.
  - destruct Hx as [-> | Hx]; [left; reflexivity | right; apply IH; exact Hx].
Qed.

Lemma subseq_map {A B : Type} (f : A -> B) (l1 l2 : list A) :
  subseq l1 l2 -> subseq (map f l1) (map f l2).
Proof. induction 1; simpl; constructor; assumption. Qed.

Lemma subseq_NoDup {A : Type} (l1 l2 : list A) :
  subseq l1 l2 -> NoDup l2 -> NoDup l1.
Proof.
  induction 1 as [| y l1 l2 H IH | y l1 l2 H IH]; intros Hnd.
  - exact Hnd.
  - inv Hnd. apply IH. assumption.
  - inv Hnd. constructor.
    + intros Hin. apply H2. eapply subseq_In; eassumption.
    + apply IH. assumption.
Qed.

Lemma subseq_filter {A : Type} (f : A -> bool) (l : list A) :
  subseq (filter f l) l.
Proof.
  induction l as [| x l IH]; simpl.
  - constructor.
  - destruct (f x); constructor; exact IH.
Qed.

Lemma boolean_mask_nil {A : Type} (m : list bool) :
  boolean_mask m (@nil A) = [].
Proof. destruct m as [| [] m]; reflexivity. Qed.

Lemma boolean_mask_subseq {A : Type} (m : list bool) (l : list A) :
  subseq (boolean_mask m l) l.
Proof.
  revert m. induction l as [| x l IH]; intros m.
  - rewrite boolean_mask_nil. constructor.
  - destruct m as [| [] m]; simpl.
    + apply subseq_nil_l.
    + apply subseq_keep. apply IH.
    + apply subseq_skip. apply IH.
Qed.

(** ** Column lookup *)

Lemma locate_from_nth (name : string) (cols : list (string * dtype)) :
  forall k i t,
    locate_from k name cols = Some (i, t) ->
    exists j, i = (k + j)%nat /\ nth_error cols j = Some (name, t).
Proof.
  induction cols as [| [c t0] cols IH]; intros k i t H; simpl in H.
  - discriminate.
  - destruct (String.eqb c name) eqn:E.
    + apply String.eqb_eq in E. inv H. exists 0%nat. split; [lia | reflexivity].
    + apply IH in H. destruct H as [j [-> Hj]].
      exists (S j). split; [lia | exact Hj].
Qed.

Lemma locate_from_names (name : string) (c1 c2 : list (string * dtype)) :
  map fst c1 = map fst c2 ->
  forall k, option_map fst (locate_from k name c1)
            = option_map fst (locate_from k name c2).
Proof.
  revert c2. induction c1 as [| [a ta] c1 IH]; intros [| [b tb] c2] H k;
    simpl in *; try discriminate; [reflexivity |].
  inv H. destruct (String.eqb b name); [reflexivity | apply IH; assumption].
Qed.

Lemma locate_from_object (name : string) (cols : list (string * dtype)) :
  forall k i t,
    locate_from k name cols = Some (i, t) ->
    locate_from k name (map (fun c => (fst c, object)) cols) = Some (i, object).
Proof.
  induction cols as [| [c t0] cols IH]; intros k i t H; simpl in *.
  - discriminate.
  - destruct (String.eqb c name); [inv H; reflexivity | eapply IH; eassumption].
Qed.

Lemma has_column_locate (name : string) (t : dtype) (d : DataFrame) :
  has_column name t d = true -> exists i, locate name d = Some (i, t).
Proof.
  unfold has_column. destruct (locate name d) as [[i t'] |]; [| discriminate].
  intros H. exists i. destruct t, t'; simpl in H; try discriminate; reflexivity.
Qed.

Lemma row_conforms_nth (ts : list dtype) :
  forall (cs : list cell) (j : nat) (t : dtype),
    row_conforms ts cs = true -> nth_error ts j = Some t ->
    conforms t (nth j cs NaN) = true.
Proof.
  induction ts as [| t0 ts IH]; intros cs j t H Hj.
  - destruct j; discriminate.
  - destruct cs as [| c cs]; simpl in H; [discriminate |].
    apply andb_true_iff in H. destruct H as [Hc Hr].
    destruct j as [| j]; simpl in *.
    + inv Hj. exact Hc.
    + eapply IH; eassumption.
Qed.

Lemma typed_cell (d : DataFrame) (name : string) (i : nat) (t : dtype) (r : Row) :
  typed d = true -> locate name d = Some (i, t) -> In r (rows d) ->
  conforms t (cell_at i r) = true.
Proof.
  unfold typed, locate. intros Ht Hl Hr.
  rewrite forallb_forall in Ht. specialize (Ht r Hr).
  apply locate_from_nth in Hl. destruct Hl as [j [-> Hj]]. simpl.
  unfold cell_at. eapply row_conforms_nth; [exact Ht |].
  rewrite nth_error_map, Hj. reflexivity.
Qed.

(** ** Frames derived by the filter *)

Lemma derived_refl (d : DataFrame) : derived_from d d.
Proof. split; [apply subseq_refl | left; reflexivity]. Qed.

Lemma derived_empty (d : DataFrame) : derived_from d (empty_frame (columns d)).
Proof. split; [apply subseq_nil_l | right; split; reflexivity]. Qed.

Lemma derived_mask (d v : DataFrame) (m : list bool) :
  derived_from d v -> derived_from d (getitem_mask v m).
Proof.
  intros [Hs Hc]. split; simpl.
  - eapply subseq_trans; [apply boolean_mask_subseq | exact Hs].
  - destruct Hc as [Hc | [Hc Hr]]; [left; exact Hc |].
    right. split; [exact Hc |]. rewrite Hr. apply boolean_mask_nil.
Qed.

Lemma derived_names (d v : DataFrame) :
  derived_from d v -> map fst (columns v) = map fst (columns d).
Proof.
  intros [_ [-> | [-> _]]]; [reflexivity |].
  rewrite map_map. reflexivity.
Qed.

Lemma derived_locate (d v : DataFrame) (name : string) (i : nat) (t : dtype) :
  derived_from d v -> locate name d = Some (i, t) ->
  exists t', locate name v = Some (i, t') /\ (rows v <> [] -> t' = t).
Proof.
  unfold locate. intros [_ [Hc | [Hc Hr]]] H.
  - rewrite Hc. exists t. split; [exact H | reflexivity].
  - rewrite Hc. exists object. split.
    + eapply locate_from_object; exact H.
    + intros Hne. contradiction.
Qed.

Lemma locate_in_names (name : string) (d : DataFrame) :
  In name (map fst (columns d)) -> exists i t, locate name d = Some (i, t).
Proof.
  unfold locate. generalize 0%nat.
  induction (columns d) as [| [c t0] cols IH]; intros k H; simpl in *.
  - contradiction.
  - destruct (String.eqb c name) eqn:E; [eauto |].
    destruct H as [H | H]; [| apply IH; exact H].
    subst. rewrite String.eqb_refl in E. discriminate.
Qed.

Lemma locate_some_names (name : string) (d : DataFrame) (i : nat) (t : dtype) :
  locate name d = Some (i, t) -> In name (map fst (columns d)).
Proof.
  unfold locate. intros H. apply locate_from_nth in H.
  destruct H as [j [_ Hj]]. apply nth_error_In in Hj.
  change name with (fst (name, t)). apply in_map. exact Hj.
Qed.

Lemma empty_rows (v : DataFrame) :
  empty v = true -> columns v <> [] -> rows v = [].
Proof.
  unfold empty. destruct (rows v); [reflexivity |].
  destruct (columns v); [intros _ H; contradiction | discriminate].
Qed.

Lemma empty_false_rows (v : DataFrame) : empty v = false -> rows v <> [].
Proof. unfold empty. destruct (rows v); [discriminate | discriminate]. Qed.

(** ** The three steps keep the frame derived from the table *)

Lemma club_step_inv (c : FilterCriteria) (s s' : Session) :
  derived_from (df s) (filtered_df s) -> club_step c s = Ok s' ->
  df s' = df s /\ derived_from (df s) (filtered_df s').
Proof.
  unfold club_step. intros Hd H.
  destruct (selected_clubs c) as [| k ks].
  - inv H. simpl. split; [reflexivity | apply derived_empty].
  - apply bind_ok_inv in H. destruct H as [club [_ H]]. inv H. simpl.
    split; [reflexivity | apply derived_mask; exact Hd].
Qed.

Lemma position_step_inv (c : FilterCriteria) (s s' : Session) :
  derived_from (df s) (filtered_df s) -> position_step c s = Ok s' ->
  df s' = df s /\ derived_from (df s) (filtered_df s').
Proof.
  unfold position_step. intros Hd H.
  destruct (String.eqb (selected_position c) "All").
  - inv H. split; [reflexivity | exact Hd].
  - apply bind_ok_inv in H. destruct H as [pos [_ H]]. inv H. simpl.
    split; [reflexivity | apply derived_mask; exact Hd].
Qed.

Lemma minutes_mask_inv (c : FilterCriteria) (s s' : Session) :
  derived_from (df s) (filtered_df s) -> minutes_mask c s = Ok s' ->
  df s' = df s /\ derived_from (df s) (filtered_df s').
Proof.
  unfold minutes_mask. intros Hd H.
  apply bind_ok_inv in H. destruct H as [m1 [_ H]].
  apply bind_ok_inv in H. destruct H as [lo [_ H]].
  apply bind_ok_inv in H. destruct H as [m2 [_ H]].
  apply bind_ok_inv in H. destruct H as [hi [_ H]]. inv H. simpl.
  split; [reflexivity | apply derived_mask; exact Hd].
Qed.

Lemma minutes_step_inv (c : FilterCriteria) (s s' : Session) :
  derived_from (df s) (filtered_df s) -> minutes_step c s = Ok s' ->
  df s' = df s /\ derived_from (df s) (filtered_df s').
Proof.
  unfold minutes_step. intros Hd H.
  destruct (negb (empty (filtered_df s))).
  - eapply minutes_mask_inv; eassumption.
  - inv H. split; [reflexivity | exact Hd].
Qed.

Lemma filter_section_inv (c : FilterCriteria) (d : DataFrame) (s : Session) :
  filter_section c d = Ok s -> df s = d /\ derived_from d (filtered_df s).
Proof.
  unfold filter_section. intros H.
  apply bind_ok_inv in H. destruct H as [s1 [H1 H]].
  apply bind_ok_inv in H. destruct H as [s2 [H2 H3]].
  apply club_step_inv in H1; [| apply derived_refl]. simpl in H1.
  destruct H1 as [E1 D1]. rewrite <- E1 in D1.
  apply position_step_inv in H2; [| exact D1].
  destruct H2 as [E2 D2]. rewrite <- E2 in D2.
  apply minutes_step_inv in H3; [| exact D2].
  destruct H3 as [E3 D3]. split; [congruence |].
  rewrite E2, E1 in D3. exact D3.
Qed.

(** ** The three steps succeed on a well-formed table *)

Lemma well_formed_unpack (d : DataFrame) :
  well_formed d = true ->
  typed d = true /\
  distinct_names (map fst (columns d)) = true /\
  distinct_labels (map label (rows d)) = true /\
  (exists i, locate "Club" d = Some (i, object)) /\
  (exists i, locate "Position" d = Some (i, object)) /\
  (exists i, locate "Minutes" d = Some (i, int64)) /\
  (exists i, locate "Goals" d = Some (i, int64)) /\
  (exists i, locate "Assists" d = Some (i, int64)).
Proof.
  unfold well_formed, well_typed, required_columns. intros H.
  repeat rewrite andb_true_iff in H.
  destruct H as [[[Ht Hn] Hl] [[[[Hc Hp] Hm] Hg] Ha]].
  repeat split; try assumption; apply has_column_locate; assumption.
Qed.

Lemma club_step_total (c : FilterCriteria) (s : Session) (i : nat) (t : dtype) :
  derived_from (df s) (filtered_df s) -> locate "Club" (df s) = Some (i, t) ->
  exists s', club_step c s = Ok s'.
Proof.
  intros Hd Hl. unfold club_step.
  destruct (selected_clubs c); [eauto |].
  destruct (derived_locate _ _ _ _ _ Hd Hl) as [t' [Hl' _]].
  unfold getitem. rewrite Hl'. simpl. eauto.
Qed.

Lemma position_step_total (c : FilterCriteria) (s : Session) (i : nat) (t : dtype) :
  derived_from (df s) (filtered_df s) -> locate "Position" (df s) = Some (i, t) ->
  exists s', position_step c s = Ok s'.
Proof.
  intros Hd Hl. unfold position_step.
  destruct (String.eqb (selected_position c) "All"); [eauto |].
  destruct (derived_locate _ _ _ _ _ Hd Hl) as [t' [Hl' _]].
  unfold getitem. rewrite Hl'. simpl. eauto.
Qed.

Lemma int64_cell (c : cell) : conforms int64 c = true -> exists z, c = Int z.
Proof. destruct c; simpl; try discriminate. eauto. Qed.

Lemma minutes_mask_total (c : FilterCriteria) (s : Session) (i : nat) :
  typed (df s) = true ->
  derived_from (df s) (filtered_df s) ->
  locate "Minutes" (df s) = Some (i, int64) ->
  exists s', minutes_mask c s = Ok s'.
Proof.
  intros Ht Hd Hl. unfold minutes_mask.
  destruct (derived_locate _ _ _ _ _ Hd Hl) as [t' [Hl' _]].
  unfold getitem. rewrite Hl'. simpl.
  assert (Hcells : forall x, In x (map (cell_at i) (rows (filtered_df s))) ->
                             exists z, x = Int z).
  { intros x Hx. apply in_map_iff in Hx. destruct Hx as [r [<- Hr]].
    apply int64_cell. eapply typed_cell; [exact Ht | exact Hl |].
    eapply subseq_In; [apply Hd | exact Hr]. }
  unfold ge_scalar, le_scalar. simpl.
  match goal with |- context [mapM ?f ?l] =>
    destruct (mapM_total f l) as [lo [Hlo _]] end.
  { intros x Hx. destruct (Hcells x Hx) as [z ->]. eauto. }
  rewrite Hlo. simpl.
  match goal with |- context [mapM ?f ?l] =>
    destruct (mapM_total f l) as [hi [Hhi _]] end.
  { intros x Hx. destruct (Hcells x Hx) as [z ->]. eauto. }
  rewrite Hhi. simpl. eauto.
Qed.

Lemma filter_section_total (c : FilterCriteria) (d : DataFrame) :
  well_formed d = true -> exists s, filter_section c d = Ok s.
Proof.
  intros Hwf. apply well_formed_unpack in Hwf.
  destruct Hwf as (Ht & _ & _ & [ic Hc] & [ip Hp] & [im Hm] & _).
  unfold filter_section.
  destruct (club_step_total c {| df := d; filtered_df := d |} ic object)
    as [s1 H1]; [apply derived_refl | exact Hc |].
  rewrite H1. simpl.
  destruct (club_step_inv c {| df := d; filtered_df := d |} s1 (derived_refl d) H1) as [E1 D1]. simpl in E1, D1.
  destruct (position_step_total c s1 ip object) as [s2 H2];
    [rewrite E1; exact D1 | rewrite E1; exact Hp |].
  rewrite H2. simpl.
  assert (D1' : derived_from (df s1) (filtered_df s1)) by (rewrite E1; exact D1).
  destruct (position_step_inv c s1 _ D1' H2) as [E2 D2].
  unfold minutes_step. destruct (negb (empty (filtered_df s2))); [| eauto].
  apply minutes_mask_total with (i := im).
  - rewrite E2, E1. exact Ht.
  - rewrite E2. exact D2.
  - rewrite E2, E1. exact Hm.
Qed.

(** The guard before the minutes predicate changes nothing. *)
Lemma minutes_step_unguarded (c : FilterCriteria) (s : Session) :
  derived_from (df s) (filtered_df s) ->
  In "Minutes"%string (map fst (columns (df s))) ->
  minutes_step c s = minutes_mask c s.
Proof.
  intros Hd Hin. unfold minutes_step.
  destruct (empty (filtered_df s)) eqn:E; simpl; [| reflexivity].
  destruct (locate_in_names _ _ Hin) as [i [t Hl]].
  destruct (derived_locate _ _ _ _ _ Hd Hl) as [t' [Hl' _]].
  assert (Hr : rows (filtered_df s) = []).
  { apply empty_rows; [exact E |].
    apply locate_some_names in Hl'. intros Hc. rewrite Hc in Hl'. exact Hl'. }
  unfold minutes_mask, getitem. rewrite Hl'. simpl. rewrite Hr. simpl.
  destruct s as [d0 [cols rs]]. simpl in *. subst rs.
  unfold assign_filtered, getitem_mask. simpl. reflexivity.
Qed.

Lemma distinct_labels_NoDup (l : list nat) :
  distinct_labels l = true -> NoDup l.
Proof.
  induction l as [| x l IH]; simpl; intros H.
  - constructor.
  - apply andb_true_iff in H. destruct H as [Hx Hl].
    constructor; [| apply IH; exact Hl].
    intros Hin. apply negb_true_iff in Hx.
    assert (E : existsb (Nat.eqb x) l = true).
    { apply existsb_exists. exists x. split; [exact Hin | apply Nat.eqb_refl]. }
    congruence.
Qed.

Lemma well_formed_NoDup_rows (d : DataFrame) :
  well_formed d = true -> NoDup (map label (rows d)).
Proof.
  intros H. apply well_formed_unpack in H.
  destruct H as (_ & _ & Hl & _). apply distinct_labels_NoDup. exact Hl.
Qed.

Lemma subseq_cons_inv {A : Type} (x : A) (l1 l : list A) :
  subseq (x :: l1) l -> exists m m', l = m ++ x :: m' /\ subseq l1 m'.
Proof.
  induction l as [| y l IH]; intros H; inv H.
  - destruct (IH H2) as [m [m' [-> Hs]]].
    exists (y :: m), m'. split; [reflexivity | exact Hs].
  - exists [], l. split; [reflexivity | assumption].
Qed.

Lemma subseq_app_l {A : Type} (p l1 l : list A) :
  subseq (p ++ l1) l -> exists m m', l = m ++ m' /\ subseq l1 m'.
Proof.
  revert l. induction p as [| x p IH]; intros l H; simpl in H.
  - exists [], l. split; [reflexivity | exact H].
  - apply subseq_cons_inv in H. destruct H as [m [m' [-> Hs]]].
    destruct (IH m' Hs) as [n [n' [-> Hs']]].
    exists (m ++ x :: n), n'. split; [| exact Hs'].
    rewrite <- app_assoc. reflexivity.
Qed.

Lemma subseq_before {A : Type} (r r' : A) (l1 l2 : list A) :
  subseq l1 l2 -> before r r' l1 -> before r r' l2.
Proof.
  intros Hs (a & b & c & ->).
  apply subseq_app_l in Hs. destruct Hs as [m [m' [-> Hs]]].
  apply subseq_cons_inv in Hs. destruct Hs as [n [n' [-> Hs]]].
  apply subseq_app_l in Hs. destruct Hs as [k [k' [-> Hs]]].
  apply subseq_cons_inv in Hs. destruct Hs as [j [j' [-> Hs]]].
  exists (m ++ n), (k ++ j), j'.
  repeat rewrite <- app_assoc. simpl. reflexivity.
Qed.

(** ** Filter engine: the claims *)

(** C2. With no club selected the filter returns a frame without rows,
    whatever the position and the minutes range are; what it returns is a
    frame, not an error, and it carries the headers of the source table.
    (A position other than "All" makes the script read the Position
    column, which then has to exist.) *)
Theorem C2_no_club_selected (d : DataFrame) (c : FilterCriteria) :
  selected_position c = "All"%string \/
    In "Position"%string (map fst (columns d)) ->
  selected_clubs c = [] ->
  exists s,
    filter_section c d = Ok s /\
    rows (filtered_df s) = [] /\
    map fst (columns (filtered_df s)) = map fst (columns d).
Proof.
  intros Hpos Hc.
  assert (Hnames : map fst (columns (empty_frame (columns d)))
                   = map fst (columns d)).
  { simpl. rewrite map_map. reflexivity. }
  unfold filter_section, club_step. rewrite Hc. simpl bind.
  unfold position_step. simpl filtered_df.
  destruct (String.eqb (selected_position c) "All") eqn:E.
  - simpl bind. unfold minutes_step. simpl.
    eexists. split; [reflexivity |]. split; [reflexivity | exact Hnames].
  - destruct Hpos as [Hall | Hpos].
    { rewrite Hall in E. discriminate E. }
    destruct (locate_in_names "Position" (empty_frame (columns d)))
      as [i [t Hloc]]; [rewrite Hnames; exact Hpos |].
    unfold getitem. rewrite Hloc. simpl bind.
    unfold minutes_step. simpl.
    eexists. split; [reflexivity |]. split; [reflexivity | exact Hnames].
Qed.

Lemma C2_no_club_selected_witness :
  exists s,
    filter_section
      {| selected_clubs := []; selected_position := "FW";
         selected_minutes_range := (100, 200)%Z |} sample = Ok s /\
    rows (filtered_df s) = [] /\
    map fst (columns (filtered_df s)) = map fst (columns sample).
Proof.
  apply (C2_no_club_selected sample).
  - right. simpl. right. right. left. reflexivity.
  - reflexivity.
Defined.

(** C3. Skipping the minutes predicate when the frame left by the club
    and position predicates is empty gives the same result, errors
    included, as applying it unconditionally. *)
Theorem C3_minutes_guard_equivalent (d : DataFrame) (c : FilterCriteria) :
  In "Minutes"%string (map fst (columns d)) ->
  filter_section c d = filter_section_unguarded c d.
Proof.
  intros Hin. unfold filter_section, filter_section_unguarded.
  destruct (club_step c {| df := d; filtered_df := d |}) as [s1 | e] eqn:H1;
    simpl; [| reflexivity].
  destruct (club_step_inv c {| df := d; filtered_df := d |} s1
              (derived_refl d) H1) as [E1 D1]. simpl in E1, D1.
  destruct (position_step c s1) as [s2 | e] eqn:H2; simpl; [| reflexivity].
  assert (D1' : derived_from (df s1) (filtered_df s1)) by (rewrite E1; exact D1).
  destruct (position_step_inv c s1 s2 D1' H2) as [E2 D2].
  apply minutes_step_unguarded.
  - rewrite E2. exact D2.
  - rewrite E2, E1. exact Hin.
Qed.

Lemma C3_minutes_guard_equivalent_witness :
  filter_section
    {| selected_clubs := []; selected_position := "All";
       selected_minutes_range := (0, 1000)%Z |} sample
  = filter_section_unguarded
      {| selected_clubs := []; selected_position := "All";
         selected_minutes_range := (0, 1000)%Z |} sample.
Proof.
  apply (C3_minutes_guard_equivalent sample).
  simpl. right. right. right. left. reflexivity.
Defined.

(** C8. Every row the filter returns is a row of the table, taken whole
    (label and cells), and none of them twice when the table has none
    twice; the table held by the script is the one it started from.  On a
    well-formed table the filter does return. *)
Theorem C8_filter_returns_table_rows (d : DataFrame) (c : FilterCriteria) :
  (forall s,
      filter_section c d = Ok s ->
      df s = d /\
      (forall r, In r (rows (filtered_df s)) -> In r (rows d)) /\
      (NoDup (rows d) -> NoDup (rows (filtered_df s)))) /\
  (well_formed d = true ->
   NoDup (rows d) /\ exists s, filter_section c d = Ok s).
Proof.
  split.
  - intros s Hs.
    destruct (filter_section_inv c d s Hs) as [E [Hsub _]].
    split; [exact E |]. split.
    + intros r Hr. eapply subseq_In; eassumption.
    + intros Hnd. eapply subseq_NoDup; eassumption.
  - intros Hwf. split.
    + apply (NoDup_map_inv label). apply well_formed_NoDup_rows. exact Hwf.
    + apply filter_section_total. exact Hwf.
Qed.

Lemma C8_filter_returns_table_rows_witness :
  exists s,
    filter_section sample_criteria sample = Ok s /\
    df s = sample /\
    (forall r, In r (rows (filtered_df s)) -> In r (rows sample)) /\
    NoDup (rows (filtered_df s)).
Proof.
  destruct (C8_filter_returns_table_rows sample sample_criteria) as [H1 H2].
  destruct (H2 eq_refl) as [Hnd [s Hs]].
  destruct (H1 s Hs) as [E [Hin Hnd']].
  exists s. split; [exact Hs |]. split; [exact E |].
  split; [exact Hin | apply Hnd'; exact Hnd].
Defined.

(** C10. The rows the filter returns stand in the order they have in the
    table: the result is a subsequence of the table, so a row that comes
    before another in the result comes before it in the table.  On a
    well-formed table the filter does return. *)
Theorem C10_filter_keeps_row_order (d : DataFrame) (c : FilterCriteria) :
  (forall s,
      filter_section c d = Ok s ->
      subseq (rows (filtered_df s)) (rows d) /\
      (forall r r', before r r' (rows (filtered_df s)) ->
                    before r r' (rows d))) /\
  (well_formed d = true -> exists s, filter_section c d = Ok s).
Proof.
  split.
  - intros s Hs.
    destruct (filter_section_inv c d s Hs) as [_ [Hsub _]].
    split; [exact Hsub |].
    intros r r' Hb. eapply subseq_before; eassumption.
  - apply filter_section_total.
Qed.

Lemma C10_filter_keeps_row_order_witness :
  exists s,
    filter_section sample_criteria sample = Ok s /\
    subseq (rows (filtered_df s)) (rows sample) /\
    (forall r r', before r r' (rows (filtered_df s)) ->
                  before r r' (rows sample)).
Proof.
  destruct (C10_filter_keeps_row_order sample sample_criteria) as [H1 H2].
  destruct (H2 eq_refl) as [s Hs].
  exists s. split; [exact Hs | apply H1; exact Hs].
Defined.

(** ** Rounding *)

Lemma rint_close (y : Q) : (Qabs (y - inject_Z (rint y)) <= 1 # 2)%Q.
Proof.
  unfold rint.
  pose proof (Qfloor_le y) as Hlo.
  pose proof (Qlt_floor y) as Hhi.
  rewrite inject_Z_plus in Hhi. change (inject_Z 1) with 1%Q in Hhi.
  apply Qabs_Qle_condition.
  destruct (Qcompare (y - inject_Z (Qfloor y)) (1 # 2)) eqn:E.
  - apply Qeq_alt in E.
    destruct (Z.even (Qfloor y));
      [| rewrite inject_Z_plus; change (inject_Z 1) with 1%Q]; split; lra.
  - apply Qlt_alt in E. split; lra.
  - apply Qgt_alt in E. rewrite inject_Z_plus.
    change (inject_Z 1) with 1%Q. split; lra.
Qed.

Lemma pow10_pos (nd : nat) : (0 < pow10 nd)%Q.
Proof.
  unfold pow10. change 0%Q with (inject_Z 0). rewrite <- Zlt_Qlt.
  apply Z.pow_pos_nonneg; lia.
Qed.

Lemma round_to_rounded (nd : nat) (x : Q) : rounded_to nd x (round_to x nd).
Proof.
  unfold rounded_to, round_to. split.
  - exists (rint (x * pow10 nd)). reflexivity.
  - pose proof (pow10_pos nd) as Hp.
    pose proof (rint_close (x * pow10 nd)) as Hr.
    set (k := inject_Z (rint (x * pow10 nd))) in *.
    set (p := pow10 nd) in *.
    apply Qabs_Qle_condition in Hr. apply Qabs_Qle_condition.
    assert (Hp' : ~ p == 0) by lra.
    assert (Hx : x - k / p == (x * p - k) / p) by (field; exact Hp').
    rewrite Hx.
    split.
    + apply Qle_shift_div_l; [exact Hp |].
      assert (E : - ((1 # 2) / p) * p == - (1 # 2)) by (field; exact Hp').
      rewrite E. lra.
    + apply Qle_shift_div_r; [exact Hp |].
      assert (E : (1 # 2) / p * p == 1 # 2) by (field; exact Hp').
      rewrite E. lra.
Qed.

Lemma rounded_to_proper (nd : nat) (x x' r : Q) :
  (x == x')%Q -> rounded_to nd x r -> rounded_to nd x' r.
Proof.
  intros E [Hk Hd]. split; [exact Hk |]. rewrite <- E. exact Hd.
Qed.

(** ** Reductions over an integer column *)

Lemma Qsum_inject (l : list Z) : (Qsum (map inject_Z l) == inject_Z (Zsum l))%Q.
Proof.
  induction l as [| z l IH]; simpl.
  - reflexivity.
  - rewrite IH, inject_Z_plus. reflexivity.
Qed.

Lemma wrap64_fits (z : Z) : fits_int64 z -> wrap64 z = z.
Proof.
  unfold fits_int64, wrap64, two63, two64. intros H.
  rewrite Z.mod_small; lia.
Qed.

Lemma int_column_mapM (d : DataFrame) (name : string) (i : nat) (rs : list Row) :
  typed d = true -> locate name d = Some (i, int64) ->
  (forall r, In r rs -> In r (rows d)) ->
  mapM as_int (map (cell_at i) rs) = Ok (int_column i rs).
Proof.
  intros Ht Hl Hin. unfold int_column.
  induction rs as [| r rs IH]; simpl.
  - reflexivity.
  - destruct (int64_cell (cell_at i r)) as [z Hz].
    { eapply typed_cell; [exact Ht | exact Hl |]. apply Hin. left. reflexivity. }
    rewrite Hz. simpl. rewrite IH; [reflexivity |].
    intros r' Hr'. apply Hin. right. exact Hr'.
Qed.

Lemma series_sum_int64 (d : DataFrame) (name : string) (i : nat) :
  typed d = true -> locate name d = Some (i, int64) ->
  (s <- getitem d name ;; series_sum s)
  = Ok (Int (wrap64 (Zsum (int_values name d)))).
Proof.
  intros Ht Hl. unfold getitem, int_values. rewrite Hl. simpl.
  unfold series_sum. simpl.
  rewrite (int_column_mapM d name i (rows d) Ht Hl); [reflexivity | auto].
Qed.

Lemma series_mean_int64 (d : DataFrame) (name : string) (i : nat) :
  typed d = true -> locate name d = Some (i, int64) -> rows d <> [] ->
  exists q,
    (s <- getitem d name ;; series_mean s) = Ok (Flt q) /\
    (q == Zmean (int_values name d))%Q.
Proof.
  intros Ht Hl Hne. unfold getitem, int_values. rewrite Hl. simpl.
  unfold series_mean. simpl.
  rewrite (int_column_mapM d name i (rows d) Ht Hl); [| auto]. simpl.
  unfold Qmean, Zmean.
  destruct (rows d) as [| r rs] eqn:E; [contradiction |].
  simpl map at 1.
  eexists. split; [reflexivity |].
  rewrite Qsum_inject. rewrite length_map. reflexivity.
Qed.

(** ** KPI block *)

Lemma kpi_block_nonempty (v : DataFrame) :
  empty v = false ->
  well_formed v = true ->
  exists a m,
    kpi_block v =
      Ok {| total_players := Z.of_nat (List.length (rows v));
            total_goals := wrap64 (Zsum (int_values "Goals" v));
            avg_assists := Flt a;
            avg_minutes := Flt m |} /\
    rounded_to 2 (Zmean (int_values "Assists" v)) a /\
    rounded_to 0 (Zmean (int_values "Minutes" v)) m.
Proof.
  intros E Hwf. unfold kpi_block. rewrite E. simpl negb. cbv iota.
  apply well_formed_unpack in Hwf.
  destruct Hwf as (Ht & _ & _ & _ & _ & [im Hm] & [ig Hg] & [ia Ha]).
  pose proof (empty_false_rows v E) as Hne.
  pose proof (series_sum_int64 v "Goals" ig Ht Hg) as Hsum.
  destruct (series_mean_int64 v "Assists" ia Ht Ha Hne) as [qa [Hqa Ea]].
  destruct (series_mean_int64 v "Minutes" im Ht Hm Hne) as [qm [Hqm Em]].
  exists (round_to qa 2), (round_to qm 0). split.
  - destruct (getitem v "Goals") as [sg | e]; simpl in Hsum; [| discriminate].
    simpl. rewrite Hsum. simpl.
    destruct (getitem v "Assists") as [sa | e]; simpl in Hqa; [| discriminate].
    simpl. rewrite Hqa. simpl.
    destruct (getitem v "Minutes") as [sm | e]; simpl in Hqm; [| discriminate].
    simpl. rewrite Hqm. simpl. reflexivity.
  - split.
    + eapply rounded_to_proper; [exact Ea | apply round_to_rounded].
    + eapply rounded_to_proper; [exact Em | apply round_to_rounded].
Qed.

Lemma NoDup_distinct_labels (l : list nat) :
  NoDup l -> distinct_labels l = true.
Proof.
  induction 1 as [| x l Hx Hl IH]; simpl; [reflexivity |].
  rewrite IH, andb_true_r. apply negb_true_iff. apply not_true_iff_false.
  intros H. apply existsb_exists in H. destruct H as [y [Hy E]].
  apply Nat.eqb_eq in E. subst y. contradiction.
Qed.

Lemma has_column_columns (name : string) (t : dtype) (d v : DataFrame) :
  columns v = columns d -> has_column name t v = has_column name t d.
Proof. unfold has_column, locate. intros ->. reflexivity. Qed.

(** A non-empty frame left by the filter is as well formed as the table. *)
Lemma derived_well_formed (d v : DataFrame) :
  well_formed d = true -> derived_from d v -> rows v <> [] ->
  columns v = columns d /\ well_formed v = true.
Proof.
  intros Hwf [Hsub [Hc | [_ Hr]]] Hne; [| contradiction].
  split; [exact Hc |].
  unfold well_formed, well_typed, required_columns in *.
  repeat rewrite andb_true_iff in Hwf.
  destruct Hwf as [[[Ht Hn] Hl] [[[[H1 H2] H3] H4] H5]].
  repeat rewrite andb_true_iff.
  rewrite !(has_column_columns _ _ d v Hc).
  repeat split; try assumption.
  - unfold typed in *. rewrite Hc. rewrite forallb_forall in *.
    intros r Hr. apply Ht. eapply subseq_In; eassumption.
  - rewrite Hc. exact Hn.
  - apply NoDup_distinct_labels.
    eapply subseq_NoDup; [apply subseq_map; exact Hsub |].
    apply distinct_labels_NoDup. exact Hl.
Qed.

Lemma kpi_block_total (v : DataFrame) :
  (empty v = false -> well_formed v = true) -> exists k, kpi_block v = Ok k.
Proof.
  intros H. destruct (empty v) eqn:E.
  - unfold kpi_block. rewrite E. simpl. eauto.
  - destruct (kpi_block_nonempty v E (H eq_refl)) as [a [m [Hk _]]]. eauto.
Qed.



(** ** Rankable metrics *)

Lemma starts_with_append (p s : string) :
  starts_with p s = true <-> exists b, s = String.append p b.
Proof.
  revert s. induction p as [| a p IH]; intros s; simpl.
  - split; [intros _; exists s; reflexivity | reflexivity].
  - destruct s as [| c s].
    + split; [discriminate | intros [b Hb]; discriminate].
    + rewrite andb_true_iff, Ascii.eqb_eq, IH. split.
      * intros [-> [b ->]]. exists b. reflexivity.
      * intros [b Hb]. inv Hb. split; [reflexivity | eauto].
Qed.

Lemma str_in_occurs (pat s : string) :
  str_in pat s = true <-> occurs_in pat s.
Proof.
  unfold occurs_in. induction s as [| c s IH]; simpl.
  - destruct (starts_with pat "") eqn:E.
    + split; [intros _ | reflexivity].
      apply starts_with_append in E. destruct E as [b Hb].
      exists EmptyString, b. exact Hb.
    + split; [discriminate |]. intros [a [b H]].
      destruct a; [| discriminate]. simpl in H.
      assert (starts_with pat "" = true) by (apply starts_with_append; eauto).
      congruence.
  - destruct (starts_with pat (String c s)) eqn:E.
    + split; [intros _ | reflexivity].
      apply starts_with_append in E. destruct E as [b Hb].
      exists EmptyString, b. exact Hb.
    + rewrite IH. split.
      * intros [a [b H]]. exists (String c a), b. simpl. congruence.
      * intros [a [b H]]. destruct a as [| c' a]; simpl in H.
        { assert (starts_with pat (String c s) = true)
            by (apply starts_with_append; eauto).
          congruence. }
        { inv H. eauto. }
Qed.

Lemma mem_string_In (x : string) (l : list string) :
  mem_string x l = true <-> In x l.
Proof.
  unfold mem_string. rewrite existsb_exists. split.
  - intros [y [Hy E]]. apply String.eqb_eq in E. subst. exact Hy.
  - intros H. exists x. split; [exact H | apply String.eqb_refl].
Qed.

Lemma numeric_cols_In (d : DataFrame) (col : string) :
  In col (numeric_cols d) <->
  exists t, In (col, t) (columns d) /\ is_number t = true.
Proof.
  unfold numeric_cols. rewrite in_map_iff. split.
  - intros [[c t] [E H]]. simpl in E. subst.
    apply filter_In in H. exists t. exact H.
  - intros [t H]. exists (col, t). split; [reflexivity |].
    apply filter_In. exact H.
Qed.

Lemma rankable_spec (col : string) :
  rankable col = true <->
  ~ In col metrics_to_exclude /\ ~ occurs_in "Ended" col /\ ~ occurs_in "xGoT" col.
Proof.
  unfold rankable. repeat rewrite andb_true_iff. repeat rewrite negb_true_iff.
  rewrite <- (str_in_occurs "Ended"), <- (str_in_occurs "xGoT"), <- mem_string_In.
  repeat rewrite not_true_iff_false. tauto.
Qed.

(** C7. The rankable metrics are the numeric columns of the schema that
    are not on the exclusion list and whose name contains neither "Ended"
    nor "xGoT"; a column on the exclusion list is never among them; and
    the rows of the table play no part. *)
Theorem C7_rankable_metrics (d : DataFrame) :
  (forall col,
      In col (metrics_to_rank d) <->
      (exists t, In (col, t) (columns d) /\ is_number t = true) /\
      ~ In col metrics_to_exclude /\
      ~ occurs_in "Ended" col /\ ~ occurs_in "xGoT" col) /\
  (forall col, In col metrics_to_exclude -> ~ In col (metrics_to_rank d)) /\
  (forall rs, metrics_to_rank {| columns := columns d; rows := rs |}
              = metrics_to_rank d) /\
  metrics_to_exclude =
    ["Big Chances Missed"; "Hit Woodwork"; "Offsides"; "Goals Conceded";
     "Own Goals"; "Yellow Cards"; "Red Cards"; "Penalties Saved"]%string.
Proof.
  assert (H : forall col,
             In col (metrics_to_rank d) <->
             (exists t, In (col, t) (columns d) /\ is_number t = true) /\
             ~ In col metrics_to_exclude /\
             ~ occurs_in "Ended" col /\ ~ occurs_in "xGoT" col).
  { intros col. unfold metrics_to_rank.
    rewrite filter_In, numeric_cols_In, rankable_spec. reflexivity. }
  split; [exact H |]. split; [| split; reflexivity].
  intros col Hex Hin. apply H in Hin. tauto.
Qed.

(** ** Column assignment *)

Lemma set_nth_length {A : Type} (i : nat) (x : A) (l : list A) :
  List.length (set_nth i x l) = List.length l.
Proof.
  revert i. induction l as [| y l IH]; intros [| i]; simpl; auto.
Qed.

Lemma nth_set_nth_same {A : Type} (i : nat) (x dflt : A) (l : list A) :
  (i < List.length l)%nat -> nth i (set_nth i x l) dflt = x.
Proof.
  revert i. induction l as [| y l IH]; intros [| i] H; simpl in *;
    try lia; [reflexivity | apply IH; lia].
Qed.

Lemma nth_set_nth_other {A : Type} (i j : nat) (x dflt : A) (l : list A) :
  i <> j -> nth j (set_nth i x l) dflt = nth j l dflt.
Proof.
  revert i j. induction l as [| y l IH]; intros [| i] [| j] H; simpl;
    try reflexivity; try congruence.
  apply IH. congruence.
Qed.

Lemma map_fst_set_nth (i : nat) (name : string) (t t0 : dtype)
    (cols : list (string * dtype)) :
  nth_error cols i = Some (name, t0) ->
  map fst (set_nth i (name, t) cols) = map fst cols.
Proof.
  revert i. induction cols as [| [c u] cols IH]; intros [| i] H; simpl in *;
    try discriminate.
  - inv H. reflexivity.
  - rewrite IH; [reflexivity | exact H].
Qed.

Lemma locate_from_set_nth (col : string) (t' : dtype)
    (cols : list (string * dtype)) :
  forall k p t0,
    locate_from k col cols = Some (p, t0) ->
    forall name,
      locate_from k name (set_nth (p - k) (col, t') cols)
      = if String.eqb col name then Some (p, t') else locate_from k name cols.
Proof.
  induction cols as [| [c t] cols IH]; intros k p t0 H name; simpl in H.
  - discriminate.
  - destruct (String.eqb c col) eqn:E.
    + apply String.eqb_eq in E. inv H. rewrite Nat.sub_diag. simpl.
      destruct (String.eqb col name); reflexivity.
    + pose proof (locate_from_nth col cols (S k) p t0 H) as [j [Ep _]].
      replace (p - k)%nat with (S (p - S k)) by lia. simpl.
      rewrite (IH (S k) p t0 H name).
      destruct (String.eqb c name) eqn:E1; [| reflexivity].
      apply String.eqb_eq in E1. subst c.
      rewrite String.eqb_sym, E. reflexivity.
Qed.

Lemma set_column_labels (i : nat) (vs : list cell) (rs : list Row) :
  List.length vs = List.length rs ->
  map label (set_column i vs rs) = map label rs.
Proof.
  revert vs. induction rs as [| r rs IH]; intros [| v vs] H; simpl in *;
    try discriminate; try reflexivity.
  rewrite IH; [reflexivity | lia].
Qed.

Lemma set_column_same (i : nat) (vs : list cell) (rs : list Row) :
  List.length vs = List.length rs ->
  (forall r, In r rs -> (i < List.length (cells r))%nat) ->
  map (cell_at i) (set_column i vs rs) = vs.
Proof.
  revert vs. induction rs as [| r rs IH]; intros [| v vs] H Hi; simpl in *;
    try discriminate; try reflexivity.
  unfold cell_at at 1. simpl.
  rewrite nth_set_nth_same; [| apply Hi; left; reflexivity].
  rewrite IH; [reflexivity | lia | intros r' Hr'; apply Hi; right; exact Hr'].
Qed.

Lemma set_column_other (i j : nat) (vs : list cell) (rs : list Row) :
  List.length vs = List.length rs -> i <> j ->
  map (cell_at j) (set_column i vs rs) = map (cell_at j) rs.
Proof.
  revert vs. induction rs as [| r rs IH]; intros [| v vs] H Hij; simpl in *;
    try discriminate; try reflexivity.
  unfold cell_at at 1 3. simpl.
  rewrite nth_set_nth_other; [| exact Hij].
  rewrite IH; [reflexivity | lia | exact Hij].
Qed.

Lemma set_column_cells (i : nat) (vs : list cell) (rs : list Row) (r' : Row) :
  In r' (set_column i vs rs) ->
  exists r, In r rs /\ List.length (cells r') = List.length (cells r).
Proof.
  revert vs. induction rs as [| r rs IH]; intros [| v vs] H; simpl in *;
    try contradiction.
  destruct H as [<- | H].
  - exists r. split; [left; reflexivity |]. simpl. apply set_nth_length.
  - destruct (IH vs H) as [r0 [Hr0 E]]. exists r0. split; [right |]; assumption.
Qed.

Lemma locate_bound (name : string) (d : DataFrame) (i : nat) (t : dtype) :
  locate name d = Some (i, t) -> (i < List.length (columns d))%nat.
Proof.
  unfold locate. intros H. apply locate_from_nth in H.
  destruct H as [j [-> Hj]]. simpl.
  apply nth_error_Some. congruence.
Qed.

Lemma locate_distinct (d : DataFrame) (a b : string) (i j : nat) (t u : dtype) :
  locate a d = Some (i, t) -> locate b d = Some (j, u) -> a <> b -> i <> j.
Proof.
  unfold locate. intros Ha Hb Hab E. subst j.
  apply locate_from_nth in Ha. apply locate_from_nth in Hb.
  destruct Ha as [ja [Ea Ha]]. destruct Hb as [jb [Eb Hb]].
  simpl in Ea, Eb. subst. congruence.
Qed.

Section Setitem.

Variables (d : DataFrame) (col : string) (s : Series) (i : nat) (t0 : dtype).
Hypothesis Hrect : rectangular d.
Hypothesis Hloc : locate col d = Some (i, t0).
Hypothesis Hlen : List.length (values s) = List.length (rows d).

Lemma setitem_names :
  map fst (columns (setitem d col s)) = map fst (columns d).
Proof.
  unfold setitem. rewrite Hloc. simpl.
  unfold locate in Hloc. apply locate_from_nth in Hloc.
  destruct Hloc as [j [-> Hj]]. simpl.
  eapply map_fst_set_nth. exact Hj.
Qed.

Lemma setitem_labels :
  map label (rows (setitem d col s)) = map label (rows d).
Proof.
  unfold setitem. rewrite Hloc. simpl. apply set_column_labels. exact Hlen.
Qed.

Lemma setitem_rectangular : rectangular (setitem d col s).
Proof.
  unfold rectangular, setitem. rewrite Hloc. simpl. intros r' Hr'.
  apply set_column_cells in Hr'. destruct Hr' as [r [Hr E]].
  rewrite E, set_nth_length. apply Hrect. exact Hr.
Qed.

Lemma setitem_locate (name : string) :
  locate name (setitem d col s)
  = if String.eqb col name then Some (i, sdtype s) else locate name d.
Proof.
  unfold setitem. rewrite Hloc. unfold locate at 1. simpl.
  unfold locate in Hloc.
  pose proof (locate_from_set_nth col (sdtype s) (columns d) 0 i t0 Hloc name)
    as H.
  rewrite Nat.sub_0_r in H. exact H.
Qed.

Lemma getitem_setitem_same : getitem (setitem d col s) col = Ok s.
Proof.
  unfold getitem. rewrite setitem_locate, String.eqb_refl.
  unfold setitem. rewrite Hloc. simpl.
  rewrite set_column_same; [destruct s; reflexivity | exact Hlen |].
  intros r Hr. rewrite (Hrect r Hr). eapply locate_bound. exact Hloc.
Qed.

Lemma getitem_setitem_other (name : string) :
  name <> col -> getitem (setitem d col s) name = getitem d name.
Proof.
  intros Hne. unfold getitem. rewrite setitem_locate.
  destruct (String.eqb col name) eqn:E.
  { apply String.eqb_eq in E. congruence. }
  destruct (locate name d) as [[j u] |] eqn:Hj; [| reflexivity].
  unfold setitem. rewrite Hloc. simpl.
  rewrite set_column_other; [reflexivity | exact Hlen |].
  eapply locate_distinct; [exact Hloc | exact Hj | congruence].
Qed.

End Setitem.

(** ** The conversion of one column *)

Lemma mapM_raise {A B : Type} (f : A -> result B) (l : list A) (e : exn) :
  mapM f l = Raise e -> exists x, In x l /\ f x = Raise e.
Proof.
  induction l as [| x l IH]; simpl; intros H.
  - discriminate.
  - destruct (f x) as [y | e0] eqn:E; simpl in H.
    + destruct (mapM f l) as [ys | e1]; simpl in H; [discriminate |].
      inv H. destruct (IH eq_refl) as [z [Hz Ez]]. eauto.
    + inv H. eauto.
Qed.

Lemma percent_gate_any (s : Series) :
  dtype_eqb (sdtype s) object && any (str_contains "%" s) = percent_gate s.
Proof.
  unfold percent_gate, any, str_contains. f_equal.
  induction (values s) as [| c l IH]; simpl; [reflexivity |].
  rewrite IH. destruct c; reflexivity.
Qed.

Lemma percent_gate_spec (s : Series) :
  percent_gate s = true <-> is_percent_column s.
Proof.
  unfold percent_gate, is_percent_column.
  rewrite andb_true_iff, existsb_exists. split.
  - intros [Ht [c [Hc Hp]]]. split.
    + destruct (sdtype s); simpl in Ht; try discriminate; reflexivity.
    + destruct c as [x | | |]; simpl in Hp; try discriminate.
      exists x. split; [exact Hc | apply str_in_occurs; exact Hp].
  - intros [Ht [x [Hx Hp]]]. split.
    + rewrite Ht. reflexivity.
    + exists (Str x). split; [exact Hx | apply str_in_occurs; exact Hp].
Qed.

Lemma convert_series_ok (tf : string -> option Q) (s : Series) :
  forallb (parses tf) (values s) = true ->
  exists f,
    astype_float tf (str_remove percent s) = Ok f /\
    div_scalar f 100
    = {| sdtype := float64; values := map (fraction tf) (values s) |}.
Proof.
  intros Hp. unfold astype_float, str_remove, div_scalar. simpl.
  rewrite forallb_forall in Hp.
  induction (values s) as [| c l IH]; simpl.
  - eexists. split; reflexivity.
  - assert (Hl : forall x, In x l -> parses tf x = true)
      by (intros x Hx; apply Hp; right; exact Hx).
    destruct (IH Hl) as [f [Hf Hd]].
    pose proof (Hp c (or_introl eq_refl)) as Hc.
    destruct (mapM _ (map _ l)) as [vs |] eqn:E; simpl in Hf; [| discriminate].
    inv Hf. simpl in Hd. inv Hd.
    destruct c as [x | z | q |]; simpl in *.
    + destruct (tf (remove_char percent x)); [| discriminate].
      simpl. eexists. split; reflexivity.
    + eexists. split; reflexivity.
    + eexists. split; reflexivity.
    + eexists. split; reflexivity.
Qed.

(** ** The loop over the columns *)

Lemma row_conforms_length (ts : list dtype) (cs : list cell) :
  row_conforms ts cs = true -> List.length cs = List.length ts.
Proof.
  revert cs. induction ts as [| t ts IH]; intros [| c cs] H; simpl in *;
    try discriminate; [reflexivity |].
  apply andb_true_iff in H. destruct H as [_ H]. rewrite (IH cs H). reflexivity.
Qed.

Lemma typed_rectangular (d : DataFrame) : typed d = true -> rectangular d.
Proof.
  unfold typed, rectangular. intros H r Hr.
  rewrite forallb_forall in H.
  rewrite (row_conforms_length _ _ (H r Hr)). apply length_map.
Qed.

Lemma distinct_names_NoDup (l : list string) :
  distinct_names l = true -> NoDup l.
Proof.
  induction l as [| x l IH]; simpl; intros H.
  - constructor.
  - apply andb_true_iff in H. destruct H as [Hx Hl].
    constructor; [| apply IH; exact Hl].
    intros Hin. apply mem_string_In in Hin.
    rewrite Hin in Hx. discriminate.
Qed.

Lemma getitem_length (d : DataFrame) (name : string) (s : Series) :
  getitem d name = Ok s -> List.length (values s) = List.length (rows d).
Proof.
  unfold getitem. destruct (locate name d) as [[i t] |]; [| discriminate].
  intros H. inv H. simpl. apply length_map.
Qed.

Lemma getitem_locate (d : DataFrame) (name : string) (s : Series) :
  getitem d name = Ok s -> exists i, locate name d = Some (i, sdtype s).
Proof.
  unfold getitem. destruct (locate name d) as [[i t] |]; [| discriminate].
  intros H. inv H. simpl. eauto.
Qed.

Lemma convert_columns_spec (tf : string -> option Q) :
  forall (names : list string) (d : DataFrame),
    rectangular d ->
    NoDup names ->
    (forall n, In n names -> In n (map fst (columns d))) ->
    (forall n s, In n names -> getitem d n = Ok s -> percent_gate s = true ->
                 forallb (parses tf) (values s) = true) ->
    exists d',
      convert_columns tf names d = Ok d' /\
      rectangular d' /\
      map fst (columns d') = map fst (columns d) /\
      map label (rows d') = map label (rows d) /\
      forall name s,
        getitem d name = Ok s ->
        getitem d' name =
          Ok (if mem_string name names && percent_gate s
              then {| sdtype := float64; values := map (fraction tf) (values s) |}
              else s).
Proof.
  induction names as [| col rest IH]; intros d Hrect Hnd Hin Hparse.
  - exists d. repeat split; try reflexivity; try assumption.
    intros name s Hs. simpl. exact Hs.
  - inv Hnd. rename H1 into Hnotin. rename H2 into Hnd.
    destruct (locate_in_names col d (Hin col (or_introl eq_refl)))
      as [i [t0 Hloc]].
    assert (Hget : getitem d col
                   = Ok {| sdtype := t0; values := map (cell_at i) (rows d) |}).
    { unfold getitem. rewrite Hloc. reflexivity. }
    set (s0 := {| sdtype := t0; values := map (cell_at i) (rows d) |}) in *.
    assert (Hmem : mem_string col rest = false).
    { apply not_true_iff_false. rewrite mem_string_In. exact Hnotin. }
    simpl convert_columns. rewrite Hget. simpl bind.
    change (dtype_eqb t0 object) with (dtype_eqb (sdtype s0) object).
    rewrite percent_gate_any.
    destruct (percent_gate s0) eqn:G.
    + destruct (convert_series_ok tf s0) as [f [Hf Hdiv]];
        [apply (Hparse col s0); [left; reflexivity | exact Hget | exact G] |].
      rewrite Hf. simpl bind. rewrite Hdiv.
      set (conv := {| sdtype := float64;
                      values := map (fraction tf) (values s0) |}).
      assert (Hlen : List.length (values conv) = List.length (rows d)).
      { unfold conv, s0. simpl. rewrite !length_map. reflexivity. }
      destruct (IH (setitem d col conv)) as (d' & Hd' & Hr' & Hn' & Hl' & Hc').
      * eapply setitem_rectangular; eassumption.
      * exact Hnd.
      * intros n Hn. rewrite (setitem_names d col conv i t0 Hloc).
        apply Hin. right. exact Hn.
      * intros n s Hn Hs Hg.
        assert (Hne : n <> col) by (intros ->; contradiction).
        rewrite (getitem_setitem_other d col conv i t0 Hloc Hlen n Hne) in Hs.
        apply (Hparse n s); [right; exact Hn | exact Hs | exact Hg].
      * exists d'. split; [exact Hd' |]. split; [exact Hr' |].
        split; [rewrite Hn'; eapply setitem_names; exact Hloc |].
        split; [rewrite Hl'; eapply setitem_labels; eassumption |].
        intros name s Hs.
        unfold mem_string. simpl existsb. fold (mem_string name rest).
        destruct (String.eqb name col) eqn:E.
        -- apply String.eqb_eq in E. subst name.
           rewrite Hget in Hs. inv Hs. rewrite G. simpl.
           rewrite (Hc' col conv);
             [| eapply getitem_setitem_same; eassumption].
           rewrite Hmem. reflexivity.
        -- assert (Hne : name <> col)
             by (intros ->; rewrite String.eqb_refl in E; discriminate).
           simpl. apply Hc'.
           rewrite (getitem_setitem_other d col conv i t0 Hloc Hlen name Hne).
           exact Hs.
    + destruct (IH d Hrect Hnd) as (d' & Hd' & Hr' & Hn' & Hl' & Hc').
      * intros n Hn. apply Hin. right. exact Hn.
      * intros n s Hn. apply Hparse. right. exact Hn.
      * exists d'. repeat split; try assumption.
        intros name s Hs.
        unfold mem_string. simpl existsb. fold (mem_string name rest).
        destruct (String.eqb name col) eqn:E.
        -- apply String.eqb_eq in E. subst name.
           rewrite Hget in Hs. inv Hs. rewrite G. simpl.
           rewrite (Hc' col s0 Hget). rewrite Hmem. reflexivity.
        -- simpl. apply Hc'. exact Hs.
Qed.

Lemma convert_columns_raise (tf : string -> option Q) :
  forall (names : list string) (d : DataFrame) (e : exn),
    convert_columns tf names d = Raise e ->
    e = ValueError \/ exists k, e = KeyError k.
Proof.
  induction names as [| col rest IH]; intros d e H; simpl in H.
  - discriminate.
  - unfold getitem in H. destruct (locate col d) as [[i t0] |]; simpl in H.
    + match type of H with (if ?b then _ else _) = _ => destruct b end.
      * destruct (astype_float tf _) as [f | e0] eqn:E; simpl in H.
        -- eapply IH; exact H.
        -- inv H. unfold astype_float in E.
           destruct (mapM _ _) as [vs | e1] eqn:M; simpl in E; [discriminate |].
           inv E. apply mapM_raise in M. destruct M as [c [_ Hc]].
           destruct c as [x | z | q |]; try discriminate.
           destruct (tf x); [discriminate |]. inv Hc. left. reflexivity.
      * eapply IH; exact H.
    + inv H. right. eauto.
Qed.

Lemma load_data_not_found (tf : string -> option Q) (fs : FileSystem)
    (path : string) :
  load_data tf fs path = Ok None <-> fs path = NoSuchFile.
Proof.
  unfold load_data, read_csv. split.
  - destruct (fs path) as [| | | d]; simpl; try discriminate; [reflexivity |].
    destruct (convert_columns tf (map fst (columns d)) d) as [d' | e] eqn:E;
      [discriminate |].
    apply convert_columns_raise in E.
    destruct E as [-> | [k ->]]; discriminate.
  - intros ->. reflexivity.
Qed.

(** ** When a percent column does not parse *)

Lemma forallb_false {A : Type} (f : A -> bool) (l : list A) :
  forallb f l = false -> exists x, In x l /\ f x = false.
Proof.
  induction l as [| x l IH]; simpl; intros H.
  - discriminate.
  - destruct (f x) eqn:E.
    + destruct (IH H) as [y [Hy Ey]]. eauto.
    + eauto.
Qed.

Lemma astype_float_fails (tf : string -> option Q) (s : Series) :
  forallb (parses tf) (values s) = false ->
  astype_float tf (str_remove percent s) = Raise ValueError.
Proof.
  unfold astype_float, str_remove. simpl.
  induction (values s) as [| c l IH]; simpl; intros H.
  - discriminate.
  - destruct c as [x | z | q |]; simpl in *.
    + destruct (tf (remove_char percent x)); simpl in *; [| reflexivity].
      specialize (IH H).
      destruct (mapM _ (map _ l)); simpl in *; [discriminate | congruence].
    + specialize (IH H).
      destruct (mapM _ (map _ l)); simpl in *; [discriminate | congruence].
    + specialize (IH H).
      destruct (mapM _ (map _ l)); simpl in *; [discriminate | congruence].
    + specialize (IH H).
      destruct (mapM _ (map _ l)); simpl in *; [discriminate | congruence].
Qed.

Lemma convert_columns_fails (tf : string -> option Q) :
  forall (names : list string) (d : DataFrame),
    rectangular d ->
    NoDup names ->
    (forall n, In n names -> In n (map fst (columns d))) ->
    (exists n s, In n names /\ getitem d n = Ok s /\
                 percent_gate s = true /\
                 forallb (parses tf) (values s) = false) ->
    convert_columns tf names d = Raise ValueError.
Proof.
  induction names as [| col rest IH]; intros d Hrect Hnd Hin (n & s & Hn & Hs & Hg & Hp).
  - contradiction.
  - inv Hnd. rename H1 into Hnotin. rename H2 into Hnd.
    destruct (locate_in_names col d (Hin col (or_introl eq_refl)))
      as [i [t0 Hloc]].
    assert (Hget : getitem d col
                   = Ok {| sdtype := t0; values := map (cell_at i) (rows d) |}).
    { unfold getitem. rewrite Hloc. reflexivity. }
    set (s0 := {| sdtype := t0; values := map (cell_at i) (rows d) |}) in *.
    simpl convert_columns. rewrite Hget. simpl bind.
    change (dtype_eqb t0 object) with (dtype_eqb (sdtype s0) object).
    rewrite percent_gate_any.
    destruct (percent_gate s0) eqn:G.
    + destruct (forallb (parses tf) (values s0)) eqn:P.
      * destruct (convert_series_ok tf s0 P) as [f [Hf Hdiv]].
        rewrite Hf. simpl bind. rewrite Hdiv.
        set (conv := {| sdtype := float64;
                        values := map (fraction tf) (values s0) |}).
        assert (Hlen : List.length (values conv) = List.length (rows d)).
        { unfold conv, s0. simpl. rewrite !length_map. reflexivity. }
        assert (Hne : n <> col).
        { intros ->. rewrite Hget in Hs. inv Hs. congruence. }
        apply IH.
        -- eapply setitem_rectangular; eassumption.
        -- exact Hnd.
        -- intros m Hm. rewrite (setitem_names d col conv i t0 Hloc).
           apply Hin. right. exact Hm.
        -- exists n, s. split; [destruct Hn; congruence |].
           rewrite (getitem_setitem_other d col conv i t0 Hloc Hlen n Hne).
           auto.
      * rewrite (astype_float_fails tf s0 P). reflexivity.
    + assert (Hne : n <> col).
      { intros ->. rewrite Hget in Hs. inv Hs. congruence. }
      apply IH; try assumption.
      * intros m Hm. apply Hin. right. exact Hm.
      * exists n, s. split; [destruct Hn; congruence | auto].
Qed.

(** A percent column with a value that does not read as a float makes the
    loader raise; the handler of [load_data] lets that error through. *)
Lemma load_data_value_error (tf : string -> option Q) (fs : FileSystem)
    (path : string) (d : DataFrame) :
  fs path = Csv d ->
  well_typed d = true ->
  percent_columns_parse tf d = false ->
  load_data tf fs path = Raise ValueError.
Proof.
  intros Hfs Hwt Hparse.
  unfold well_typed in Hwt. repeat rewrite andb_true_iff in Hwt.
  destruct Hwt as [[Ht Hn] _].
  unfold load_data, read_csv. rewrite Hfs. simpl.
  rewrite (convert_columns_fails tf (map fst (columns d)) d); [reflexivity | | | |].
  - apply typed_rectangular. exact Ht.
  - apply distinct_names_NoDup. exact Hn.
  - intros n Hin. exact Hin.
  - unfold percent_columns_parse in Hparse.
    apply forallb_false in Hparse. destruct Hparse as [n [Hin Hf]].
    destruct (getitem d n) as [s | e] eqn:Hs; [| discriminate].
    apply orb_false_iff in Hf. destruct Hf as [Hg Hp].
    apply negb_false_iff in Hg.
    exists n, s. auto.
Qed.

(** ** Loader: the percentage columns *)

(** C1, in the form the code satisfies.  The loader converts a text
    column as soon as one of its values contains a percent sign: each text
    value of that column loses its percent signs, is read as a float and
    divided by 100 (so "42.5%" becomes 0.425, and a value without a
    percent sign in the same column is converted too); a column in which
    no text value contains a percent sign is left as it is. *)
Theorem C1_percent_columns_converted (tf : string -> option Q)
    (fs : FileSystem) (path : string) (d : DataFrame) :
  fs path = Csv d ->
  well_typed d = true ->
  percent_columns_parse tf d = true ->
  exists d',
    load_data tf fs path = Ok (Some d') /\
    map fst (columns d') = map fst (columns d) /\
    map label (rows d') = map label (rows d) /\
    (forall name s,
        getitem d name = Ok s ->
        (is_percent_column s ->
         getitem d' name =
           Ok {| sdtype := float64; values := map (fraction tf) (values s) |}) /\
        (~ is_percent_column s -> getitem d' name = Ok s)) /\
    (forall q, tf "42.5"%string = Some q ->
               fraction tf (Str "42.5%") = Flt (q / 100)).
Proof.
  intros Hfs Hwt Hparse.
  unfold well_typed in Hwt. repeat rewrite andb_true_iff in Hwt.
  destruct Hwt as [[Ht Hn] _].
  destruct (convert_columns_spec tf (map fst (columns d)) d)
    as (d' & Hd' & _ & Hn' & Hl' & Hc').
  - apply typed_rectangular. exact Ht.
  - apply distinct_names_NoDup. exact Hn.
  - intros n Hin. exact Hin.
  - intros n s Hin Hs Hg. unfold percent_columns_parse in Hparse.
    rewrite forallb_forall in Hparse. specialize (Hparse n Hin).
    rewrite Hs, Hg in Hparse. exact Hparse.
  - exists d'. split.
    { unfold load_data, read_csv. rewrite Hfs. simpl. rewrite Hd'. reflexivity. }
    split; [exact Hn' |]. split; [exact Hl' |]. split.
    + intros name s Hs.
      assert (Hmem : mem_string name (map fst (columns d)) = true).
      { apply mem_string_In. destruct (getitem_locate d name s Hs) as [i Hi].
        eapply locate_some_names. exact Hi. }
      specialize (Hc' name s Hs). rewrite Hmem in Hc'. simpl in Hc'.
      split; intros Hp.
      * apply percent_gate_spec in Hp. rewrite Hp in Hc'. exact Hc'.
      * destruct (percent_gate s) eqn:G; [| exact Hc'].
        apply percent_gate_spec in G. contradiction.
    + intros q Hq. unfold fraction. simpl. rewrite Hq. reflexivity.
Qed.

Lemma C1_percent_columns_converted_witness :
  exists d',
    load_data decimal_float (fun _ => Csv mixed) "epl_player_stats_24_25.csv"
      = Ok (Some d') /\
    map fst (columns d') = map fst (columns mixed) /\
    map label (rows d') = map label (rows mixed) /\
    (forall name s,
        getitem mixed name = Ok s ->
        (is_percent_column s ->
         getitem d' name =
           Ok {| sdtype := float64;
                 values := map (fraction decimal_float) (values s) |}) /\
        (~ is_percent_column s -> getitem d' name = Ok s)) /\
    (forall q, decimal_float "42.5"%string = Some q ->
               fraction decimal_float (Str "42.5%") = Flt (q / 100)).
Proof.
  apply (C1_percent_columns_converted decimal_float (fun _ => Csv mixed)
           "epl_player_stats_24_25.csv" mixed); reflexivity.
Defined.

(** C1, as the specification words it, fails: in a column holding
    "42.5%" and "7" the second value has no percent sign, and the loader
    converts the column all the same, to 0.425 and 0.07. *)
Lemma C1_mixed_column_is_converted :
  load_data decimal_float (fun _ => Csv mixed) "epl_player_stats_24_25.csv"
  = Ok (Some
          {| columns := [("Passes%", float64); ("Club", object)]%string;
             rows := [mk_row 0 [Flt (425 # 1000); Str "ClubA"];
                      mk_row 1 [Flt (7 # 100); Str "ClubB"]] |}) /\
  ~ mixed_columns_stay_text decimal_float mixed.
Proof.
  split; [reflexivity |].
  intros H.
  specialize (H _ "Passes%"%string
                {| sdtype := object; values := [Str "42.5%"; Str "7"] |}
                "7"%string eq_refl eq_refl eq_refl).
  assert (Hin : In (Str "7") [Str "42.5%"; Str "7"])
    by (right; left; reflexivity).
  assert (Hno : ~ occurs_in "%" "7").
  { intros Ho. apply str_in_occurs in Ho. discriminate Ho. }
  specialize (H Hin Hno). discriminate H.
Qed.


(** ** Lists: prefixes and sortedness *)

Lemma In_firstn {A : Type} (k : nat) (x : A) (l : list A) :
  In x (firstn k l) -> In x l.
Proof.
  intros H. rewrite <- (firstn_skipn k l). apply in_or_app. left. exact H.
Qed.

Lemma NoDup_firstn {A : Type} (k : nat) (l : list A) :
  NoDup l -> NoDup (firstn k l).
Proof.
  intros H. rewrite <- (firstn_skipn k l) in H.
  apply NoDup_app_remove_r in H. exact H.
Qed.

Lemma StronglySorted_app {A : Type} (R : A -> A -> Prop) (l1 l2 : list A) :
  StronglySorted R l1 -> StronglySorted R l2 ->
  (forall a b, In a l1 -> In b l2 -> R a b) ->
  StronglySorted R (l1 ++ l2).
Proof.
  induction 1 as [| x l1 Hs IH Hx]; simpl; intros H2 H12.
  - exact H2.
  - constructor.
    + apply IH; [exact H2 |]. intros a b Ha Hb. apply H12; [right |]; assumption.
    + apply Forall_app. split; [exact Hx |].
      apply Forall_forall. intros b Hb. apply H12; [left; reflexivity | exact Hb].
Qed.

Lemma StronglySorted_rev {A : Type} (R : A -> A -> Prop) (l : list A) :
  StronglySorted R l -> StronglySorted (fun a b => R b a) (rev l).
Proof.
  induction 1 as [| x l Hs IH Hx]; simpl.
  - constructor.
  - apply StronglySorted_app; [exact IH | constructor; constructor |].
    intros a b Ha Hb. destruct Hb as [<- | []].
    rewrite Forall_forall in Hx. apply Hx. apply in_rev. exact Ha.
Qed.

Lemma StronglySorted_impl {A : Type} (R S : A -> A -> Prop) (l : list A) :
  (forall a b, R a b -> S a b) -> StronglySorted R l -> StronglySorted S l.
Proof.
  intros HRS. induction 1 as [| x l Hs IH Hx]; constructor.
  - exact IH.
  - eapply Forall_impl; [| exact Hx]. intros b. apply HRS.
Qed.

(** ** Sorting by a rational key *)

Section SortByKey.

Context {A : Type}.
Variable key : A -> Q.

Let le (a b : A) : Prop := (key a <= key b)%Q.

Lemma insert_by_perm (x : A) (l : list A) :
  Permutation (insert_by key x l) (x :: l).
Proof.
  induction l as [| y l IH]; simpl.
  - apply Permutation_refl.
  - destruct (Qle_bool (key x) (key y)).
    + apply Permutation_refl.
    + eapply perm_trans; [apply perm_skip; exact IH | apply perm_swap].
Qed.

Lemma stable_sort_perm (l : list A) : Permutation (stable_sort key l) l.
Proof.
  induction l as [| x l IH]; simpl.
  - apply perm_nil.
  - eapply perm_trans; [apply insert_by_perm | apply perm_skip; exact IH].
Qed.

Lemma insert_by_sorted (x : A) (l : list A) :
  StronglySorted le l -> StronglySorted le (insert_by key x l).
Proof.
  induction 1 as [| y l Hs IH Hy]; simpl.
  - constructor; constructor.
  - destruct (Qle_bool (key x) (key y)) eqn:E.
    + apply Qle_bool_iff in E.
      constructor; [constructor; assumption |].
      constructor; [exact E |].
      eapply Forall_impl; [| exact Hy].
      intros z Hz. unfold le in *. lra.
    + assert (Hyx : le y x).
      { unfold le. destruct (Qlt_le_dec (key y) (key x)) as [H | H];
          [lra |]. apply Qle_bool_iff in H. congruence. }
      constructor; [exact IH |].
      apply Forall_forall. intros z Hz.
      apply (Permutation_in _ (insert_by_perm x l)) in Hz.
      destruct Hz as [<- | Hz]; [exact Hyx |].
      rewrite Forall_forall in Hy. apply Hy. exact Hz.
Qed.

Lemma stable_sort_sorted (l : list A) : StronglySorted le (stable_sort key l).
Proof.
  induction l as [| x l IH]; simpl.
  - constructor.
  - apply insert_by_sorted. exact IH.
Qed.

(** *** Order of appearance *)

Lemma before_cons (x a b : A) (l : list A) :
  before a b l -> before a b (x :: l).
Proof.
  intros (l1 & l2 & l3 & ->). exists (x :: l1), l2, l3. reflexivity.
Qed.

Lemma before_head (a b : A) (l : list A) : In b l -> before a b (a :: l).
Proof.
  intros H. apply in_split in H. destruct H as [l2 [l3 ->]].
  exists [], l2, l3. reflexivity.
Qed.

Lemma before_inv (x a b : A) (l : list A) :
  before a b (x :: l) -> (x = a /\ In b l) \/ before a b l.
Proof.
  intros (l1 & l2 & l3 & E). destruct l1 as [| y l1]; simpl in E; inv E.
  - left. split; [reflexivity |]. apply in_or_app. right. left. reflexivity.
  - right. exists l1, l2, l3. reflexivity.
Qed.

Lemma before_In_r (a b : A) (l : list A) : before a b l -> In b l.
Proof.
  intros (l1 & l2 & l3 & ->). apply in_or_app. right. right.
  apply in_or_app. right. left. reflexivity.
Qed.

Lemma before_In_l (a b : A) (l : list A) : before a b l -> In a l.
Proof.
  intros (l1 & l2 & l3 & ->). apply in_or_app. right. left. reflexivity.
Qed.

Lemma before_filter (f : A -> bool) (a b : A) (l : list A) :
  before a b l -> f a = true -> f b = true -> before a b (filter f l).
Proof.
  intros (l1 & l2 & l3 & ->) Ha Hb.
  exists (filter f l1), (filter f l2), (filter f l3).
  rewrite filter_app. simpl. rewrite Ha, filter_app. simpl. rewrite Hb.
  reflexivity.
Qed.

Lemma before_firstn (k : nat) (a b : A) (l : list A) :
  NoDup l -> before a b l -> In b (firstn k l) -> In a (firstn k l).
Proof.
  intros Hnd (l1 & l2 & l3 & ->) Hb.
  destruct (Nat.le_gt_cases k (List.length l1)) as [Hk | Hk].
  - exfalso. rewrite firstn_app in Hb.
    replace (k - List.length l1)%nat with 0%nat in Hb by lia.
    simpl in Hb. rewrite app_nil_r in Hb.
    apply In_firstn in Hb.
    change (l1 ++ a :: l2 ++ b :: l3) with (l1 ++ (a :: l2) ++ b :: l3) in Hnd.
    rewrite app_assoc in Hnd.
    apply NoDup_remove_2 in Hnd. apply Hnd.
    apply in_or_app. left. apply in_or_app. left. exact Hb.
  - rewrite firstn_app. apply in_or_app. right.
    destruct (k - List.length l1)%nat as [| j] eqn:E; [lia |].
    simpl. left. reflexivity.
Qed.

Lemma insert_by_before (x a b : A) (l : list A) :
  before a b l -> before a b (insert_by key x l).
Proof.
  induction l as [| y l IH]; simpl; intros H.
  - destruct H as (l1 & l2 & l3 & E). destruct l1; discriminate.
  - destruct (Qle_bool (key x) (key y)).
    + apply before_cons. exact H.
    + apply before_inv in H. destruct H as [[-> Hb] | H].
      * apply before_head.
        apply (Permutation_in _ (Permutation_sym (insert_by_perm x l))).
        right. exact Hb.
      * apply before_cons. apply IH. exact H.
Qed.

Lemma insert_by_first (x b : A) (l : list A) :
  In b l -> le x b -> before x b (insert_by key x l).
Proof.
  induction l as [| y l IH]; simpl; intros Hb Hle.
  - contradiction.
  - destruct (Qle_bool (key x) (key y)) eqn:E.
    + apply before_head. exact Hb.
    + destruct Hb as [-> | Hb].
      * unfold le in Hle. apply Qle_bool_iff in Hle. congruence.
      * apply before_cons. apply IH; assumption.
Qed.

(** A stable sort keeps the input order of two entries whenever the key
    order allows it. *)
Lemma stable_sort_before (a b : A) (l : list A) :
  before a b l -> le a b -> before a b (stable_sort key l).
Proof.
  induction l as [| x l IH]; intros H Hle.
  - destruct H as (l1 & l2 & l3 & E). destruct l1; discriminate.
  - simpl. apply before_inv in H. destruct H as [[-> Hb] | H].
    + apply insert_by_first; [| exact Hle].
      apply (Permutation_in _ (Permutation_sym (stable_sort_perm l))).
      exact Hb.
    + apply insert_by_before. apply IH; assumption.
Qed.

(** *** Sorted lists *)

Lemma sorted_app_le (l1 l2 : list A) (a b : A) :
  StronglySorted le (l1 ++ l2) -> In a l1 -> In b l2 -> le a b.
Proof.
  induction l1 as [| x l1 IH]; simpl; intros Hs Ha Hb.
  - contradiction.
  - inv Hs. destruct Ha as [-> | Ha].
    + rewrite Forall_forall in H2. apply H2. apply in_or_app. right. exact Hb.
    + apply IH; assumption.
Qed.

Lemma sorted_firstn (k : nat) (l : list A) :
  StronglySorted le l -> StronglySorted le (firstn k l).
Proof.
  intros Hs. revert k. induction Hs as [| x l Hs IH Hx]; intros [| k]; simpl;
    try constructor.
  - apply IH.
  - apply Forall_forall. intros z Hz. apply In_firstn in Hz.
    rewrite Forall_forall in Hx. apply Hx. exact Hz.
Qed.

End SortByKey.

Lemma insertion_kind_contract : sort_contract insertion_kind.
Proof.
  intros A key l. unfold insertion_kind. split.
  - apply stable_sort_perm.
  - apply stable_sort_sorted.
Qed.

Lemma filter_all {A : Type} (f : A -> bool) (l : list A) :
  (forall x, In x l -> f x = true) -> filter f l = l.
Proof.
  induction l as [| x l IH]; simpl; intros H; [reflexivity |].
  rewrite (H x (or_introl eq_refl)). rewrite IH; [reflexivity |].
  intros y Hy. apply H. right. exact Hy.
Qed.

Lemma filter_none {A : Type} (f : A -> bool) (l : list A) :
  (forall x, In x l -> f x = false) -> filter f l = [].
Proof.
  induction l as [| x l IH]; simpl; intros H; [reflexivity |].
  rewrite (H x (or_introl eq_refl)). apply IH.
  intros y Hy. apply H. right. exact Hy.
Qed.

Section Nargsort.

Context {A : Type}.
Variables (kind : sorter) (key : A -> Q) (na : A -> bool) (l : list A).
Hypothesis Hkind : sort_contract kind.
Hypothesis Hna : forall x, In x l -> na x = false.

Lemma nargsort_no_nan (ascending : bool) :
  nargsort kind ascending key na l
  = if ascending then kind A key l else rev (kind A key (rev l)).
Proof.
  unfold nargsort.
  rewrite filter_all, filter_none; [apply app_nil_r | exact Hna |].
  intros x Hx. rewrite (Hna x Hx). reflexivity.
Qed.

Lemma nargsort_perm (ascending : bool) :
  Permutation (nargsort kind ascending key na l) l.
Proof.
  rewrite nargsort_no_nan. destruct ascending.
  - apply Hkind.
  - eapply perm_trans; [apply Permutation_sym, Permutation_rev |].
    eapply perm_trans; [apply Hkind |].
    apply Permutation_sym, Permutation_rev.
Qed.

Lemma nargsort_ascending :
  StronglySorted (fun a b => key a <= key b)%Q (nargsort kind true key na l).
Proof. rewrite nargsort_no_nan. apply Hkind. Qed.

Lemma nargsort_descending :
  StronglySorted (fun a b => key b <= key a)%Q (nargsort kind false key na l).
Proof.
  rewrite nargsort_no_nan.
  apply (StronglySorted_rev (fun a b => key a <= key b)%Q). apply Hkind.
Qed.

End Nargsort.

(** ** The k-th smallest value *)

Lemma filter_length_perm {A : Type} (f : A -> bool) (l l' : list A) :
  Permutation l l' ->
  List.length (filter f l) = List.length (filter f l').
Proof.
  induction 1 as [| x l l' H IH | x y l | l l' l'' H1 IH1 H2 IH2]; simpl.
  - reflexivity.
  - destruct (f x); simpl; congruence.
  - destruct (f x), (f y); reflexivity.
  - congruence.
Qed.

Lemma filter_length_map {A B : Type} (g : A -> B) (f : B -> bool) (l : list A) :
  List.length (filter (fun x => f (g x)) l)
  = List.length (filter f (map g l)).
Proof.
  induction l as [| x l IH]; simpl; [reflexivity |].
  destruct (f (g x)); simpl; congruence.
Qed.

(** At least k + 1 entries are no larger than the k-th smallest one. *)
Lemma kth_smallest_count (arr : list Q) (k : nat) :
  (k < List.length arr)%nat ->
  (S k <= List.length
            (filter (fun q => Qle_bool q (kth_smallest arr k)) arr))%nat.
Proof.
  intros Hk. unfold kth_smallest.
  pose proof (stable_sort_perm (fun q : Q => q) arr) as Hp.
  pose proof (stable_sort_sorted (fun q : Q => q) arr) as Hs.
  set (S0 := stable_sort (fun q : Q => q) arr) in *.
  set (x := nth k S0 0%Q).
  assert (Hk' : (k < List.length S0)%nat)
    by (rewrite (Permutation_length Hp); exact Hk).
  pose proof (firstn_skipn_middle k S0 (nth_error_nth' S0 0%Q Hk')) as Hsplit.
  fold x in Hsplit.
  rewrite <- (filter_length_perm (fun q => Qle_bool q x) S0 arr Hp).
  rewrite <- Hsplit in Hs |- *.
  rewrite filter_app, length_app.
  rewrite filter_all.
  - rewrite length_firstn. simpl.
    assert (Hx : Qle_bool x x = true) by (apply Qle_bool_iff; apply Qle_refl).
    rewrite Hx. simpl. lia.
  - intros a Ha. apply Qle_bool_iff.
    apply (sorted_app_le (fun q : Q => q) _ _ a x Hs Ha). left. reflexivity.
Qed.

(** ** The n largest rows *)

Section Nlargest.

Variables (kind : sorter) (n : nat) (metric : string) (v : DataFrame).
Variables (i : nat) (t : dtype).
Hypothesis Hkind : sort_contract kind.
Hypothesis Hloc : locate metric v = Some (i, t).
Hypothesis Hnum : is_number t = true.
Hypothesis Hfull : forall r, In r (rows v) -> isna (cell_at i r) = false.
Hypothesis Hnd : NoDup (rows v).

Lemma nlargest_rows :
  exists top,
    nlargest kind (Z.of_nat n) metric v = Ok (with_rows v top) /\
    List.length top = Nat.min n (List.length (rows v)) /\
    NoDup top /\
    (forall r, In r top -> In r (rows v)) /\
    (forall r r', In r top -> In r' (rows v) -> ~ In r' top ->
                  (metric_of i r' <= metric_of i r)%Q) /\
    (forall r r', before r r' (rows v) ->
                  (metric_of i r == metric_of i r')%Q ->
                  In r' top -> In r top) /\
    ((List.length (rows v) <= n)%nat -> Permutation top (rows v)).
Proof.
  unfold nlargest. rewrite Hloc, Hnum. simpl negb. cbv iota.
  destruct (Z.leb_spec (Z.of_nat n) 0) as [Hz | Hz].
  { exists []. assert (n = 0)%nat by lia. subst n.
    split; [reflexivity |]. split; [reflexivity |]. split; [constructor |].
    split; [intros r [] |]. split; [intros r r' [] |].
    split; [intros r r' _ _ [] |].
    intros Hlen. destruct (rows v); [constructor | simpl in Hlen; lia]. }
  cbv zeta. rewrite Nat2Z.id.
  set (key := fun r => cell_key (cell_at i r)).
  set (na := fun r => isna (cell_at i r)).
  destruct (Z.leb_spec (Z.of_nat (List.length (rows v))) (Z.of_nat n))
    as [Hlen | Hlen].
  - (* the whole column is sorted *)
    pose proof (nargsort_perm kind key na (rows v) Hkind Hfull false) as Hp.
    set (P := nargsort kind false key na (rows v)) in *.
    assert (Hall : firstn n P = P).
    { apply firstn_all2. rewrite (Permutation_length Hp). lia. }
    exists P. rewrite Hall. split; [reflexivity |].
    split; [rewrite (Permutation_length Hp); lia |].
    split; [eapply Permutation_NoDup; [apply Permutation_sym; exact Hp | exact Hnd] |].
    split; [intros r Hr; eapply Permutation_in; eassumption |].
    split.
    { intros r r' _ Hr' Hnot. exfalso. apply Hnot.
      eapply Permutation_in; [apply Permutation_sym; exact Hp | exact Hr']. }
    split.
    { intros r r' Hb _ _.
      eapply Permutation_in; [apply Permutation_sym; exact Hp |].
      eapply before_In_l. exact Hb. }
    intros _. exact Hp.
  - (* selection around the n-th largest value *)
    subst na. cbv beta.
    assert (Hdrop : filter (fun r => negb (isna (cell_at i r))) (rows v)
                    = rows v).
    { apply filter_all. intros r Hr. rewrite (Hfull r Hr). reflexivity. }
    assert (Hnan : filter (fun r => isna (cell_at i r)) (rows v) = []).
    { apply filter_none. exact Hfull. }
    rewrite Hdrop, Hnan, app_nil_r.
    assert (Hm : Nat.min n (List.length (rows v)) = n) by lia.
    rewrite Hm, firstn_firstn, Nat.min_id.
    set (arr := fun r => (- cell_key (cell_at i r))%Q).
    set (kth := kth_smallest (map arr (rows v)) (n - 1)).
    set (ns := filter (fun r => Qle_bool (arr r) kth) (rows v)).
    set (sorted := stable_sort arr ns).
    pose proof (stable_sort_perm arr ns : Permutation sorted ns) as Hp.
    pose proof (stable_sort_sorted arr ns) as Hs. fold sorted in Hs.
    assert (Hnd_ns : NoDup ns) by (apply NoDup_filter; exact Hnd).
    assert (Hnd_s : NoDup sorted).
    { eapply Permutation_NoDup; [apply Permutation_sym; exact Hp | exact Hnd_ns]. }
    assert (Hin_s : forall r, In r sorted <->
                              In r (rows v) /\ Qle_bool (arr r) kth = true).
    { intros r. split; intros H.
      - apply (Permutation_in _ Hp) in H. unfold ns in H.
        apply filter_In in H. exact H.
      - apply (Permutation_in _ (Permutation_sym Hp)). unfold ns.
        apply filter_In. exact H. }
    assert (Hcount : (n <= List.length sorted)%nat).
    { rewrite (Permutation_length Hp). unfold ns.
      rewrite (filter_length_map arr (fun q => Qle_bool q kth) (rows v)).
      replace n with (S (n - 1)) at 1 by lia.
      apply kth_smallest_count. rewrite length_map. lia. }
    exists (firstn n sorted). split; [reflexivity |].
    split; [rewrite length_firstn; lia |].
    split; [apply NoDup_firstn; exact Hnd_s |].
    split; [intros r Hr; apply In_firstn in Hr; apply Hin_s in Hr; tauto |].
    split.
    { intros r r' Hr Hr' Hnot. unfold metric_of.
      pose proof (In_firstn _ _ _ Hr) as Hrs.
      apply Hin_s in Hrs. destruct Hrs as [_ Hrk].
      apply Qle_bool_iff in Hrk.
      destruct (Qle_bool (arr r') kth) eqn:E.
      - assert (Hr's : In r' sorted) by (apply Hin_s; split; assumption).
        rewrite <- (firstn_skipn n sorted) in Hr's, Hs.
        apply in_app_or in Hr's. destruct Hr's as [H | H]; [contradiction |].
        pose proof (sorted_app_le arr _ _ r r' Hs Hr H) as Hle.
        unfold arr in Hle. lra.
      - assert (Hgt : (kth < arr r')%Q).
        { apply Qnot_le_lt. intros H. apply Qle_bool_iff in H. congruence. }
        unfold arr in *. lra. }
    split.
    { intros r r' Hb Heq Hr'. unfold metric_of in Heq.
      pose proof (In_firstn _ _ _ Hr') as Hr's.
      apply Hin_s in Hr's. destruct Hr's as [_ Hr'k].
      assert (Hrk : Qle_bool (arr r) kth = true).
      { apply Qle_bool_iff. apply Qle_bool_iff in Hr'k. unfold arr in *. lra. }
      assert (Hbs : before r r' sorted).
      { apply stable_sort_before.
        - apply before_filter; assumption.
        - unfold arr. lra. }
      eapply before_firstn; eassumption. }
    intros Hle. lia.
Qed.

End Nlargest.

Lemma nlargest_total (kind : sorter) (n : Z) (metric : string) (v : DataFrame)
    (i : nat) (t : dtype) :
  locate metric v = Some (i, t) -> is_number t = true ->
  exists top, nlargest kind n metric v = Ok (with_rows v top).
Proof.
  intros Hloc Hnum. unfold nlargest. rewrite Hloc, Hnum. simpl negb. cbv iota.
  destruct (n <=? 0)%Z; [eauto |].
  cbv zeta.
  destruct (Z.of_nat (List.length (rows v)) <=? n)%Z; eauto.
Qed.

Lemma topN_total (kind : sorter) (n : Z) (metric : string) (v : DataFrame)
    (i : nat) (t : dtype) :
  locate metric v = Some (i, t) -> is_number t = true ->
  exists top, topN kind n metric v = Ok top.
Proof.
  intros Hloc Hnum. unfold topN.
  destruct (nlargest_total kind n metric v i t Hloc Hnum) as [top ->].
  simpl. unfold sort_values.
  change (locate metric (with_rows v top)) with (locate metric v).
  rewrite Hloc, Hnum. eauto.
Qed.

(** The second tab charts [topN] with n = 10. *)
Lemma tab2_charts_topN (kind : sorter) (fd : DataFrame) (m : string) :
  empty fd = false -> String.eqb m "" = false ->
  tab2 kind fd (Some m) = (t <- topN kind 10 m fd ;; Ok (Some t)).
Proof.
  intros E Hm. unfold tab2, topN, top_10_players. rewrite E, Hm.
  destruct (nlargest kind 10 m fd) as [top | e]; reflexivity.
Qed.

(** ** Ranking: the claim *)

(** C5. On a frame whose metric column is numeric and has no missing
    value, [topN] returns n rows of the frame, or all of them when there
    are fewer, hence at most n; each returned row has a metric at least as
    large as that of every row left out; of two rows with the same metric
    the later one is never returned without the earlier one; the rows
    returned are in ascending metric order; and a frame of at most n rows
    is returned whole. *)
Theorem C5_topN_selects_largest (kind : sorter) (n : nat) (metric : string)
    (v : DataFrame) (i : nat) (t : dtype) :
  sort_contract kind ->
  locate metric v = Some (i, t) ->
  is_number t = true ->
  no_missing i v = true ->
  distinct_labels (map label (rows v)) = true ->
  exists top,
    topN kind (Z.of_nat n) metric v = Ok top /\
    columns top = columns v /\
    List.length (rows top) = Nat.min n (List.length (rows v)) /\
    NoDup (rows top) /\
    (forall r, In r (rows top) -> In r (rows v)) /\
    (forall r r', In r (rows top) -> In r' (rows v) -> ~ In r' (rows top) ->
                  (metric_of i r' <= metric_of i r)%Q) /\
    (forall r r', before r r' (rows v) ->
                  (metric_of i r == metric_of i r')%Q ->
                  In r' (rows top) -> In r (rows top)) /\
    StronglySorted (fun a b => metric_of i a <= metric_of i b)%Q (rows top) /\
    ((List.length (rows v) <= n)%nat -> Permutation (rows top) (rows v)).
Proof.
  intros Hkind Hloc Hnum Hfull Hlab.
  assert (Hna : forall r, In r (rows v) -> isna (cell_at i r) = false).
  { unfold no_missing in Hfull. rewrite forallb_forall in Hfull.
    intros r Hr. apply negb_true_iff. apply Hfull. exact Hr. }
  assert (Hnd : NoDup (rows v)).
  { apply (NoDup_map_inv label). apply distinct_labels_NoDup. exact Hlab. }
  destruct (nlargest_rows kind n metric v i t Hkind Hloc Hnum Hna Hnd)
    as (top & Htop & Hlen & Hndt & Hin & Hge & Htie & Hall).
  assert (Hna' : forall r, In r top -> isna (cell_at i r) = false)
    by (intros r Hr; apply Hna, Hin, Hr).
  pose proof (nargsort_perm kind (fun r => cell_key (cell_at i r))
                (fun r => isna (cell_at i r)) top Hkind Hna' true) as Hp.
  pose proof (nargsort_ascending kind (fun r => cell_key (cell_at i r))
                (fun r => isna (cell_at i r)) top Hkind Hna') as Hs.
  set (final := nargsort kind true (fun r => cell_key (cell_at i r))
                  (fun r => isna (cell_at i r)) top) in *.
  exists (with_rows v final). split.
  { unfold topN. rewrite Htop. simpl. unfold sort_values.
    change (locate metric (with_rows v top)) with (locate metric v).
    rewrite Hloc, Hnum. reflexivity. }
  simpl. split; [reflexivity |].
  split; [rewrite (Permutation_length Hp); exact Hlen |].
  split; [eapply Permutation_NoDup; [apply Permutation_sym; exact Hp | exact Hndt] |].
  split; [intros r Hr; apply Hin; eapply Permutation_in; eassumption |].
  split.
  { intros r r' Hr Hr' Hnot. apply Hge.
    - eapply Permutation_in; eassumption.
    - exact Hr'.
    - intros H. apply Hnot.
      eapply Permutation_in; [apply Permutation_sym; exact Hp | exact H]. }
  split.
  { intros r r' Hb Heq Hr'.
    eapply Permutation_in; [apply Permutation_sym; exact Hp |].
    eapply Htie; [exact Hb | exact Heq |].
    eapply Permutation_in; eassumption. }
  split; [exact Hs |].
  intros Hle. eapply perm_trans; [exact Hp | apply Hall; exact Hle].
Qed.

Lemma C5_topN_selects_largest_witness :
  exists top,
    topN insertion_kind (Z.of_nat 2) "Goals" sample = Ok top /\
    columns top = columns sample /\
    List.length (rows top) = Nat.min 2 (List.length (rows sample)) /\
    NoDup (rows top) /\
    (forall r, In r (rows top) -> In r (rows sample)) /\
    (forall r r', In r (rows top) -> In r' (rows sample) ->
                  ~ In r' (rows top) -> (metric_of 4 r' <= metric_of 4 r)%Q) /\
    (forall r r', before r r' (rows sample) ->
                  (metric_of 4 r == metric_of 4 r')%Q ->
                  In r' (rows top) -> In r (rows top)) /\
    StronglySorted (fun a b => metric_of 4 a <= metric_of 4 b)%Q (rows top) /\
    ((List.length (rows sample) <= 2)%nat -> Permutation (rows top) (rows sample)).
Proof.
  apply (C5_topN_selects_largest insertion_kind 2 "Goals" sample 4 int64).
  - exact insertion_kind_contract.
  - reflexivity.
  - reflexivity.
  - reflexivity.
  - reflexivity.
Defined.

(** ** Sums per group *)

Lemma insert_string_perm (x : string) (l : list string) :
  Permutation (insert_string x l) (x :: l).
Proof.
  induction l as [| y l IH]; simpl.
  - apply Permutation_refl.
  - destruct (String.leb x y).
    + apply Permutation_refl.
    + eapply perm_trans; [apply perm_skip; exact IH | apply perm_swap].
Qed.

Lemma sort_strings_perm (l : list string) : Permutation (sort_strings l) l.
Proof.
  unfold sort_strings. induction l as [| x l IH]; simpl.
  - apply perm_nil.
  - eapply perm_trans; [apply insert_string_perm | apply perm_skip; exact IH].
Qed.

Lemma somes_In {A : Type} (x : A) (l : list (option A)) :
  In x (somes l) <-> In (Some x) l.
Proof.
  induction l as [| [a |] l IH]; simpl.
  - tauto.
  - rewrite IH. split; intros [H | H]; auto; left; congruence.
  - rewrite IH. split; [auto | intros [H | H]; [discriminate | exact H]].
Qed.

Lemma Zsum_abs_filter (j : nat) (f : Row -> bool) (rs : list Row) :
  (Z.abs (Zsum (int_column j (filter f rs)))
   <= Zsum (map Z.abs (int_column j rs)))%Z.
Proof.
  induction rs as [| r rs IH]; simpl.
  - lia.
  - destruct (f r); simpl; lia.
Qed.

Lemma object_cell (c : cell) :
  conforms object c = true -> (exists s, c = Str s) \/ c = NaN.
Proof. destruct c; simpl; try discriminate; eauto. Qed.

Section GroupSum.

Variables (kind : sorter) (v : DataFrame) (by_ val : string) (i j : nat).
Hypothesis Hkind : sort_contract kind.
Hypothesis Htyped : typed v = true.
Hypothesis Hby : locate by_ v = Some (i, object).
Hypothesis Hval : locate val v = Some (j, int64).

Lemma groupby_sum_value :
  groupby_sum v by_ val
  = Ok (map (fun k => (k, Int (wrap64 (group_total i j k (rows v)))))
          (sort_strings
             (nodup string_dec (somes (map (group_of i) (rows v)))))).
Proof.
  unfold groupby_sum. rewrite Hby, Hval.
  rewrite (mapM_map (fun r => group_key (cell_at i r)) (group_of i)).
  - simpl. apply mapM_map. intros k _. unfold series_sum. simpl.
    rewrite (int_column_mapM v val j _ Htyped Hval).
    + reflexivity.
    + intros r Hr. apply filter_In in Hr. tauto.
  - intros r Hr. unfold group_of.
    destruct (object_cell (cell_at i r)) as [[s ->] | ->];
      [eapply typed_cell; eassumption | reflexivity | reflexivity].
Qed.

Lemma group_keys_spec (k : string) :
  In k (sort_strings (nodup string_dec (somes (map (group_of i) (rows v)))))
  <-> exists r, In r (rows v) /\ cell_at i r = Str k.
Proof.
  split.
  - intros H. apply (Permutation_in _ (sort_strings_perm _)) in H.
    apply nodup_In, somes_In, in_map_iff in H.
    destruct H as [r [Hr Hin]]. exists r. split; [exact Hin |].
    unfold group_of in Hr. destruct (cell_at i r); congruence.
  - intros [r [Hin Hr]].
    apply (Permutation_in _ (Permutation_sym (sort_strings_perm _))).
    apply nodup_In, somes_In, in_map_iff. exists r. split; [| exact Hin].
    unfold group_of. rewrite Hr. reflexivity.
Qed.

End GroupSum.

(** ** Goals per club: the claim *)

(** C6, in the form the code satisfies.  For a text key column and an
    integer column whose absolute values add up to less than 2^63,
    [groupSum] returns one pair per distinct key of the frame, each with
    the sum of the integer column over the rows of that key, in descending
    order of the sums.  Nothing is promised on the order of pairs with
    equal sums. *)
Theorem C6_groupSum_sorted_sums (kind : sorter) (v : DataFrame)
    (by_ val : string) (i j : nat) :
  sort_contract kind ->
  typed v = true ->
  locate by_ v = Some (i, object) ->
  locate val v = Some (j, int64) ->
  (Zsum (map Z.abs (int_column j (rows v))) < two63)%Z ->
  exists pairs,
    groupSum kind v by_ val = Ok pairs /\
    NoDup (map fst pairs) /\
    (forall k, In k (map fst pairs) <->
               exists r, In r (rows v) /\ cell_at i r = Str k) /\
    (forall k s, In (k, s) pairs -> s = Int (group_total i j k (rows v))) /\
    StronglySorted (fun p q => cell_key (snd q) <= cell_key (snd p))%Q pairs.
Proof.
  intros Hkind Htyped Hby Hval Hfit. unfold groupSum.
  rewrite (groupby_sum_value v by_ val i j Htyped Hby Hval). simpl bind.
  set (keys := sort_strings
                 (nodup string_dec (somes (map (group_of i) (rows v))))).
  assert (Hg : map (fun k => (k, Int (wrap64 (group_total i j k (rows v))))) keys
               = map (fun k => (k, Int (group_total i j k (rows v)))) keys).
  { apply map_ext. intros k. rewrite wrap64_fits; [reflexivity |].
    unfold fits_int64, group_total.
    pose proof (Zsum_abs_filter j (in_group i k) (rows v)). lia. }
  rewrite Hg.
  set (g := map (fun k => (k, Int (group_total i j k (rows v)))) keys).
  assert (Hna : forall p, In p g -> isna (snd p) = false).
  { intros p Hp. apply in_map_iff in Hp. destruct Hp as [k [<- _]]. reflexivity. }
  pose proof (nargsort_perm kind (fun p : string * cell => cell_key (snd p))
                (fun p => isna (snd p)) g Hkind Hna false) as Hp.
  pose proof (nargsort_descending kind
                (fun p : string * cell => cell_key (snd p))
                (fun p => isna (snd p)) g Hkind Hna) as Hs.
  eexists. split; [reflexivity |].
  assert (Hfst : Permutation
                   (map fst (nargsort kind false
                               (fun p : string * cell => cell_key (snd p))
                               (fun p => isna (snd p)) g)) keys).
  { eapply perm_trans; [apply Permutation_map; exact Hp |].
    unfold g. rewrite map_map. simpl. rewrite map_id. apply Permutation_refl. }
  split.
  { eapply Permutation_NoDup; [apply Permutation_sym; exact Hfst |].
    eapply Permutation_NoDup;
      [apply Permutation_sym; apply sort_strings_perm | apply NoDup_nodup]. }
  split.
  { intros k. rewrite <- (group_keys_spec v i). fold keys. split; intros H.
    - eapply Permutation_in; eassumption.
    - eapply Permutation_in; [apply Permutation_sym; exact Hfst | exact H]. }
  split; [| exact Hs].
  intros k s H. apply (Permutation_in _ Hp) in H.
  apply in_map_iff in H. destruct H as [k0 [E _]]. inv E. reflexivity.
Qed.

Lemma C6_groupSum_sorted_sums_witness :
  exists pairs,
    groupSum insertion_kind sample "Club" "Goals" = Ok pairs /\
    NoDup (map fst pairs) /\
    (forall k, In k (map fst pairs) <->
               exists r, In r (rows sample) /\ cell_at 1 r = Str k) /\
    (forall k s, In (k, s) pairs -> s = Int (group_total 1 4 k (rows sample))) /\
    StronglySorted (fun p q => cell_key (snd q) <= cell_key (snd p))%Q pairs.
Proof.
  apply (C6_groupSum_sorted_sums insertion_kind sample "Club" "Goals" 1 4).
  - exact insertion_kind_contract.
  - reflexivity.
  - reflexivity.
  - reflexivity.
  - unfold two63. simpl. lia.
Defined.

(** C6, as the specification words it, fails: ClubB is met before ClubA
    and both have one goal, yet ClubA comes first in the result, because
    the groups enter the sort in ascending key order. *)
Lemma C6_ties_not_by_first_encounter :
  goals_by_club insertion_kind tied
  = Ok [("ClubA", Int 1); ("ClubB", Int 1)]%string /\
  ~ ties_by_first_encounter 0 (rows tied)
      [("ClubA", Int 1); ("ClubB", Int 1)]%string.
Proof.
  split; [reflexivity |].
  intros H.
  specialize (H "ClubB" "ClubA" (Int 1) (Int 1))%string.
  assert (Hb : before ("ClubB"%string, Int 1) ("ClubA"%string, Int 1)
                 [("ClubA"%string, Int 1); ("ClubB"%string, Int 1)]).
  { apply H.
    - split; [discriminate |].
      exists [], (mk_row 0 [Str "ClubB"; Int 1]), [mk_row 1 [Str "ClubA"; Int 1]].
      split; [reflexivity |]. split; [reflexivity |]. intros r' [].
    - right. left. reflexivity.
    - left. reflexivity.
    - reflexivity. }
  destruct Hb as (l1 & l2 & l3 & E).
  destruct l1 as [| p1 l1]; simpl in E; [discriminate E |].
  apply (f_equal (@List.length _)) in E. simpl in E.
  rewrite !length_app in E. simpl in E. rewrite length_app in E. simpl in E.
  lia.
Qed.

(** ** The sort cannot see the order of first encounter *)

(** Whatever the sort does with equal keys, it is handed the groups in
    key order: a frame and its mirror image give the same result, so the
    order of first encounter decides nothing. *)
Lemma goals_by_club_mirror (kind : sorter) :
  goals_by_club kind tied = goals_by_club kind tied_mirror.
Proof. reflexivity. Qed.

Lemma tie_order_is_not_first_encounter (kind : sorter) :
  sort_contract kind ->
  ~ ((forall pairs, goals_by_club kind tied = Ok pairs ->
                    ties_by_first_encounter 0 (rows tied) pairs) /\
     (forall pairs, goals_by_club kind tied_mirror = Ok pairs ->
                    ties_by_first_encounter 0 (rows tied_mirror) pairs)).
Proof.
  intros Hkind [H1 H2].
  set (a := ("ClubA"%string, Int 1)). set (b := ("ClubB"%string, Int 1)).
  set (na := fun p : string * cell => isna (snd p)).
  set (key := fun p : string * cell => cell_key (snd p)).
  assert (Hna : forall p, In p [a; b] -> na p = false).
  { intros p [<- | [<- | []]]; reflexivity. }
  pose proof (nargsort_perm kind key na [a; b] Hkind Hna false) as Hp.
  set (P := nargsort kind false key na [a; b]) in *.
  assert (E1 : goals_by_club kind tied = Ok P) by reflexivity.
  assert (E2 : goals_by_club kind tied_mirror = Ok P) by reflexivity.
  assert (Ha : In a P)
    by (apply (Permutation_in _ (Permutation_sym Hp)); left; reflexivity).
  assert (Hb : In b P)
    by (apply (Permutation_in _ (Permutation_sym Hp)); right; left; reflexivity).
  assert (Hba : before b a P).
  { apply (H1 P E1 "ClubB" "ClubA" (Int 1) (Int 1))%string;
      [| exact Hb | exact Ha | reflexivity].
    split; [discriminate |].
    exists [], (mk_row 0 [Str "ClubB"; Int 1]), [mk_row 1 [Str "ClubA"; Int 1]].
    split; [reflexivity |]. split; [reflexivity |]. intros r' []. }
  assert (Hab : before a b P).
  { apply (H2 P E2 "ClubA" "ClubB" (Int 1) (Int 1))%string;
      [| exact Ha | exact Hb | reflexivity].
    split; [discriminate |].
    exists [], (mk_row 0 [Str "ClubA"; Int 1]), [mk_row 1 [Str "ClubB"; Int 1]].
    split; [reflexivity |]. split; [reflexivity |]. intros r' []. }
  pose proof (Permutation_length Hp) as Hlen. simpl in Hlen.
  destruct Hab as (l1 & l2 & l3 & Eab). destruct Hba as (m1 & m2 & m3 & Eba).
  rewrite Eab in Hlen. rewrite !length_app in Hlen. simpl in Hlen.
  rewrite length_app in Hlen. simpl in Hlen.
  assert (l1 = [] /\ l2 = [] /\ l3 = []) as (-> & -> & ->).
  { destruct l1, l2, l3; simpl in Hlen; try lia. auto. }
  simpl in Eab. rewrite Eab in Eba.
  destruct m1 as [| x m1]; simpl in Eba; [discriminate Eba |].
  apply (f_equal (@List.length _)) in Eba. simpl in Eba.
  rewrite !length_app in Eba. simpl in Eba. rewrite length_app in Eba.
  simpl in Eba. lia.
Qed.

(** ** A run of the script on a well-formed table *)

Lemma locate_from_In (name : string) (t : dtype) (cols : list (string * dtype)) :
  NoDup (map fst cols) -> In (name, t) cols ->
  forall k, exists i, locate_from k name cols = Some (i, t).
Proof.
  induction cols as [| [c u] cols IH]; simpl; intros Hnd Hin k.
  - contradiction.
  - inv Hnd. destruct Hin as [E | Hin].
    + inv E. rewrite String.eqb_refl. eauto.
    + destruct (String.eqb c name) eqn:E.
      * apply String.eqb_eq in E. subst c. exfalso. apply H1.
        change name with (fst (name, t)). apply in_map. exact Hin.
      * apply IH; assumption.
Qed.

Lemma metrics_to_rank_numeric (d : DataFrame) (m : string) :
  distinct_names (map fst (columns d)) = true ->
  In m (metrics_to_rank d) ->
  exists i t, locate m d = Some (i, t) /\ is_number t = true.
Proof.
  intros Hn Hm. unfold metrics_to_rank in Hm.
  apply filter_In in Hm. destruct Hm as [Hm _].
  apply numeric_cols_In in Hm. destruct Hm as [t [Hin Hnum]].
  destruct (locate_from_In m t (columns d) (distinct_names_NoDup _ Hn) Hin 0)
    as [i Hi].
  exists i, t. split; assumption.
Qed.

Lemma tab1_total (kind : sorter) (v : DataFrame) :
  (empty v = false -> well_formed v = true) -> exists g, tab1 kind v = Ok g.
Proof.
  intros H. unfold tab1. destruct (empty v) eqn:E; [eauto |].
  specialize (H eq_refl). apply well_formed_unpack in H.
  destruct H as (Ht & _ & _ & [ic Hc] & _ & _ & [ig Hg] & _).
  unfold goals_by_club, groupSum.
  rewrite (groupby_sum_value v "Club" "Goals" ic ig Ht Hc Hg). simpl. eauto.
Qed.

Lemma tab2_total (kind : sorter) (d v : DataFrame) (sel : option string) :
  well_formed d = true ->
  (empty v = false -> columns v = columns d) ->
  (forall m, sel = Some m -> In m (metrics_to_rank d)) ->
  exists t, tab2 kind v sel = Ok t.
Proof.
  intros Hwf Hc Hsel. unfold tab2. destruct (empty v) eqn:E; [eauto |].
  destruct sel as [m |]; [| eauto].
  destruct (String.eqb m ""); [eauto |].
  apply well_formed_unpack in Hwf. destruct Hwf as (_ & Hn & _).
  destruct (metrics_to_rank_numeric d m Hn (Hsel m eq_refl))
    as [i [t [Hloc Hnum]]].
  assert (Hloc' : locate m v = Some (i, t)).
  { unfold locate in *. rewrite (Hc eq_refl). exact Hloc. }
  unfold top_10_players.
  destruct (nlargest_total kind 10 m v i t Hloc' Hnum) as [top ->].
  simpl. unfold sort_values.
  change (locate m (with_rows v top)) with (locate m v).
  rewrite Hloc', Hnum. simpl. eauto.
Qed.

Lemma render_total (kind : sorter) (d : DataFrame) (c : FilterCriteria)
    (sel : option string) :
  well_formed d = true ->
  (forall m, sel = Some m -> In m (metrics_to_rank d)) ->
  exists v, render kind d c sel = Ok v.
Proof.
  intros Hwf Hsel. unfold render.
  destruct (filter_section_total c d Hwf) as [s Hs]. rewrite Hs. simpl.
  destruct (filter_section_inv c d s Hs) as [_ Hd].
  assert (Hv : empty (filtered_df s) = false ->
               columns (filtered_df s) = columns d /\
               well_formed (filtered_df s) = true).
  { intros E. apply derived_well_formed; [exact Hwf | exact Hd |].
    apply empty_false_rows. exact E. }
  destruct (kpi_block_total (filtered_df s)) as [k ->];
    [intros E; apply Hv; exact E |].
  simpl.
  destruct (tab1_total kind (filtered_df s)) as [g ->];
    [intros E; apply Hv; exact E |].
  simpl.
  destruct (tab2_total kind d (filtered_df s) sel Hwf) as [t ->];
    [intros E; apply Hv; exact E | exact Hsel |].
  simpl. eauto.
Qed.

(** ** Failure of the loader: the claim *)

(** C9, in the form the code satisfies.  [load_data] hands back None,
    after reporting, exactly when no file exists at the path; the script
    then stops instead of crashing.  Once a well-formed table is loaded
    neither the filter nor the aggregations raise. *)
Theorem C9_not_found_and_total_downstream (tf : string -> option Q)
    (kind : sorter) (fs : FileSystem) (path : string) :
  (load_data tf fs path = Ok None <-> fs path = NoSuchFile) /\
  (fs path = NoSuchFile -> startup tf fs path = Stopped) /\
  (forall d c sel,
      startup tf fs path = Loaded d ->
      well_formed d = true ->
      (forall m, sel = Some m -> In m (metrics_to_rank d)) ->
      exists v, render kind d c sel = Ok v).
Proof.
  split; [apply load_data_not_found |]. split.
  - intros Hfs. unfold startup.
    rewrite (proj2 (load_data_not_found tf fs path) Hfs). reflexivity.
  - intros d c sel _ Hwf Hsel.
    apply render_total; assumption.
Qed.

Lemma C9_not_found_and_total_downstream_witness :
  exists v,
    render insertion_kind sample sample_criteria (Some "Goals"%string) = Ok v.
Proof.
  destruct (C9_not_found_and_total_downstream decimal_float insertion_kind
              sample_disk data_file) as [_ [_ H]].
  apply (H sample sample_criteria (Some "Goals"%string)).
  - reflexivity.
  - reflexivity.
  - intros m E. inv E. simpl. right. left. reflexivity.
Defined.

(** C9, as the specification words it, fails: a data file that exists and
    may not be read does not lead to the not-found result; the error
    raised by the read is caught by nobody and the run crashes. *)
Lemma C9_unreadable_file_crashes :
  ~ readable (locked_disk data_file) /\
  load_data decimal_float locked_disk data_file = Raise PermissionError /\
  startup decimal_float locked_disk data_file = Crashed PermissionError /\
  ~ not_found_iff_unreadable decimal_float locked_disk data_file.
Proof.
  split; [intros H; exact H |].
  split; [reflexivity |]. split; [reflexivity |].
  intros [_ H]. assert (E : load_data decimal_float locked_disk data_file = Ok None).
  { apply H. intros Hr. exact Hr. }
  discriminate E.
Qed.

(** ** The end-to-end scenario *)

(** Of the three rows only the first is a forward of ClubA; the KPI block
    then shows one player, ten goals, and that player's assists and
    minutes (4 and 900, written with the denominators the rounding
    leaves). *)
Example scenario_filter :
  exists s,
    filter_section scenario_criteria sample = Ok s /\
    rows (filtered_df s) =
      [mk_row 0 [Str "P1"; Str "ClubA"; Str "FW"; Int 900; Int 10; Int 4;
                 Int 0; Flt (17 # 20)]] /\
    kpi_block (filtered_df s) =
      Ok {| total_players := 1; total_goals := 10;
            avg_assists := Flt (400 # 100); avg_minutes := Flt (900 # 1) |}.
Proof. eexists. split; [reflexivity |]. split; reflexivity. Qed.

(* ================================================================== *)
(** * Further properties of the script *)

(** ** The filter as one predicate *)

Lemma boolean_mask_map {A : Type} (f : A -> bool) (l : list A) :
  boolean_mask (map f l) l = filter f l.
Proof.
  induction l as [| x l IH]; simpl; [reflexivity |].
  rewrite IH. reflexivity.
Qed.

Lemma mask_and_map {A : Type} (f g : A -> bool) (l : list A) :
  mask_and (map f l) (map g l) = map (fun x => f x && g x) l.
Proof.
  induction l as [| x l IH]; simpl; [reflexivity |].
  rewrite IH. reflexivity.
Qed.

Lemma filter_filter {A : Type} (f g : A -> bool) (l : list A) :
  filter g (filter f l) = filter (fun x => f x && g x) l.
Proof.
  induction l as [| x l IH]; simpl; [reflexivity |].
  destruct (f x); simpl; [destruct (g x) |]; rewrite IH; reflexivity.
Qed.

Lemma minutes_masks (d : DataFrame) (im : nat) (rs : list Row) (lo hi : Z) :
  typed d = true ->
  locate "Minutes" d = Some (im, int64) ->
  (forall r, In r rs -> In r (rows d)) ->
  ge_scalar {| sdtype := int64; values := map (cell_at im) rs |} lo
  = Ok (map (fun r => match cell_at im r with
                      | Int v => (lo <=? v)%Z
                      | _ => false
                      end) rs) /\
  le_scalar {| sdtype := int64; values := map (cell_at im) rs |} hi
  = Ok (map (fun r => match cell_at im r with
                      | Int v => (v <=? hi)%Z
                      | _ => false
                      end) rs).
Proof.
  intros Ht Hl Hin. unfold ge_scalar, le_scalar. simpl.
  induction rs as [| r rs IH]; simpl; [split; reflexivity |].
  destruct IH as [IH1 IH2]; [intros x Hx; apply Hin; right; exact Hx |].
  destruct (int64_cell (cell_at im r)) as [z Hz].
  { eapply typed_cell; [exact Ht | exact Hl | apply Hin; left; reflexivity]. }
  rewrite Hz. simpl. rewrite IH1, IH2. split; reflexivity.
Qed.

Lemma boolean_mask_map2 {A B : Type} (f : A -> B) (g : B -> bool) (l : list A) :
  boolean_mask (map g (map f l)) l = filter (fun x => g (f x)) l.
Proof. rewrite map_map. apply boolean_mask_map. Qed.

Lemma club_step_rows (c : FilterCriteria) (s : Session) (ic : nat) (tc : dtype) :
  selected_clubs c <> [] ->
  locate "Club" (filtered_df s) = Some (ic, tc) ->
  club_step c s
  = Ok (assign_filtered s
          {| columns := columns (filtered_df s);
             rows := filter (fun r => match cell_at ic r with
                                      | Str x => mem_string x (selected_clubs c)
                                      | _ => false
                                      end) (rows (filtered_df s)) |}).
Proof.
  intros Hne Hc. unfold club_step.
  destruct (selected_clubs c) as [| k ks] eqn:Ek; [contradiction |].
  unfold getitem. rewrite Hc. simpl bind.
  unfold isin, getitem_mask. simpl values.
  rewrite boolean_mask_map2. reflexivity.
Qed.

Lemma position_step_rows (c : FilterCriteria) (s : Session) (ip : nat)
    (tp : dtype) :
  locate "Position" (filtered_df s) = Some (ip, tp) ->
  exists rs,
    position_step c s
    = Ok (assign_filtered s
            {| columns := columns (filtered_df s); rows := rs |}) /\
    rs = filter (fun r => String.eqb (selected_position c) "All"
                          || match cell_at ip r with
                             | Str x => String.eqb x (selected_position c)
                             | _ => false
                             end) (rows (filtered_df s)).
Proof.
  intros Hp. unfold position_step.
  destruct (String.eqb (selected_position c) "All") eqn:Ep.
  - exists (rows (filtered_df s)). split.
    + destruct s as [d0 [cols rs]]. reflexivity.
    + symmetry. apply filter_all. intros r _. reflexivity.
  - unfold getitem. rewrite Hp. simpl bind.
    unfold eq_scalar, getitem_mask. simpl values.
    rewrite boolean_mask_map2. eexists. split; reflexivity.
Qed.

Lemma minutes_mask_rows (c : FilterCriteria) (s : Session) (d : DataFrame)
    (im : nat) :
  typed d = true ->
  locate "Minutes" d = Some (im, int64) ->
  columns (filtered_df s) = columns d ->
  (forall r, In r (rows (filtered_df s)) -> In r (rows d)) ->
  minutes_mask c s
  = Ok (assign_filtered s
          {| columns := columns (filtered_df s);
             rows := filter
                       (fun r => match cell_at im r with
                                 | Int v =>
                                     ((fst (selected_minutes_range c) <=? v)
                                      && (v <=? snd (selected_minutes_range c)))%Z
                                 | _ => false
                                 end) (rows (filtered_df s)) |}).
Proof.
  intros Ht Hm Hcols Hin. unfold minutes_mask, getitem, locate.
  rewrite Hcols. fold (locate "Minutes" d). rewrite Hm. simpl bind.
  destruct (minutes_masks d im (rows (filtered_df s))
              (fst (selected_minutes_range c))
              (snd (selected_minutes_range c)) Ht Hm Hin) as [Hlo Hhi].
  rewrite Hlo. simpl bind. rewrite Hhi. simpl bind.
  unfold getitem_mask. rewrite mask_and_map, boolean_mask_map.
  rewrite Hcols. f_equal. f_equal. f_equal.
  apply filter_ext. intros r. destruct (cell_at im r); reflexivity.
Qed.

Lemma filter_section_rows (d : DataFrame) (c : FilterCriteria)
    (ic ip im : nat) (tc tp : dtype) :
  typed d = true ->
  selected_clubs c <> [] ->
  locate "Club" d = Some (ic, tc) ->
  locate "Position" d = Some (ip, tp) ->
  locate "Minutes" d = Some (im, int64) ->
  exists s,
    filter_section c d = Ok s /\
    df s = d /\
    columns (filtered_df s) = columns d /\
    rows (filtered_df s) = filter (keeps c ic ip im) (rows d).
Proof.
  intros Ht Hne Hc Hp Hm. unfold filter_section.
  rewrite (club_step_rows c {| df := d; filtered_df := d |} ic tc Hne Hc).
  simpl bind.
  match goal with |- context [position_step c ?s1] =>
    destruct (position_step_rows c s1 ip tp Hp) as [rs [H2 Ers]];
    rewrite H2 end.
  simpl bind. simpl in Ers.
  match goal with |- context [minutes_step c ?t] => set (s2 := t) end.
  assert (Hcols : columns (filtered_df s2) = columns d) by reflexivity.
  assert (Hrows : rows (filtered_df s2) = rs) by reflexivity.
  assert (Hin : forall r, In r (rows (filtered_df s2)) -> In r (rows d)).
  { rewrite Hrows, Ers. intros r Hr.
    apply filter_In in Hr. destruct Hr as [Hr _].
    apply filter_In in Hr. tauto. }
  rewrite (minutes_step_unguarded c s2).
  - rewrite (minutes_mask_rows c s2 d im Ht Hm Hcols Hin).
    eexists. split; [reflexivity |]. split; [reflexivity |].
    split; [exact Hcols |]. simpl rows.
    rewrite Ers, !filter_filter.
    apply filter_ext. intros r. unfold keeps.
    destruct (cell_at ic r), (cell_at ip r), (cell_at im r);
      simpl; rewrite ?andb_false_r, ?andb_assoc; simpl;
      rewrite ?andb_false_r; reflexivity.
  - split; [| left; exact Hcols].
    rewrite Hrows, Ers. eapply subseq_trans; apply subseq_filter.
  - simpl. eapply locate_some_names. exact Hm.
Qed.

(** X1. On a typed table that has the three columns, with at least one
    club selected, the three masks of the filter amount to one test per
    row: the frame returned has the columns of the table and exactly the
    rows that pass [keeps] (club among the selected ones, position equal
    unless "All", minutes within the range, ends included), in the order
    of the table. *)
Theorem X1_filter_is_conjunction (d : DataFrame) (c : FilterCriteria)
    (ic ip im : nat) (tc tp : dtype) :
  typed d = true ->
  selected_clubs c <> [] ->
  locate "Club" d = Some (ic, tc) ->
  locate "Position" d = Some (ip, tp) ->
  locate "Minutes" d = Some (im, int64) ->
  exists s,
    filter_section c d = Ok s /\
    columns (filtered_df s) = columns d /\
    rows (filtered_df s) = filter (keeps c ic ip im) (rows d) /\
    (forall r, In r (rows (filtered_df s)) <->
               In r (rows d) /\ keeps c ic ip im r = true).
Proof.
  intros Ht Hne Hc Hp Hm.
  destruct (filter_section_rows d c ic ip im tc tp Ht Hne Hc Hp Hm)
    as (s & Hs & _ & Hcols & Hrows).
  exists s. split; [exact Hs |]. split; [exact Hcols |].
  split; [exact Hrows |].
  intros r. rewrite Hrows. apply filter_In.
Qed.

Lemma X1_filter_is_conjunction_witness :
  exists s,
    filter_section scenario_criteria sample = Ok s /\
    columns (filtered_df s) = columns sample /\
    rows (filtered_df s) = filter (keeps scenario_criteria 1 2 3) (rows sample) /\
    (forall r, In r (rows (filtered_df s)) <->
               In r (rows sample) /\ keeps scenario_criteria 1 2 3 r = true).
Proof.
  apply (X1_filter_is_conjunction sample scenario_criteria 1 2 3 object object).
  - reflexivity.
  - discriminate.
  - reflexivity.
  - reflexivity.
  - reflexivity.
Defined.

(** ** Widening the selections *)

Lemma subseq_filter_impl {A : Type} (f g : A -> bool) (l : list A) :
  (forall x, In x l -> f x = true -> g x = true) ->
  subseq (filter f l) (filter g l).
Proof.
  induction l as [| x l IH]; simpl; intros H.
  - constructor.
  - assert (IH' : subseq (filter f l) (filter g l)).
    { apply IH. intros y Hy. apply H. right. exact Hy. }
    destruct (f x) eqn:Ef.
    + rewrite (H x (or_introl eq_refl) Ef). apply subseq_keep. exact IH'.
    + destruct (g x); [apply subseq_skip |]; exact IH'.
Qed.

Lemma no_club_rows (d : DataFrame) (c : FilterCriteria) (s : Session) :
  selected_clubs c = [] -> filter_section c d = Ok s ->
  rows (filtered_df s) = [].
Proof.
  intros Hc Hs. unfold filter_section, club_step in Hs. rewrite Hc in Hs.
  simpl in Hs. apply bind_ok_inv in Hs. destruct Hs as [s2 [H2 H3]].
  assert (R2 : rows (filtered_df s2) = []).
  { unfold position_step in H2.
    destruct (String.eqb (selected_position c) "All").
    - inv H2. reflexivity.
    - apply bind_ok_inv in H2. destruct H2 as [pos [_ H2]]. inv H2.
      simpl. apply boolean_mask_nil. }
  unfold minutes_step, empty in H3. rewrite R2 in H3. simpl in H3.
  inv H3. exact R2.
Qed.

Lemma keeps_wider (c c' : FilterCriteria) (ic ip im : nat) (r : Row) :
  wider c c' -> keeps c ic ip im r = true -> keeps c' ic ip im r = true.
Proof.
  intros (Hclubs & Hpos & Hlo & Hhi). unfold keeps.
  repeat rewrite andb_true_iff. intros [[H1 H2] H3]. repeat split.
  - destruct (cell_at ic r); try discriminate.
    apply mem_string_In. apply Hclubs. apply mem_string_In. exact H1.
  - destruct Hpos as [-> | ->]; [reflexivity | exact H2].
  - destruct (cell_at im r); try discriminate.
    apply andb_true_iff in H3. destruct H3 as [Ha Hb].
    apply Z.leb_le in Ha. apply Z.leb_le in Hb.
    apply andb_true_iff. split; apply Z.leb_le; lia.
Qed.

(** X2. Widening the selections never hides a row: when the second
    criteria select at least the clubs of the first, the same position or
    "All", and a range of minutes that contains the first one, the rows
    shown for the first are among the rows shown for the second, in the
    same order. *)
Theorem X2_wider_criteria_show_more (d : DataFrame) (c c' : FilterCriteria) :
  well_formed d = true ->
  wider c c' ->
  exists s s',
    filter_section c d = Ok s /\
    filter_section c' d = Ok s' /\
    subseq (rows (filtered_df s)) (rows (filtered_df s')).
Proof.
  intros Hwf Hw.
  destruct (filter_section_total c d Hwf) as [s Hs].
  destruct (filter_section_total c' d Hwf) as [s' Hs'].
  exists s, s'. split; [exact Hs |]. split; [exact Hs' |].
  destruct (selected_clubs c) as [| k ks] eqn:Ek.
  - rewrite (no_club_rows d c s Ek Hs). apply subseq_nil_l.
  - apply well_formed_unpack in Hwf.
    destruct Hwf as (Ht & _ & _ & [ic Hc] & [ip Hp] & [im Hm] & _).
    assert (Hne : selected_clubs c <> []) by (rewrite Ek; discriminate).
    assert (Hne' : selected_clubs c' <> []).
    { destruct Hw as [Hclubs _]. intros E.
      specialize (Hclubs k). rewrite Ek, E in Hclubs.
      apply Hclubs. left. reflexivity. }
    destruct (filter_section_rows d c ic ip im object object Ht Hne Hc Hp Hm)
      as (t & Ht1 & _ & _ & Hrows).
    destruct (filter_section_rows d c' ic ip im object object Ht Hne' Hc Hp Hm)
      as (t' & Ht2 & _ & _ & Hrows').
    rewrite Hs in Ht1. inv Ht1. rewrite Hs' in Ht2. inv Ht2.
    rewrite Hrows, Hrows'. apply subseq_filter_impl.
    intros r _. apply keeps_wider. exact Hw.
Qed.

Lemma X2_wider_criteria_show_more_witness :
  exists s s',
    filter_section scenario_criteria sample = Ok s /\
    filter_section sample_criteria sample = Ok s' /\
    subseq (rows (filtered_df s)) (rows (filtered_df s')).
Proof.
  apply (X2_wider_criteria_show_more sample scenario_criteria sample_criteria).
  - reflexivity.
  - unfold wider. simpl. split.
    + intros x [<- | []]. left. reflexivity.
    + split; [left; reflexivity | split; lia].
Defined.

(** ** What the filter can raise *)

Lemma getitem_raise (d : DataFrame) (name : string) (e : exn) :
  getitem d name = Raise e ->
  e = KeyError name /\ ~ In name (map fst (columns d)).
Proof.
  unfold getitem. destruct (locate name d) as [[i t] |] eqn:E; [discriminate |].
  intros H. inv H. split; [reflexivity |].
  intros Hin. destruct (locate_in_names name d Hin) as [i [t Hl]]. congruence.
Qed.

Lemma derived_locate_back (d v : DataFrame) (name : string) (i : nat) (t : dtype) :
  derived_from d v -> locate name v = Some (i, t) ->
  exists t', locate name d = Some (i, t').
Proof.
  intros Hd Hl. pose proof (derived_names d v Hd) as Hn.
  pose proof (locate_from_names name (columns v) (columns d) Hn 0) as H.
  unfold locate in *. rewrite Hl in H. simpl in H.
  destruct (locate_from 0 name (columns d)) as [[j u] |]; simpl in H;
    [| discriminate].
  inv H. eauto.
Qed.

(** X3. The filter raises nothing but a KeyError for a column it reads
    and does not find (Club when a club is selected, Position when the
    position is not "All", Minutes), or a TypeError, and that only when
    some row of the table has text in its Minutes column. *)
Theorem X3_filter_errors (d : DataFrame) (c : FilterCriteria) (e : exn) :
  filter_section c d = Raise e ->
  (e = KeyError "Club" /\ selected_clubs c <> [] /\
   ~ In "Club"%string (map fst (columns d))) \/
  (e = KeyError "Position" /\ selected_position c <> "All"%string /\
   ~ In "Position"%string (map fst (columns d))) \/
  (e = KeyError "Minutes" /\ ~ In "Minutes"%string (map fst (columns d))) \/
  (e = TypeError /\
   exists i t r x,
     locate "Minutes" d = Some (i, t) /\ In r (rows d) /\ cell_at i r = Str x).
Proof.
  unfold filter_section. intros H.
  destruct (club_step c {| df := d; filtered_df := d |}) as [s1 | e1] eqn:E1;
    simpl in H.
  2:{ inv H. left. unfold club_step in E1.
      destruct (selected_clubs c) as [| k ks]; [discriminate |].
      simpl in E1.
      destruct (getitem d "Club") as [club | e0] eqn:G; simpl in E1;
        [discriminate |].
      inv E1. apply getitem_raise in G. destruct G as [-> Hn].
      split; [reflexivity |]. split; [discriminate | exact Hn]. }
  destruct (club_step_inv c {| df := d; filtered_df := d |} s1
              (derived_refl d) E1) as [D1 H1]. simpl in D1, H1.
  assert (H1' : derived_from (df s1) (filtered_df s1)) by (rewrite D1; exact H1).
  assert (Hconv : forall v, derived_from (df s1) v -> derived_from d v)
    by (intros v Hv; rewrite <- D1; exact Hv).
  clear D1.
  destruct (position_step c s1) as [s2 | e2] eqn:E2; simpl in H.
  2:{ inv H. right. left. unfold position_step in E2.
      destruct (String.eqb (selected_position c) "All") eqn:Ep;
        [discriminate |].
      destruct (getitem (filtered_df s1) "Position") as [pos | e0] eqn:G;
        simpl in E2; [discriminate |].
      inv E2. apply getitem_raise in G. destruct G as [-> Hn].
      split; [reflexivity |]. split.
      - intros Hall. rewrite Hall in Ep. discriminate Ep.
      - rewrite <- (derived_names _ _ H1). exact Hn. }
  destruct (position_step_inv c s1 s2 H1' E2) as [_ H2].
  apply Hconv in H2.
  right. right. unfold minutes_step in H.
  destruct (negb (empty (filtered_df s2))); [| discriminate].
  unfold minutes_mask in H.
  destruct (getitem (filtered_df s2) "Minutes") as [m | e0] eqn:G; simpl in H.
  2:{ inv H. left. apply getitem_raise in G. destruct G as [-> Hn].
      split; [reflexivity |].
      rewrite <- (derived_names _ _ H2). exact Hn. }
  right.
  assert (Hcell : forall f : cell -> result bool,
             (forall x b, f x = Raise b -> b = TypeError /\ exists y, x = Str y) ->
             forall b, mapM f (values m) = Raise b ->
             b = TypeError /\
             exists i t r x,
               locate "Minutes" d = Some (i, t) /\ In r (rows d) /\
               cell_at i r = Str x).
  { intros f Hf b Hb. apply mapM_raise in Hb. destruct Hb as [x [Hx Hfx]].
    destruct (Hf x b Hfx) as [-> [y ->]]. split; [reflexivity |].
    unfold getitem in G.
    destruct (locate "Minutes" (filtered_df s2)) as [[i t] |] eqn:L;
      [| discriminate].
    inv G. simpl in Hx. apply in_map_iff in Hx. destruct Hx as [r [Hr Hin]].
    destruct (derived_locate_back d (filtered_df s2) "Minutes" i t H2 L)
      as [t' Hl].
    exists i, t', r, y. split; [exact Hl |]. split; [| exact Hr].
    eapply subseq_In; [apply H2 | exact Hin]. }
  destruct (ge_scalar m (fst (selected_minutes_range c))) as [lo | e0] eqn:Glo;
    simpl in H.
  2:{ injection H as <-. unfold ge_scalar in Glo. eapply Hcell; [| exact Glo].
      intros x b Hx. destruct x; inv Hx. eauto. }
  destruct (le_scalar m (snd (selected_minutes_range c))) as [hi | e0] eqn:Ghi;
    simpl in H; [discriminate |].
  injection H as <-. unfold le_scalar in Ghi. eapply Hcell; [| exact Ghi].
  intros x b Hx. destruct x; inv Hx. eauto.
Qed.

Lemma X3_filter_errors_witness :
  filter_section sample_criteria no_club_column = Raise (KeyError "Club") /\
  selected_clubs sample_criteria <> [] /\
  ~ In "Club"%string (map fst (columns no_club_column)).
Proof.
  split; [reflexivity |].
  destruct (X3_filter_errors no_club_column sample_criteria (KeyError "Club")
              eq_refl)
    as [[_ H] | [[E _] | [[E _] | [E _]]]];
    [exact H | discriminate E | discriminate E | discriminate E].
Defined.

(** ** The sidebar: bounds of the slider *)

Lemma fold_min_spec (l : list Z) :
  forall z,
    (fold_left Z.min l z <= z)%Z /\
    Forall (fun x => fold_left Z.min l z <= x)%Z l /\
    (fold_left Z.min l z = z \/ In (fold_left Z.min l z) l).
Proof.
  induction l as [| x l IH]; intros z; simpl.
  - split; [lia |]. split; [constructor | left; reflexivity].
  - destruct (IH (Z.min z x)) as (H1 & H2 & H3).
    split; [lia |]. split.
    + constructor; [lia | exact H2].
    + destruct H3 as [H3 | H3]; [| right; right; exact H3].
      rewrite H3. destruct (Z.min_spec z x) as [[_ E] | [_ E]]; rewrite E.
      * left. reflexivity.
      * right. left. reflexivity.
Qed.

Lemma fold_max_spec (l : list Z) :
  forall z,
    (z <= fold_left Z.max l z)%Z /\
    Forall (fun x => x <= fold_left Z.max l z)%Z l /\
    (fold_left Z.max l z = z \/ In (fold_left Z.max l z) l).
Proof.
  induction l as [| x l IH]; intros z; simpl.
  - split; [lia |]. split; [constructor | left; reflexivity].
  - destruct (IH (Z.max z x)) as (H1 & H2 & H3).
    split; [lia |]. split.
    + constructor; [lia | exact H2].
    + destruct H3 as [H3 | H3]; [| right; right; exact H3].
      rewrite H3. destruct (Z.max_spec z x) as [[_ E] | [_ E]]; rewrite E.
      * right. left. reflexivity.
      * left. reflexivity.
Qed.

Lemma minutes_bounds_value (d : DataFrame) (im : nat) :
  typed d = true ->
  locate "Minutes" d = Some (im, int64) ->
  minutes_bounds d
  = match int_column im (rows d) with
    | [] => Raise ValueError
    | z :: zs => Ok (fold_left Z.min zs z, fold_left Z.max zs z)
    end.
Proof.
  intros Ht Hm. unfold minutes_bounds, getitem. rewrite Hm. simpl bind.
  unfold series_min, series_max. simpl sdtype. simpl values.
  rewrite (int_column_mapM d "Minutes" im (rows d) Ht Hm); [| auto].
  simpl bind.
  destruct (int_column im (rows d)) as [| z zs]; reflexivity.
Qed.

(** X4. On a typed table with at least one row the two ends computed for
    the minutes slider are the smallest and the largest value of the
    Minutes column: both occur in the column and every value lies between
    them. *)
Theorem X4_minutes_bounds (d : DataFrame) (im : nat) :
  typed d = true ->
  locate "Minutes" d = Some (im, int64) ->
  rows d <> [] ->
  exists lo hi,
    minutes_bounds d = Ok (lo, hi) /\
    Forall (fun v => lo <= v <= hi)%Z (int_values "Minutes" d) /\
    In lo (int_values "Minutes" d) /\
    In hi (int_values "Minutes" d).
Proof.
  intros Ht Hm Hne.
  rewrite (minutes_bounds_value d im Ht Hm).
  unfold int_values. rewrite Hm.
  destruct (rows d) as [| r rs]; [contradiction |].
  simpl int_column.
  set (z := match cell_at im r with Int z => z | _ => 0%Z end).
  set (zs := int_column im rs).
  destruct (fold_min_spec zs z) as (Hlo1 & Hlo2 & Hlo3).
  destruct (fold_max_spec zs z) as (Hhi1 & Hhi2 & Hhi3).
  exists (fold_left Z.min zs z), (fold_left Z.max zs z).
  split; [reflexivity |]. split.
  - constructor; [lia |].
    rewrite Forall_forall in *. intros v Hv.
    specialize (Hlo2 v Hv). specialize (Hhi2 v Hv). lia.
  - split.
    + destruct Hlo3 as [-> | H]; [left; reflexivity | right; exact H].
    + destruct Hhi3 as [-> | H]; [left; reflexivity | right; exact H].
Qed.

Lemma X4_minutes_bounds_witness :
  exists lo hi,
    minutes_bounds sample = Ok (lo, hi) /\
    Forall (fun v => lo <= v <= hi)%Z (int_values "Minutes" sample) /\
    In lo (int_values "Minutes" sample) /\
    In hi (int_values "Minutes" sample).
Proof.
  apply (X4_minutes_bounds sample 3); [reflexivity | reflexivity | discriminate].
Defined.

(** X5. On a table without rows the sidebar cannot be set up: the minimum
    of an empty Minutes column is nan, and [int] raises ValueError on it,
    whatever the dtype of the column. *)
Theorem X5_no_rows_no_slider (d : DataFrame) :
  In "Minutes"%string (map fst (columns d)) ->
  rows d = [] ->
  minutes_bounds d = Raise ValueError.
Proof.
  intros Hin Hr.
  destruct (locate_in_names "Minutes" d Hin) as [i [t Hl]].
  unfold minutes_bounds, getitem. rewrite Hl, Hr. simpl bind.
  destruct t; reflexivity.
Qed.

Lemma X5_no_rows_no_slider_witness :
  minutes_bounds header_only = Raise ValueError.
Proof.
  apply (X5_no_rows_no_slider header_only).
  - simpl. right. right. right. left. reflexivity.
  - reflexivity.
Defined.

(** ** The sidebar: the club options *)

Lemma leb_trans (a b c : string) :
  String.leb a b = true -> String.leb b c = true -> String.leb a c = true.
Proof.
  unfold String.leb. intros Hab Hbc.
  destruct (String.compare a b) eqn:Eab; try discriminate;
    destruct (String.compare b c) eqn:Ebc; try discriminate.
  - apply String.compare_eq_iff in Eab, Ebc. subst.
    destruct (String.leb_total c c) as [H | H]; exact H.
  - apply String.compare_eq_iff in Eab. subst. rewrite Ebc. reflexivity.
  - apply String.compare_eq_iff in Ebc. subst. rewrite Eab. reflexivity.
  - apply OrderedTypeEx.String_as_OT.cmp_lt in Eab, Ebc.
    pose proof (OrderedTypeEx.String_as_OT.lt_trans _ _ _ Eab Ebc) as Hac.
    apply OrderedTypeEx.String_as_OT.cmp_lt in Hac.
    unfold OrderedTypeEx.String_as_OT.cmp in Hac. rewrite Hac. reflexivity.
Qed.

Lemma insert_string_sorted (x : string) (l : list string) :
  ascending_strings l -> ascending_strings (insert_string x l).
Proof.
  unfold ascending_strings.
  induction l as [| y l IH]; simpl; intros Hs.
  - constructor; constructor.
  - inversion Hs as [| ? ? Hl Hy]; subst.
    destruct (String.leb x y) eqn:E.
    + constructor; [exact Hs |]. constructor; [exact E |].
      rewrite Forall_forall in *. intros z Hz.
      eapply leb_trans; [exact E | apply Hy; exact Hz].
    + constructor; [apply IH; exact Hl |].
      rewrite Forall_forall in *. intros z Hz.
      apply (Permutation_in _ (insert_string_perm x l)) in Hz.
      destruct Hz as [<- | Hz]; [| apply Hy; exact Hz].
      destruct (String.leb_total x y) as [H | H]; [congruence | exact H].
Qed.

Lemma sort_strings_sorted (l : list string) :
  ascending_strings (sort_strings l).
Proof.
  unfold sort_strings. induction l as [| x l IH]; simpl.
  - constructor.
  - apply insert_string_sorted. exact IH.
Qed.

Lemma unique_strings_NoDup (l : list string) : NoDup (unique_strings l).
Proof.
  unfold unique_strings.
  apply (Permutation_NoDup (Permutation_rev _)). apply NoDup_nodup.
Qed.

Lemma unique_strings_In (x : string) (l : list string) :
  In x (unique_strings l) <-> In x l.
Proof.
  unfold unique_strings. rewrite <- in_rev, nodup_In, <- in_rev. tauto.
Qed.

Lemma column_keys (d : DataFrame) (name : string) (i : nat) :
  typed d = true ->
  locate name d = Some (i, object) ->
  mapM group_key (map (cell_at i) (rows d))
  = Ok (map (group_of i) (rows d)).
Proof.
  intros Ht Hl. rewrite <- (map_map (cell_at i)
    (fun c => match c with Str s => Some s | _ => None end)).
  apply mapM_map. intros c Hc. apply in_map_iff in Hc.
  destruct Hc as [r [<- Hr]].
  destruct (object_cell (cell_at i r)) as [[s ->] | ->];
    [eapply typed_cell; eassumption | reflexivity | reflexivity].
Qed.

Lemma no_null_keys (d : DataFrame) (name : string) (i : nat) (t : dtype) :
  locate name d = Some (i, t) ->
  no_null name d = true ->
  existsb is_none (map (group_of i) (rows d)) = false.
Proof.
  unfold no_null. intros -> H. rewrite forallb_forall in H.
  destruct (existsb is_none (map (group_of i) (rows d))) eqn:E;
    [| reflexivity].
  apply existsb_exists in E. destruct E as [o [Ho Hn]].
  apply in_map_iff in Ho. destruct Ho as [r [<- Hr]].
  specialize (H r Hr). unfold group_of in Hn.
  destruct (cell_at i r); simpl in *; discriminate.
Qed.

Lemma sorted_unique_value (d : DataFrame) (name : string) (i : nat) :
  typed d = true ->
  locate name d = Some (i, object) ->
  no_null name d = true ->
  sorted_unique {| sdtype := object; values := map (cell_at i) (rows d) |}
  = Ok (sort_strings (unique_strings (somes (map (group_of i) (rows d))))).
Proof.
  intros Ht Hl Hn. unfold sorted_unique. simpl values.
  rewrite (column_keys d name i Ht Hl). simpl bind.
  rewrite (no_null_keys d name i object Hl Hn). reflexivity.
Qed.

Lemma sorted_unique_spec (d : DataFrame) (name : string) (i : nat) :
  typed d = true ->
  locate name d = Some (i, object) ->
  no_null name d = true ->
  exists l,
    sorted_unique {| sdtype := object; values := map (cell_at i) (rows d) |}
    = Ok l /\
    NoDup l /\ ascending_strings l /\
    forall k, In k l <-> exists r, In r (rows d) /\ cell_at i r = Str k.
Proof.
  intros Ht Hl Hn. eexists. split; [apply (sorted_unique_value d name i Ht Hl Hn) |].
  split; [| split].
  - apply (Permutation_NoDup (Permutation_sym (sort_strings_perm _))).
    apply unique_strings_NoDup.
  - apply sort_strings_sorted.
  - intros k. split.
    + intros H. apply (Permutation_in _ (sort_strings_perm _)) in H.
      apply unique_strings_In, somes_In, in_map_iff in H.
      destruct H as [r [Hr Hin]]. exists r. split; [exact Hin |].
      unfold group_of in Hr. destruct (cell_at i r); congruence.
    + intros [r [Hin Hr]].
      apply (Permutation_in _ (Permutation_sym (sort_strings_perm _))).
      apply unique_strings_In, somes_In, in_map_iff. exists r.
      split; [| exact Hin]. unfold group_of. rewrite Hr. reflexivity.
Qed.

(** X6. When no row lacks its club, the options offered in the club
    selector are exactly the clubs that occur in the table, each listed
    once, in ascending order. *)
Theorem X6_club_options (d : DataFrame) (ic : nat) :
  typed d = true ->
  locate "Club" d = Some (ic, object) ->
  no_null "Club" d = true ->
  exists l,
    clubs d = Ok l /\
    NoDup l /\ ascending_strings l /\
    forall k, In k l <-> exists r, In r (rows d) /\ cell_at ic r = Str k.
Proof.
  intros Ht Hl Hn. unfold clubs, getitem. rewrite Hl. simpl bind.
  apply (sorted_unique_spec d "Club" ic Ht Hl Hn).
Qed.

Lemma X6_club_options_witness :
  exists l,
    clubs sample = Ok l /\
    NoDup l /\ ascending_strings l /\
    forall k, In k l <-> exists r, In r (rows sample) /\ cell_at 1 r = Str k.
Proof.
  apply (X6_club_options sample 1); reflexivity.
Defined.

Lemma sorted_unique_type_error (d : DataFrame) (name : string) (i : nat) :
  typed d = true ->
  locate name d = Some (i, object) ->
  (exists r, In r (rows d) /\ cell_at i r = NaN) ->
  (exists r x, In r (rows d) /\ cell_at i r = Str x) ->
  sorted_unique {| sdtype := object; values := map (cell_at i) (rows d) |}
  = Raise TypeError.
Proof.
  intros Ht Hl [r [Hr Hnan]] [r' [x [Hr' Hx]]].
  unfold sorted_unique. simpl values.
  rewrite (column_keys d name i Ht Hl). simpl bind.
  assert (E : existsb is_none (map (group_of i) (rows d)) = true).
  { apply existsb_exists. exists None. split; [| reflexivity].
    apply in_map_iff. exists r. split; [| exact Hr].
    unfold group_of. rewrite Hnan. reflexivity. }
  rewrite E.
  assert (Hin : In x (somes (map (group_of i) (rows d)))).
  { apply somes_In, in_map_iff. exists r'. split; [| exact Hr'].
    unfold group_of. rewrite Hx. reflexivity. }
  destruct (somes (map (group_of i) (rows d))); [destruct Hin | reflexivity].
Qed.

(** X7. A table in which one row has a club and another row has none
    cannot be shown: building the club options raises TypeError, since
    [sorted] has to compare a string with nan. *)
Theorem X7_missing_club_crashes (d : DataFrame) (ic : nat) :
  typed d = true ->
  locate "Club" d = Some (ic, object) ->
  (exists r, In r (rows d) /\ cell_at ic r = NaN) ->
  (exists r x, In r (rows d) /\ cell_at ic r = Str x) ->
  clubs d = Raise TypeError.
Proof.
  intros Ht Hl Hnan Hstr. unfold clubs, getitem. rewrite Hl. simpl bind.
  apply (sorted_unique_type_error d "Club" ic Ht Hl Hnan Hstr).
Qed.

Lemma X7_missing_club_crashes_witness :
  clubs club_missing = Raise TypeError.
Proof.
  apply (X7_missing_club_crashes club_missing 0).
  - reflexivity.
  - reflexivity.
  - exists (mk_row 1 [NaN]). split; [simpl; tauto | reflexivity].
  - exists (mk_row 0 [Str "ClubA"]), "ClubA"%string.
    split; [simpl; tauto | reflexivity].
Defined.

(** ** The sidebar and the filter together *)

Lemma minutes_bounds_cover (d : DataFrame) (im : nat) :
  typed d = true ->
  locate "Minutes" d = Some (im, int64) ->
  rows d <> [] ->
  exists lo hi,
    minutes_bounds d = Ok (lo, hi) /\
    forall r, In r (rows d) ->
      exists v, cell_at im r = Int v /\ (lo <= v <= hi)%Z.
Proof.
  intros Ht Hm Hne.
  rewrite (minutes_bounds_value d im Ht Hm).
  assert (Hint : forall r, In r (rows d) -> exists v, cell_at im r = Int v).
  { intros r Hr. apply int64_cell. eapply typed_cell; eassumption. }
  destruct (rows d) as [| r0 rs]; [contradiction |].
  simpl int_column.
  set (z := match cell_at im r0 with Int z => z | _ => 0%Z end).
  set (zs := int_column im rs).
  destruct (fold_min_spec zs z) as (Hlo1 & Hlo2 & _).
  destruct (fold_max_spec zs z) as (Hhi1 & Hhi2 & _).
  exists (fold_left Z.min zs z), (fold_left Z.max zs z).
  split; [reflexivity |].
  intros r Hr. destruct (Hint r Hr) as [v Hv]. exists v.
  split; [exact Hv |].
  destruct Hr as [<- | Hr].
  - subst z. rewrite Hv in *. lia.
  - rewrite Forall_forall in Hlo2, Hhi2.
    assert (Hin : In v zs).
    { subst zs. unfold int_column. apply in_map_iff. exists r.
      rewrite Hv. split; [reflexivity | exact Hr]. }
    specialize (Hlo2 v Hin). specialize (Hhi2 v Hin). lia.
Qed.

Lemma frame_eq (v d : DataFrame) :
  columns v = columns d -> rows v = rows d -> v = d.
Proof. destruct v, d; simpl; intros -> ->; reflexivity. Qed.

(** X8. Selecting every club the selector offers, the position "All" and
    the slider as it is first drawn (from the smallest to the largest
    number of minutes) shows the whole table: on a well-formed table with
    at least one row and a club in every row, the sidebar values exist and
    the filter returns the table itself. *)
Theorem X8_everything_selected (d : DataFrame) :
  well_formed d = true ->
  no_null "Club" d = true ->
  rows d <> [] ->
  exists cl lo hi s,
    clubs d = Ok cl /\
    minutes_bounds d = Ok (lo, hi) /\
    filter_section {| selected_clubs := cl;
                      selected_position := "All";
                      selected_minutes_range := (lo, hi) |} d = Ok s /\
    filtered_df s = d.
Proof.
  intros Hwf Hn Hne. apply well_formed_unpack in Hwf.
  destruct Hwf as (Ht & _ & _ & [ic Hc] & [ip Hp] & [im Hm] & _).
  destruct (sorted_unique_spec d "Club" ic Ht Hc Hn) as (cl & Hcl & _ & _ & Hin).
  destruct (minutes_bounds_cover d im Ht Hm Hne) as (lo & hi & Hb & Hcov).
  set (c := {| selected_clubs := cl; selected_position := "All";
               selected_minutes_range := (lo, hi) |}).
  assert (Hall : forall r, In r (rows d) -> keeps c ic ip im r = true).
  { intros r Hr. unfold keeps. simpl.
    destruct (Hcov r Hr) as [v [-> Hv]].
    unfold no_null in Hn. rewrite Hc in Hn. rewrite forallb_forall in Hn.
    specialize (Hn r Hr). destruct (cell_at ic r) as [x | | |] eqn:Ex;
      try discriminate.
    assert (Hx : mem_string x cl = true).
    { apply mem_string_In, Hin. exists r. split; [exact Hr | exact Ex]. }
    rewrite Hx. simpl.
    apply andb_true_iff. split; apply Z.leb_le; lia. }
  assert (Hcne : selected_clubs c <> []).
  { simpl. destruct (rows d) as [| r rs] eqn:Er; [contradiction |].
    specialize (Hall r (or_introl eq_refl)). unfold keeps in Hall. simpl in Hall.
    intros ->. destruct (cell_at ic r); discriminate. }
  destruct (filter_section_rows d c ic ip im object object Ht Hcne Hc Hp Hm)
    as (s & Hs & _ & Hcols & Hrows).
  exists cl, lo, hi, s.
  split; [unfold clubs, getitem; rewrite Hc; exact Hcl |].
  split; [exact Hb |]. split; [exact Hs |].
  apply frame_eq; [exact Hcols |].
  rewrite Hrows. apply filter_all. exact Hall.
Qed.

Lemma X8_everything_selected_witness :
  exists cl lo hi s,
    clubs sample = Ok cl /\
    minutes_bounds sample = Ok (lo, hi) /\
    filter_section {| selected_clubs := cl;
                      selected_position := "All";
                      selected_minutes_range := (lo, hi) |} sample = Ok s /\
    filtered_df s = sample.
Proof.
  apply (X8_everything_selected sample);
    [reflexivity | reflexivity | discriminate].
Defined.

(** ** The page as a whole *)

(** X9. When the filter leaves no row (no club selected, or no player
    matching) the page is the blank one and nothing can fail: the four
    figures are the integer zero and neither chart is drawn, whatever
    columns the table has and whatever metric is picked. *)
Theorem X9_no_rows_blank_page (kind : sorter) (d : DataFrame)
    (c : FilterCriteria) (sel : option string) (s : Session) :
  filter_section c d = Ok s ->
  rows (filtered_df s) = [] ->
  render kind d c sel
  = Ok {| shown := filtered_df s; kpi := kpi_zero;
          chart_goals := None; chart_top := None |}.
Proof.
  intros Hs Hr. unfold render. rewrite Hs. simpl bind.
  assert (E : empty (filtered_df s) = true).
  { unfold empty. rewrite Hr. reflexivity. }
  unfold kpi_block, tab1, tab2. rewrite E. reflexivity.
Qed.

Lemma X9_no_rows_blank_page_witness :
  exists s,
    filter_section
      {| selected_clubs := ["ClubA"]%string; selected_position := "All";
         selected_minutes_range := (5000, 6000)%Z |} sample = Ok s /\
    render insertion_kind sample
      {| selected_clubs := ["ClubA"]%string; selected_position := "All";
         selected_minutes_range := (5000, 6000)%Z |} (Some "Goals"%string)
    = Ok {| shown := filtered_df s; kpi := kpi_zero;
            chart_goals := None; chart_top := None |}.
Proof.
  eexists. split; [reflexivity |].
  apply (X9_no_rows_blank_page insertion_kind sample
           {| selected_clubs := ["ClubA"]%string; selected_position := "All";
              selected_minutes_range := (5000, 6000)%Z |}
           (Some "Goals"%string));
    reflexivity.
Defined.

Lemma filter_rows_columns (c : FilterCriteria) (d : DataFrame) (s : Session) :
  filter_section c d = Ok s ->
  rows (filtered_df s) <> [] ->
  empty (filtered_df s) = false.
Proof.
  intros Hs Hne.
  destruct (filter_section_inv c d s Hs) as [_ [_ [Hc | [_ Hr]]]];
    [| contradiction].
  assert (Hd : columns d <> []).
  { destruct (selected_clubs c) as [| k ks] eqn:Ec.
    - exfalso. apply Hne. eapply no_club_rows; eassumption.
    - unfold filter_section, club_step in Hs. rewrite Ec in Hs.
      simpl filtered_df in Hs.
      apply bind_ok_inv in Hs. destruct Hs as [s1 [H1 _]].
      apply bind_ok_inv in H1. destruct H1 as [club [H1 _]].
      unfold getitem, locate in H1. intros E. rewrite E in H1.
      discriminate H1. }
  unfold empty. rewrite Hc.
  destruct (rows (filtered_df s)); [contradiction |].
  destruct (columns d); [contradiction | reflexivity].
Qed.

Lemma kpi_block_count (v : DataFrame) (k : KPI) :
  empty v = false -> kpi_block v = Ok k ->
  total_players k = Z.of_nat (List.length (rows v)).
Proof.
  intros E H. unfold kpi_block in H. rewrite E in H. simpl negb in H.
  cbv iota in H.
  repeat (apply bind_ok_inv in H; destruct H as [? [_ H]]).
  injection H as <-. reflexivity.
Qed.

(** X10. On every page the script manages to draw, the player count is
    the number of rows of the frame shown, and the goals chart is drawn
    exactly when that frame has a row. *)
Theorem X10_count_matches_rows (kind : sorter) (d : DataFrame)
    (c : FilterCriteria) (sel : option string) (v : Dashboard) :
  render kind d c sel = Ok v ->
  total_players (kpi v) = Z.of_nat (List.length (rows (shown v))) /\
  (chart_goals v = None <-> rows (shown v) = []).
Proof.
  intros H. unfold render in H.
  apply bind_ok_inv in H. destruct H as [s [Hs H]].
  apply bind_ok_inv in H. destruct H as [k [Hk H]].
  apply bind_ok_inv in H. destruct H as [g [Hg H]].
  apply bind_ok_inv in H. destruct H as [t [_ H]].
  injection H as <-. simpl.
  destruct (rows (filtered_df s)) as [| r rs] eqn:Er.
  - assert (E : empty (filtered_df s) = true).
    { unfold empty. rewrite Er. reflexivity. }
    unfold kpi_block in Hk. unfold tab1 in Hg. rewrite E in Hk, Hg.
    simpl in Hk. injection Hk as <-. injection Hg as <-.
    simpl. split; [reflexivity | tauto].
  - assert (E : empty (filtered_df s) = false).
    { apply (filter_rows_columns c d s Hs). rewrite Er. discriminate. }
    rewrite (kpi_block_count _ k E Hk), Er. split; [reflexivity |].
    unfold tab1 in Hg. rewrite E in Hg.
    apply bind_ok_inv in Hg. destruct Hg as [g0 [_ Hg]]. injection Hg as <-.
    split; discriminate.
Qed.

Lemma X10_count_matches_rows_witness :
  exists v,
    render insertion_kind sample sample_criteria (Some "Goals"%string) = Ok v /\
    total_players (kpi v) = Z.of_nat (List.length (rows (shown v))) /\
    (chart_goals v = None <-> rows (shown v) = []).
Proof.
  eexists. split; [reflexivity |].
  apply (X10_count_matches_rows insertion_kind sample sample_criteria
           (Some "Goals"%string)).
  reflexivity.
Defined.

(** ** What the loader does with a file it can read *)

Lemma load_data_returns (tf : string -> option Q) (fs : FileSystem)
    (path : string) (d : DataFrame) :
  fs path = Csv d ->
  well_typed d = true ->
  percent_columns_parse tf d = true ->
  exists d', load_data tf fs path = Ok (Some d').
Proof.
  intros Hfs Hwt Hparse.
  unfold well_typed in Hwt. repeat rewrite andb_true_iff in Hwt.
  destruct Hwt as [[Ht Hn] _].
  destruct (convert_columns_spec tf (map fst (columns d)) d)
    as (d' & Hd' & _).
  - apply typed_rectangular. exact Ht.
  - apply distinct_names_NoDup. exact Hn.
  - intros n Hin. exact Hin.
  - intros n s Hin Hs Hg. unfold percent_columns_parse in Hparse.
    rewrite forallb_forall in Hparse. specialize (Hparse n Hin).
    rewrite Hs, Hg in Hparse. exact Hparse.
  - exists d'. unfold load_data, read_csv. rewrite Hfs. simpl.
    rewrite Hd'. reflexivity.
Qed.

(** X11. On a file that holds a well-typed table the loader has two
    outcomes only: it raises ValueError, which nothing catches, exactly
    when a text column with a percent sign holds a value that is no number
    once its percent signs are removed; otherwise it returns a table.  It
    never takes the not-found exit for such a file. *)
Theorem X11_load_value_error (tf : string -> option Q) (fs : FileSystem)
    (path : string) (d : DataFrame) :
  fs path = Csv d ->
  well_typed d = true ->
  (load_data tf fs path = Raise ValueError
   <-> percent_columns_parse tf d = false) /\
  ((exists d', load_data tf fs path = Ok (Some d'))
   <-> percent_columns_parse tf d = true) /\
  (startup tf fs path = Crashed ValueError
   <-> percent_columns_parse tf d = false).
Proof.
  intros Hfs Hwt.
  assert (Hbad : percent_columns_parse tf d = false ->
                 load_data tf fs path = Raise ValueError)
    by (apply load_data_value_error; assumption).
  assert (Hgood : percent_columns_parse tf d = true ->
                  exists d', load_data tf fs path = Ok (Some d'))
    by (apply load_data_returns; assumption).
  split; [| split].
  - split; [| exact Hbad]. intros H.
    destruct (percent_columns_parse tf d); [| reflexivity].
    destruct (Hgood eq_refl) as [d' Hd']. congruence.
  - split; [| exact Hgood]. intros [d' Hd'].
    destruct (percent_columns_parse tf d); [reflexivity |].
    rewrite (Hbad eq_refl) in Hd'. discriminate.
  - unfold startup. split.
    + intros H. destruct (percent_columns_parse tf d); [| reflexivity].
      destruct (Hgood eq_refl) as [d' Hd']. rewrite Hd' in H. discriminate.
    + intros H. rewrite (Hbad H). reflexivity.
Qed.

Lemma X11_load_value_error_witness :
  (load_data decimal_float (fun _ => Csv not_a_number) data_file
   = Raise ValueError
   <-> percent_columns_parse decimal_float not_a_number = false) /\
  ((exists d', load_data decimal_float (fun _ => Csv not_a_number) data_file
               = Ok (Some d'))
   <-> percent_columns_parse decimal_float not_a_number = true) /\
  (startup decimal_float (fun _ => Csv not_a_number) data_file
   = Crashed ValueError
   <-> percent_columns_parse decimal_float not_a_number = false).
Proof.
  apply (X11_load_value_error decimal_float (fun _ => Csv not_a_number)
           data_file not_a_number); reflexivity.
Defined.

(** ** The goals chart and the goal total *)

Lemma Zsum_perm (l l' : list Z) : Permutation l l' -> Zsum l = Zsum l'.
Proof.
  induction 1; simpl; lia.
Qed.

Lemma Zsum_indicator (s : string) (x : Z) (keys : list string) :
  NoDup keys -> In s keys ->
  Zsum (map (fun k => if String.eqb s k then x else 0%Z) keys) = x.
Proof.
  induction keys as [| k keys IH]; intros Hnd Hin; [destruct Hin |].
  inversion Hnd as [| ? ? Hk Hnd']; subst. simpl.
  destruct (String.eqb s k) eqn:E.
  - apply String.eqb_eq in E. subst k.
    assert (H0 : Zsum (map (fun k => if String.eqb s k then x else 0%Z) keys)
                 = 0%Z).
    { clear IH Hnd Hnd' Hin. induction keys as [| k keys IH]; [reflexivity |].
      simpl. destruct (String.eqb s k) eqn:E.
      - apply String.eqb_eq in E. subst k. exfalso. apply Hk. left. reflexivity.
      - rewrite IH; [reflexivity |]. intros H. apply Hk. right. exact H. }
    rewrite H0. lia.
  - destruct Hin as [-> | Hin]; [rewrite String.eqb_refl in E; discriminate |].
    rewrite (IH Hnd' Hin). lia.
Qed.

Lemma Zsum_map_add {A : Type} (f g : A -> Z) (l : list A) :
  Zsum (map (fun a => f a + g a)%Z l) = (Zsum (map f l) + Zsum (map g l))%Z.
Proof.
  induction l as [| a l IH]; simpl; lia.
Qed.

Lemma group_totals_add_up (i j : nat) (keys : list string) (rs : list Row) :
  NoDup keys ->
  (forall r, In r rs -> exists k, cell_at i r = Str k /\ In k keys) ->
  Zsum (map (fun k => group_total i j k rs) keys) = Zsum (int_column j rs).
Proof.
  intros Hnd. induction rs as [| r rs IH]; intros Hin.
  - clear Hnd Hin. unfold group_total. simpl.
    induction keys as [| k keys IHk]; simpl in *; lia.
  - destruct (Hin r (or_introl eq_refl)) as [s [Hs Hk]].
    set (x := match cell_at j r with Int z => z | _ => 0%Z end).
    rewrite (map_ext (fun k => group_total i j k (r :: rs))
               (fun k => (if String.eqb s k then x else 0) +
                         group_total i j k rs)%Z).
    + rewrite (Zsum_map_add (fun k => if String.eqb s k then x else 0%Z)).
      rewrite (Zsum_indicator s x keys Hnd Hk).
      rewrite IH; [reflexivity |].
      intros r' Hr'. apply Hin. right. exact Hr'.
    + intros k. unfold group_total. simpl. unfold in_group at 1. rewrite Hs.
      destruct (String.eqb s k); reflexivity.
Qed.

Lemma subseq_abs_sum (j : nat) (l l' : list Row) :
  subseq l l' ->
  (Zsum (map Z.abs (int_column j l)) <= Zsum (map Z.abs (int_column j l')))%Z.
Proof.
  induction 1; simpl; lia.
Qed.

Lemma Zsum_abs_bound (l : list Z) : (Z.abs (Zsum l) <= Zsum (map Z.abs l))%Z.
Proof.
  induction l as [| z l IH]; simpl; lia.
Qed.

Lemma bars_add_up (kind : sorter) (v : DataFrame) (i j : nat) :
  sort_contract kind ->
  typed v = true ->
  locate "Club" v = Some (i, object) ->
  locate "Goals" v = Some (j, int64) ->
  (forall r, In r (rows v) -> exists k, cell_at i r = Str k) ->
  (Zsum (map Z.abs (int_column j (rows v))) < two63)%Z ->
  exists g,
    goals_by_club kind v = Ok g /\
    sum_cells g = Zsum (int_column j (rows v)).
Proof.
  intros Hkind Ht Hc Hg Hstr Hfit. unfold goals_by_club, groupSum.
  rewrite (groupby_sum_value v "Club" "Goals" i j Ht Hc Hg). simpl bind.
  set (keys := sort_strings
                 (nodup string_dec (somes (map (group_of i) (rows v))))).
  set (g := map (fun k => (k, Int (wrap64 (group_total i j k (rows v))))) keys).
  assert (Hna : forall p, In p g -> isna (snd p) = false).
  { intros p Hp. apply in_map_iff in Hp. destruct Hp as [k [<- _]]. reflexivity. }
  pose proof (nargsort_perm kind (fun p : string * cell => cell_key (snd p))
                (fun p => isna (snd p)) g Hkind Hna false) as Hp.
  eexists. split; [reflexivity |].
  unfold sum_cells.
  rewrite (Zsum_perm _ _ (Permutation_map _ Hp)).
  unfold g. rewrite map_map. simpl.
  rewrite (map_ext _ (fun k => group_total i j k (rows v))).
  - apply group_totals_add_up.
    + apply (Permutation_NoDup (Permutation_sym (sort_strings_perm _))).
      apply NoDup_nodup.
    + intros r Hr. destruct (Hstr r Hr) as [k Hk]. exists k.
      split; [exact Hk |].
      apply (group_keys_spec v i). exists r. split; assumption.
  - intros k. apply wrap64_fits. unfold fits_int64, group_total.
    pose proof (Zsum_abs_filter j (in_group i k) (rows v)). unfold two63 in *. lia.
Qed.

(** X12. The bars of the goals chart add up to the goal total shown
    beside them.  This holds on every page drawn from a well-formed table
    in which every row has a club and the goals do not overflow 64 bits
    (rows without a club would be counted in the total and left out of the
    chart). *)
Theorem X12_bars_add_up_to_total (kind : sorter) (d : DataFrame)
    (c : FilterCriteria) (sel : option string) (v : Dashboard)
    (g : list (string * cell)) :
  sort_contract kind ->
  well_formed d = true ->
  no_null "Club" d = true ->
  (Zsum (map Z.abs (int_values "Goals" d)) < two63)%Z ->
  render kind d c sel = Ok v ->
  chart_goals v = Some g ->
  sum_cells g = total_goals (kpi v).
Proof.
  intros Hkind Hwf Hn Hfit H Hchart. unfold render in H.
  apply bind_ok_inv in H. destruct H as [s [Hs H]].
  apply bind_ok_inv in H. destruct H as [k [Hk H]].
  apply bind_ok_inv in H. destruct H as [g0 [Hg H]].
  apply bind_ok_inv in H. destruct H as [t [_ H]].
  injection H as <-. simpl in *. subst g0.
  set (fd := filtered_df s) in *.
  destruct (empty fd) eqn:E.
  { unfold tab1 in Hg. rewrite E in Hg. discriminate. }
  destruct (filter_section_inv c d s Hs) as [_ Hd]. fold fd in Hd.
  destruct (derived_well_formed d fd Hwf Hd (empty_false_rows fd E))
    as [Hcols Hwf'].
  destruct Hd as [Hsub _].
  pose proof (well_formed_unpack d Hwf)
    as (Ht & _ & _ & [ic Hc] & _ & _ & [ig Hgo] & _).
  pose proof (well_formed_unpack fd Hwf')
    as (Ht' & _ & _ & [ic' Hc'] & _ & _ & [ig' Hgo'] & _).
  assert (ic' = ic /\ ig' = ig) as [-> ->].
  { unfold locate in *. rewrite Hcols in Hc', Hgo'. split; congruence. }
  assert (Hfit' : (Zsum (map Z.abs (int_column ig (rows fd))) < two63)%Z).
  { unfold int_values in Hfit. rewrite Hgo in Hfit.
    pose proof (subseq_abs_sum ig _ _ Hsub). lia. }
  assert (Hstr : forall r, In r (rows fd) -> exists x, cell_at ic r = Str x).
  { intros r Hr. unfold no_null in Hn. rewrite Hc in Hn.
    rewrite forallb_forall in Hn.
    specialize (Hn r (subseq_In _ _ _ Hsub Hr)).
    destruct (cell_at ic r); try discriminate. eauto. }
  destruct (bars_add_up kind fd ic ig Hkind Ht' Hc' Hgo' Hstr Hfit')
    as [g' [Hg' Hsum]].
  unfold tab1 in Hg. rewrite E, Hg' in Hg. simpl in Hg.
  injection Hg as <-.
  destruct (kpi_block_nonempty fd E Hwf') as [a [m [Hk' _]]].
  rewrite Hk' in Hk. injection Hk as <-. simpl.
  unfold int_values. rewrite Hgo'. rewrite Hsum.
  symmetry. apply wrap64_fits. unfold fits_int64.
  pose proof (Zsum_abs_bound (int_column ig (rows fd))).
  unfold two63 in *. lia.
Qed.

Lemma X12_bars_add_up_to_total_witness :
  exists v g,
    render insertion_kind sample sample_criteria (Some "Goals"%string) = Ok v /\
    chart_goals v = Some g /\
    sum_cells g = total_goals (kpi v).
Proof.
  eexists. eexists. split; [reflexivity |]. split; [reflexivity |].
  apply (X12_bars_add_up_to_total insertion_kind sample sample_criteria
           (Some "Goals"%string)).
  - apply insertion_kind_contract.
  - reflexivity.
  - reflexivity.
  - vm_compute. reflexivity.
  - reflexivity.
  - reflexivity.
Defined.

(** ** The ranking when the metric is missing in some rows *)

Lemma filter_partition_length {A : Type} (f : A -> bool) (l : list A) :
  (List.length (filter (fun x => negb (f x)) l) + List.length (filter f l)
   = List.length l)%nat.
Proof.
  induction l as [| x l IH]; simpl; [reflexivity |].
  destruct (f x); simpl; lia.
Qed.

Lemma filter_length_le {A : Type} (f : A -> bool) (l : list A) :
  (List.length (filter f l) <= List.length l)%nat.
Proof.
  induction l as [| x l IH]; simpl; [lia |].
  destruct (f x); simpl; lia.
Qed.

Lemma filter_full {A : Type} (f : A -> bool) (l : list A) :
  List.length (filter f l) = List.length l -> filter f l = l.
Proof.
  induction l as [| x l IH]; simpl; [reflexivity |].
  destruct (f x); simpl; intros H.
  - f_equal. apply IH. lia.
  - pose proof (filter_length_le f l). lia.
Qed.

Lemma firstn_split_filter {A : Type} (na : A -> bool) (n : nat)
    (V N : list A) :
  (forall x, In x V -> na x = false) ->
  (forall x, In x N -> na x = true) ->
  (List.length V <= n)%nat ->
  filter (fun x => negb (na x)) (firstn n (V ++ N)) = V /\
  filter na (firstn n (V ++ N)) = firstn (n - List.length V) N.
Proof.
  intros HV HN Hlen.
  rewrite firstn_app, (firstn_all2 V Hlen), !filter_app.
  assert (HN' : forall x, In x (firstn (n - List.length V) N) -> na x = true).
  { intros x Hx. apply HN. eapply In_firstn. exact Hx. }
  split.
  - rewrite (filter_all _ V), (filter_none _ (firstn _ N)).
    + apply app_nil_r.
    + intros x Hx. rewrite (HN' x Hx). reflexivity.
    + intros x Hx. rewrite (HV x Hx). reflexivity.
  - rewrite (filter_none _ V HV), (filter_all _ _ HN'). reflexivity.
Qed.

Section NlargestMissing.

Variables (kind : sorter) (n : nat) (metric : string) (v : DataFrame).
Variables (i : nat) (t : dtype).
Hypothesis Hkind : sort_contract kind.
Hypothesis Hloc : locate metric v = Some (i, t).
Hypothesis Hnum : is_number t = true.

Let na := fun r : Row => isna (cell_at i r).
Let dropped := filter (fun r => negb (na r)) (rows v).
Let nan_index := filter na (rows v).

Lemma nlargest_shape :
  exists top,
    nlargest kind (Z.of_nat n) metric v
    = Ok (with_rows v (firstn n (top ++ nan_index))) /\
    List.length top = Nat.min n (List.length dropped) /\
    (forall r, In r top -> In r dropped) /\
    ((List.length dropped <= n)%nat -> Permutation top dropped).
Proof.
  unfold nlargest. rewrite Hloc, Hnum. simpl negb. cbv iota.
  destruct (Z.leb_spec (Z.of_nat n) 0) as [Hz | Hz].
  { exists []. assert (n = 0)%nat by lia. subst n.
    split; [reflexivity |]. split; [reflexivity |].
    split; [intros r [] |].
    intros Hlen. destruct dropped; [constructor | simpl in Hlen; lia]. }
  cbv zeta. rewrite Nat2Z.id.
  fold na. fold dropped. fold nan_index.
  pose proof (filter_partition_length na (rows v)) as Hpart.
  fold dropped in Hpart. fold nan_index in Hpart.
  destruct (Z.leb_spec (Z.of_nat (List.length (rows v))) (Z.of_nat n))
    as [Hlen | Hlen].
  - (* the whole column is sorted *)
    unfold nargsort. fold na. fold dropped. fold nan_index.
    set (key := fun r => cell_key (cell_at i r)).
    set (top := rev (kind Row key (rev dropped))).
    assert (Hp : Permutation top dropped).
    { unfold top.
      eapply perm_trans; [apply Permutation_sym, Permutation_rev |].
      eapply perm_trans; [apply Hkind |].
      apply Permutation_sym, Permutation_rev. }
    exists top. split; [reflexivity |].
    split; [rewrite (Permutation_length Hp); lia |].
    split; [intros r Hr; eapply Permutation_in; eassumption |].
    intros _. exact Hp.
  - (* selection around the n-th largest value *)
    set (arr := fun r => (- cell_key (cell_at i r))%Q).
    set (m := Nat.min n (List.length dropped)).
    set (kth := kth_smallest (map arr dropped) (m - 1)).
    set (ns := filter (fun r => Qle_bool (arr r) kth) dropped).
    set (sorted := stable_sort arr ns).
    pose proof (stable_sort_perm arr ns : Permutation sorted ns) as Hp.
    assert (Hcount : (m <= List.length sorted)%nat).
    { destruct m as [| m'] eqn:Em; [lia |].
      rewrite (Permutation_length Hp). unfold ns.
      rewrite (filter_length_map arr (fun q => Qle_bool q kth) dropped).
      unfold kth. replace (S m' - 1)%nat with m' by lia.
      apply kth_smallest_count. rewrite length_map. lia. }
    exists (firstn m sorted). split; [reflexivity |].
    split; [rewrite length_firstn; lia |].
    split.
    { intros r Hr. apply In_firstn in Hr.
      apply (Permutation_in _ Hp) in Hr. unfold ns in Hr.
      apply filter_In in Hr. tauto. }
    intros Hle.
    assert (Hm : m = List.length dropped) by (unfold m; lia).
    assert (Hns : ns = dropped).
    { unfold ns. apply filter_full.
      pose proof (filter_length_le (fun r => Qle_bool (arr r) kth) dropped).
      rewrite (Permutation_length Hp) in Hcount. fold ns. unfold ns in Hcount.
      unfold ns. lia. }
    rewrite firstn_all2.
    + rewrite Hns in Hp. exact Hp.
    + rewrite (Permutation_length Hp), Hns. lia.
Qed.

End NlargestMissing.

(** X13. The ranking on a metric that some rows lack.  The chart still
    gets min(n, rows) rows: first the rows that have a value, in ascending
    order, then rows without one.  A row without a value is charted only
    when every row that has one is charted too. *)
Theorem X13_ranking_with_missing_values (kind : sorter) (n : nat)
    (metric : string) (v : DataFrame) (i : nat) (t : dtype) :
  sort_contract kind ->
  locate metric v = Some (i, t) ->
  is_number t = true ->
  exists valued missing,
    topN kind (Z.of_nat n) metric v = Ok (with_rows v (valued ++ missing)) /\
    List.length (valued ++ missing) = Nat.min n (List.length (rows v)) /\
    (forall r, In r valued ->
               In r (rows v) /\ isna (cell_at i r) = false) /\
    (forall r, In r missing ->
               In r (rows v) /\ isna (cell_at i r) = true) /\
    StronglySorted (fun a b => metric_of i a <= metric_of i b)%Q valued /\
    (missing <> [] ->
     forall r, In r (rows v) -> isna (cell_at i r) = false -> In r valued).
Proof.
  intros Hkind Hloc Hnum.
  destruct (nlargest_shape kind n metric v i t Hkind Hloc Hnum)
    as (top & Htop & Hlen & Hin & Hperm).
  pose proof (filter_partition_length (fun r => isna (cell_at i r)) (rows v))
    as Hpart.
  assert (HV : forall x, In x top -> isna (cell_at i x) = false).
  { intros x Hx. apply Hin in Hx.
    apply filter_In in Hx. destruct Hx as [_ Hx].
    apply negb_true_iff in Hx. exact Hx. }
  assert (HN : forall x,
             In x (filter (fun r => isna (cell_at i r)) (rows v)) ->
             isna (cell_at i x) = true).
  { intros x Hx. apply filter_In in Hx. destruct Hx as [_ Hx]. exact Hx. }
  assert (Hle : (List.length top <= n)%nat) by lia.
  destruct (firstn_split_filter (fun r => isna (cell_at i r)) n top _ HV HN Hle)
    as [Hv Hm].
  set (key := fun r => cell_key (cell_at i r)).
  pose proof (Hkind Row key top) as [Hsp Hss].
  exists (kind Row key top),
    (firstn (n - List.length top)
       (filter (fun r => isna (cell_at i r)) (rows v))).
  split.
  { unfold topN. rewrite Htop. simpl bind. unfold sort_values.
    match goal with |- context [locate metric ?d] =>
      change (locate metric d) with (locate metric v) end.
    rewrite Hloc, Hnum. unfold nargsort. simpl rows.
    rewrite Hv, Hm. reflexivity. }
  split.
  { rewrite length_app, (Permutation_length Hsp), length_firstn. lia. }
  split.
  { intros r Hr. apply (Permutation_in _ Hsp) in Hr.
    split; [| apply HV; exact Hr].
    apply Hin in Hr. apply filter_In in Hr. tauto. }
  split.
  { intros r Hr. apply In_firstn in Hr. split; [| apply HN; exact Hr].
    apply filter_In in Hr. tauto. }
  split; [exact Hss |].
  intros Hne r Hr Hna.
  assert (Hlt : (List.length top < n)%nat).
  { destruct (n - List.length top)%nat eqn:E; [| lia].
    exfalso. apply Hne. reflexivity. }
  apply (Permutation_in _ (Permutation_sym Hsp)).
  apply (Permutation_in _ (Permutation_sym (Hperm ltac:(lia)))).
  apply filter_In. split; [exact Hr |].
  rewrite Hna. reflexivity.
Qed.

Lemma X13_ranking_with_missing_values_witness :
  exists valued missing,
    topN insertion_kind (Z.of_nat 10) "Passes%" sample
    = Ok (with_rows sample (valued ++ missing)) /\
    List.length (valued ++ missing)
    = Nat.min 10 (List.length (rows sample)) /\
    (forall r, In r valued ->
               In r (rows sample) /\ isna (cell_at 7 r) = false) /\
    (forall r, In r missing ->
               In r (rows sample) /\ isna (cell_at 7 r) = true) /\
    StronglySorted (fun a b => metric_of 7 a <= metric_of 7 b)%Q valued /\
    (missing <> [] ->
     forall r, In r (rows sample) -> isna (cell_at 7 r) = false ->
               In r valued).
Proof.
  apply (X13_ranking_with_missing_values insertion_kind 10 "Passes%" sample
           7 float64).
  - apply insertion_kind_contract.
  - reflexivity.
  - reflexivity.
Defined.

(** ** The average of the minutes and the slider *)







(** ** The metric select box *)

Lemma list_index_spec (x : string) (l : list string) :
  In x l ->
  exists i, list_index x l = Ok i /\ (i < List.length l)%nat /\
            nth_error l i = Some x.
Proof.
  induction l as [| y l IH]; intros Hin; [destruct Hin |].
  simpl. destruct (String.eqb y x) eqn:E.
  - apply String.eqb_eq in E. subst y. exists 0%nat.
    split; [reflexivity |]. split; [simpl; lia | reflexivity].
  - destruct Hin as [-> | Hin]; [rewrite String.eqb_refl in E; discriminate |].
    destruct (IH Hin) as [i [Hi [Hlt Hn]]]. rewrite Hi. simpl.
    exists (S i). split; [reflexivity |]. split; [simpl; lia | exact Hn].
Qed.

(** X15. The select box of the ranking is always set up: its options are
    the rankable metrics in ascending order, and the index handed to it
    never raises and points inside the options (the list.index call is
    guarded by the membership test).  The index is the position of "Goals"
    among the rankable metrics in column order, or 0 without "Goals". *)
Theorem X15_metric_select_box (d : DataFrame) :
  ascending_strings (metric_options d) /\
  Permutation (metric_options d) (metrics_to_rank d) /\
  exists i,
    metric_index d = Ok i /\
    (metric_options d = [] \/ (i < List.length (metric_options d))%nat) /\
    (In "Goals"%string (metrics_to_rank d) ->
     nth_error (metrics_to_rank d) i = Some "Goals"%string) /\
    (~ In "Goals"%string (metrics_to_rank d) -> i = 0%nat).
Proof.
  split; [apply sort_strings_sorted |].
  split; [apply sort_strings_perm |].
  unfold metric_index.
  pose proof (Permutation_length (sort_strings_perm (metrics_to_rank d)))
    as Hlen.
  fold (metric_options d) in Hlen.
  destruct (mem_string "Goals" (metrics_to_rank d)) eqn:E.
  - apply mem_string_In in E.
    destruct (list_index_spec _ _ E) as [i [Hi [Hlt Hn]]].
    exists i. split; [exact Hi |]. split; [right; lia |].
    split; [intros _; exact Hn | intros H; contradiction].
  - exists 0%nat. split; [reflexivity |]. split.
    + destruct (metric_options d); [left; reflexivity | right; simpl; lia].
    + split; [| reflexivity]. intros H. apply mem_string_In in H. congruence.
Qed.

(** ** What the loader hands on *)

Lemma map_snd_set_nth (i : nat) (name : string) (t : dtype)
    (cols : list (string * dtype)) :
  map snd (set_nth i (name, t) cols) = set_nth i t (map snd cols).
Proof.
  revert i. induction cols as [| [c u] cols IH]; intros [| i]; simpl;
    try reflexivity.
  rewrite IH. reflexivity.
Qed.

Lemma row_conforms_set_nth (t : dtype) (v : cell) (ts : list dtype) :
  forall (cs : list cell) (i : nat),
    row_conforms ts cs = true -> conforms t v = true ->
    row_conforms (set_nth i t ts) (set_nth i v cs) = true.
Proof.
  induction ts as [| t0 ts IH]; intros [| c cs] i H Hv; simpl in H;
    try discriminate.
  - destruct i; reflexivity.
  - apply andb_true_iff in H. destruct H as [Hc Hr].
    destruct i as [| i]; simpl.
    + rewrite Hv, Hr. reflexivity.
    + rewrite Hc. simpl. apply IH; assumption.
Qed.

Lemma set_column_typed (i : nat) (t : dtype) (ts : list dtype) :
  forall (vs : list cell) (rs : list Row),
    forallb (fun r => row_conforms ts (cells r)) rs = true ->
    forallb (conforms t) vs = true ->
    forallb (fun r => row_conforms (set_nth i t ts) (cells r))
            (set_column i vs rs) = true.
Proof.
  induction vs as [| v vs IH]; intros [| r rs] Hr Hv; simpl in *;
    try reflexivity.
  apply andb_true_iff in Hr. destruct Hr as [Hr Hrs].
  apply andb_true_iff in Hv. destruct Hv as [Hv Hvs].
  rewrite (row_conforms_set_nth t v ts (cells r) i Hr Hv). simpl.
  apply IH; assumption.
Qed.

Lemma setitem_typed (d : DataFrame) (col : string) (s : Series)
    (i : nat) (t0 : dtype) :
  typed d = true ->
  locate col d = Some (i, t0) ->
  forallb (conforms (sdtype s)) (values s) = true ->
  typed (setitem d col s) = true.
Proof.
  intros Ht Hloc Hv. unfold typed, setitem in *. rewrite Hloc. simpl.
  rewrite map_snd_set_nth. apply set_column_typed; assumption.
Qed.

Lemma mapM_length {A B : Type} (f : A -> result B) (l : list A) :
  forall ys, mapM f l = Ok ys -> List.length ys = List.length l.
Proof.
  induction l as [| x l IH]; simpl; intros ys H.
  - injection H as <-. reflexivity.
  - apply bind_ok_inv in H. destruct H as [y [_ H]].
    apply bind_ok_inv in H. destruct H as [ys' [Hys H]].
    injection H as <-. simpl. rewrite (IH ys' Hys). reflexivity.
Qed.

Lemma converted_series (tf : string -> option Q) (s f : Series) :
  astype_float tf (str_remove percent s) = Ok f ->
  sdtype (div_scalar f 100) = float64 /\
  List.length (values (div_scalar f 100)) = List.length (values s) /\
  forallb (conforms float64) (values (div_scalar f 100)) = true.
Proof.
  unfold astype_float. intros H.
  apply bind_ok_inv in H. destruct H as [vs [Hvs H]]. injection H as <-.
  split; [reflexivity |]. split.
  - simpl. rewrite length_map. rewrite (mapM_length _ _ _ Hvs).
    unfold str_remove. simpl. apply length_map.
  - simpl. apply forallb_forall. intros c Hc. apply in_map_iff in Hc.
    destruct Hc as [c0 [<- _]]. destruct c0; reflexivity.
Qed.

Lemma convert_columns_keeps (tf : string -> option Q) :
  forall (names : list string) (d d' : DataFrame),
    typed d = true ->
    convert_columns tf names d = Ok d' ->
    typed d' = true /\
    map fst (columns d') = map fst (columns d) /\
    map label (rows d') = map label (rows d) /\
    forall name s,
      getitem d name = Ok s -> percent_gate s = false ->
      getitem d' name = Ok s.
Proof.
  induction names as [| col rest IH]; intros d d' Ht H; simpl in H.
  - injection H as <-. repeat split; auto.
  - apply bind_ok_inv in H. destruct H as [s [Hs H]].
    rewrite percent_gate_any in H.
    destruct (percent_gate s) eqn:G.
    + apply bind_ok_inv in H. destruct H as [f [Hf H]].
      destruct (converted_series tf s f Hf) as (Hdt & Hlen & Hconf).
      destruct (getitem_locate d col s Hs) as [i Hloc].
      assert (Hlen' : List.length (values (div_scalar f 100))
                      = List.length (rows d)).
      { rewrite Hlen. eapply getitem_length. exact Hs. }
      assert (Ht1 : typed (setitem d col (div_scalar f 100)) = true).
      { eapply setitem_typed; [exact Ht | exact Hloc |].
        rewrite Hdt. exact Hconf. }
      destruct (IH _ d' Ht1 H) as (Ht' & Hn & Hl & Hk).
      split; [exact Ht' |].
      split.
      { rewrite Hn. apply (setitem_names d col _ i (sdtype s) Hloc). }
      split.
      { rewrite Hl. apply (setitem_labels d col _ i (sdtype s) Hloc Hlen'). }
      intros name s0 Hs0 G0. apply Hk; [| exact G0].
      rewrite (getitem_setitem_other d col (div_scalar f 100) i (sdtype s)
                 Hloc Hlen' name); [exact Hs0 |].
      intros E. subst name. rewrite Hs in Hs0. injection Hs0 as <-.
      congruence.
    + apply IH; assumption.
Qed.

Lemma has_column_kept (d d' : DataFrame) (name : string) (t : dtype) :
  (forall name s, getitem d name = Ok s -> percent_gate s = false ->
                  getitem d' name = Ok s) ->
  (forall s, getitem d name = Ok s -> percent_gate s = false) ->
  has_column name t d = true -> has_column name t d' = true.
Proof.
  intros Hk Hg H. unfold has_column in *.
  destruct (locate name d) as [[i t'] |] eqn:Hloc; [| discriminate].
  assert (Hs : getitem d name
               = Ok {| sdtype := t'; values := map (cell_at i) (rows d) |}).
  { unfold getitem. rewrite Hloc. reflexivity. }
  pose proof (Hk _ _ Hs (Hg _ Hs)) as Hs'.
  apply getitem_locate in Hs'. destruct Hs' as [i' Hi']. simpl in Hi'.
  rewrite Hi'. exact H.
Qed.

(** X16. A table that loads is handed on in good order: a well-formed
    table in the file whose Club and Position columns carry no percent
    sign comes out of the loader well-formed, with its numeric columns
    untouched, so everything that follows can rely on it. *)
Theorem X16_loaded_table_well_formed (tf : string -> option Q)
    (fs : FileSystem) (path : string) (d d' : DataFrame) :
  fs path = Csv d ->
  well_formed d = true ->
  plain_text "Club" d = true ->
  plain_text "Position" d = true ->
  load_data tf fs path = Ok (Some d') ->
  well_formed d' = true /\
  forall name s,
    getitem d name = Ok s -> is_number (sdtype s) = true ->
    getitem d' name = Ok s.
Proof.
  intros Hfs Hwf Hclub Hpos Hload.
  unfold load_data, read_csv in Hload. rewrite Hfs in Hload. simpl in Hload.
  destruct (convert_columns tf (map fst (columns d)) d) as [d1 | e] eqn:E.
  2: { destruct e; discriminate. }
  injection Hload as ->.
  unfold well_formed, well_typed, required_columns in *.
  repeat rewrite andb_true_iff in Hwf.
  destruct Hwf as [[[Ht Hn] Hl] [[[[H1 H2] H3] H4] H5]].
  destruct (convert_columns_keeps tf _ d d' Ht E) as (Ht' & Hn' & Hl' & Hk).
  assert (Hnum : forall s, is_number (sdtype s) = true ->
                           percent_gate s = false).
  { intros s Hs. unfold percent_gate. destruct (sdtype s);
      [discriminate | reflexivity | reflexivity]. }
  assert (Hplain : forall name, plain_text name d = true ->
                     forall s, getitem d name = Ok s ->
                               percent_gate s = false).
  { intros name Hp s Hs. unfold plain_text in Hp. rewrite Hs in Hp.
    apply negb_true_iff in Hp. exact Hp. }
  assert (Hint : forall name, has_column name int64 d = true ->
                              has_column name int64 d' = true).
  { intros name H. apply (has_column_kept d d' name int64 Hk); [| exact H].
    intros s Hs. apply Hnum.
    destruct (getitem_locate d name s Hs) as [i Hi].
    unfold has_column in H. rewrite Hi in H.
    destruct (sdtype s); try discriminate; reflexivity. }
  split.
  - repeat rewrite andb_true_iff. rewrite Hn', Hl'.
    repeat split; try assumption.
    + apply (has_column_kept d d' "Club" object Hk (Hplain _ Hclub) H1).
    + apply (has_column_kept d d' "Position" object Hk (Hplain _ Hpos) H2).
    + apply Hint. exact H3.
    + apply Hint. exact H4.
    + apply Hint. exact H5.
  - intros name s Hs Hnumber. apply Hk; [exact Hs | apply Hnum; exact Hnumber].
Qed.

Lemma X16_loaded_table_well_formed_witness :
  exists d',
    load_data decimal_float sample_disk data_file = Ok (Some d') /\
    well_formed d' = true /\
    forall name s,
      getitem sample name = Ok s -> is_number (sdtype s) = true ->
      getitem d' name = Ok s.
Proof.
  eexists. split; [reflexivity |].
  apply (X16_loaded_table_well_formed decimal_float sample_disk data_file
           sample); reflexivity.
Defined.

(** ** No option of the sidebar is a dead end *)

Lemma filter_has {A : Type} (f : A -> bool) (l : list A) (x : A) :
  In x l -> f x = true -> filter f l <> [].
Proof.
  intros Hin Hf E.
  assert (H : In x (filter f l)) by (apply filter_In; split; assumption).
  rewrite E in H. destruct H.
Qed.

Lemma keeps_club (c : FilterCriteria) (ic ip im : nat) (r : Row) :
  keeps c ic ip im r = true ->
  exists x, cell_at ic r = Str x /\ In x (selected_clubs c).
Proof.
  unfold keeps. repeat rewrite andb_true_iff. intros [[H _] _].
  destruct (cell_at ic r) as [x | | |]; try discriminate.
  exists x. split; [reflexivity | apply mem_string_In; exact H].
Qed.

Lemma keeps_position (c : FilterCriteria) (ic ip im : nat) (r : Row) :
  keeps c ic ip im r = true ->
  selected_position c <> "All"%string ->
  cell_at ip r = Str (selected_position c).
Proof.
  unfold keeps. repeat rewrite andb_true_iff. intros [[_ H] _] Hne.
  apply orb_true_iff in H. destruct H as [H | H].
  - apply String.eqb_eq in H. contradiction.
  - destruct (cell_at ip r) as [x | | |]; try discriminate.
    apply String.eqb_eq in H. subst. reflexivity.
Qed.

(** X17. Every entry the two selectors offer leads somewhere.  On a
    well-formed table with at least one row, a club and a position in every
    row, and with the slider left as drawn: choosing any one club of the
    club selector shows at least one row, all of that club; choosing any
    entry of the position selector, with every club selected, shows at
    least one row, all of that position unless the entry is "All". *)
Theorem X17_no_dead_option (d : DataFrame) (ic ip : nat) :
  well_formed d = true ->
  locate "Club" d = Some (ic, object) ->
  locate "Position" d = Some (ip, object) ->
  no_null "Club" d = true ->
  no_null "Position" d = true ->
  rows d <> [] ->
  exists cl pl lo hi,
    clubs d = Ok cl /\ positions d = Ok pl /\
    minutes_bounds d = Ok (lo, hi) /\
    (forall k, In k cl ->
       exists s,
         filter_section {| selected_clubs := [k];
                           selected_position := "All";
                           selected_minutes_range := (lo, hi) |} d = Ok s /\
         rows (filtered_df s) <> [] /\
         forall r, In r (rows (filtered_df s)) -> cell_at ic r = Str k) /\
    (forall p, In p pl ->
       exists s,
         filter_section {| selected_clubs := cl;
                           selected_position := p;
                           selected_minutes_range := (lo, hi) |} d = Ok s /\
         rows (filtered_df s) <> [] /\
         (p <> "All"%string ->
          forall r, In r (rows (filtered_df s)) -> cell_at ip r = Str p)).
Proof.
  intros Hwf Hc Hp Hnc Hnp Hne.
  pose proof (well_formed_unpack d Hwf) as (Ht & _ & _ & _ & _ & [im Hm] & _).
  destruct (sorted_unique_spec d "Club" ic Ht Hc Hnc)
    as (cl & Hcl & _ & _ & Hcin).
  destruct (sorted_unique_spec d "Position" ip Ht Hp Hnp)
    as (ps & Hps & _ & _ & Hpin).
  destruct (minutes_bounds_cover d im Ht Hm Hne) as (lo & hi & Hb & Hcov).
  assert (Hmin : forall r, In r (rows d) ->
            match cell_at im r with
            | Int v => ((lo <=? v) && (v <=? hi))%Z
            | _ => false
            end = true).
  { intros r Hr. destruct (Hcov r Hr) as [v [-> Hv]].
    apply andb_true_iff. split; apply Z.leb_le; lia. }
  assert (Hclub : forall r, In r (rows d) ->
            exists x, cell_at ic r = Str x /\ In x cl).
  { intros r Hr. unfold no_null in Hnc. rewrite Hc in Hnc.
    rewrite forallb_forall in Hnc. specialize (Hnc r Hr).
    destruct (cell_at ic r) as [x | | |] eqn:Ex; try discriminate.
    exists x. split; [reflexivity |]. apply Hcin. eauto. }
  assert (Hex : exists r, In r (rows d)).
  { destruct (rows d) as [| r rs]; [contradiction |].
    exists r. left. reflexivity. }
  destruct Hex as [r1 Hr1].
  assert (Hcl_ne : cl <> []).
  { destruct (Hclub r1 Hr1) as [x [_ Hx]]. intros ->. destruct Hx. }
  exists cl, ("All"%string :: ps), lo, hi.
  split; [unfold clubs, getitem; rewrite Hc; exact Hcl |].
  split; [unfold positions, getitem; rewrite Hp; simpl bind; rewrite Hps;
          reflexivity |].
  split; [exact Hb |]. split.
  - intros k Hk. apply Hcin in Hk. destruct Hk as [r0 [Hr0 Hk0]].
    set (c := {| selected_clubs := [k]; selected_position := "All";
                 selected_minutes_range := (lo, hi) |}).
    destruct (filter_section_rows d c ic ip im object object Ht
                ltac:(discriminate) Hc Hp Hm) as (s & Hs & _ & _ & Hrows).
    exists s. split; [exact Hs |]. rewrite Hrows. split.
    + apply (filter_has _ _ r0 Hr0). unfold keeps. simpl.
      rewrite Hk0, (Hmin r0 Hr0). simpl. rewrite String.eqb_refl. reflexivity.
    + intros r Hr. apply filter_In in Hr. destruct Hr as [_ Hr].
      apply keeps_club in Hr. destruct Hr as [x [Hx [<- | []]]]. exact Hx.
  - intros p Hpl.
    set (c := {| selected_clubs := cl; selected_position := p;
                 selected_minutes_range := (lo, hi) |}).
    destruct (filter_section_rows d c ic ip im object object Ht Hcl_ne Hc Hp Hm)
      as (s & Hs & _ & _ & Hrows).
    exists s. split; [exact Hs |]. rewrite Hrows. split.
    + destruct (string_dec p "All") as [-> | Hnall].
      * apply (filter_has _ _ r1 Hr1). unfold keeps. simpl.
        destruct (Hclub r1 Hr1) as [x [-> Hx]].
        rewrite (proj2 (mem_string_In x cl) Hx), (Hmin r1 Hr1). reflexivity.
      * destruct Hpl as [E | Hpl]; [congruence |].
        apply Hpin in Hpl. destruct Hpl as [r0 [Hr0 Hp0]].
        apply (filter_has _ _ r0 Hr0). unfold keeps. simpl.
        destruct (Hclub r0 Hr0) as [x [-> Hx]].
        rewrite (proj2 (mem_string_In x cl) Hx), (Hmin r0 Hr0), Hp0.
        rewrite String.eqb_refl, orb_true_r. reflexivity.
    + intros Hnall r Hr. apply filter_In in Hr. destruct Hr as [_ Hr].
      apply (keeps_position c ic ip im r Hr Hnall).
Qed.

Lemma X17_no_dead_option_witness :
  exists cl pl lo hi,
    clubs sample = Ok cl /\ positions sample = Ok pl /\
    minutes_bounds sample = Ok (lo, hi) /\
    (forall k, In k cl ->
       exists s,
         filter_section {| selected_clubs := [k];
                           selected_position := "All";
                           selected_minutes_range := (lo, hi) |} sample
         = Ok s /\
         rows (filtered_df s) <> [] /\
         forall r, In r (rows (filtered_df s)) -> cell_at 1 r = Str k) /\
    (forall p, In p pl ->
       exists s,
         filter_section {| selected_clubs := cl;
                           selected_position := p;
                           selected_minutes_range := (lo, hi) |} sample
         = Ok s /\
         rows (filtered_df s) <> [] /\
         (p <> "All"%string ->
          forall r, In r (rows (filtered_df s)) -> cell_at 2 r = Str p)).
Proof.
  apply (X17_no_dead_option sample 1 2); try reflexivity. discriminate.
Defined.
